(** * gofpdf: the document engine, embedded and verified

    A shallow embedding of the Go package [gofpdf] (a translation of FPDF):
    the [Fpdf] document state, the text layout operations ([Cell],
    [MultiCell], [Write], [GetStringWidth]) and the serializer ([endDoc] and
    the [put...] family), followed by the properties proved about them.

    Conventions of the embedding.
    - A Go [string] is a byte sequence: it is a Rocq [string] (a sequence of
      8-bit [ascii]); indexing and slicing go through its list of bytes.
    - Go's [int] is 64 bits wide.  The width accumulators, which add table
      entries of a font, wrap with [wrap64].  Counters that count pages,
      objects or string positions are bounded by the size of the data in
      memory and are plain [Z] or [nat].
    - [float64] is modelled by the exact rationals [Q]: rounding, infinities
      and NaN are outside the model.  Equations between computed lengths
      are stated with [==].
    - A Go panic is the [Panic] result of the [Res] monad.
    - The functions of Go's standard library that the package calls and
      whose behaviour is not fixed by the package itself (number formatting,
      case mapping, zlib, the clock, rune decoding, map iteration order) and
      the two user hooks are the fields of the class [Host]. *)

From Stdlib Require Import ZArith QArith Qround Qabs String Ascii List Lia Lqa.
From stdpp Require Import base option list gmap strings pretty sorting.

Local Open Scope string_scope.
Local Open Scope list_scope.
Local Open Scope Z_scope.

(** ** Results of calls that may panic *)

Inductive Res (A : Type) : Type :=
| Ok (a : A)
| Panic (msg : string).
Arguments Ok {A} a.
Arguments Panic {A} msg.

Global Instance Res_ret : MRet Res := fun A a => Ok a.
Global Instance Res_bind : MBind Res := fun A B f r =>
  match r with
  | Ok a => f a
  | Panic m => Panic m
  end.

Lemma bind_Ok {A B} (r : Res A) (f : A -> Res B) (b : B) :
  r ≫= f = Ok b -> exists a, r = Ok a /\ f a = Ok b.
Proof. destruct r as [a|m]; simpl; [eauto | discriminate]. Qed.



Lemma bind_Panic {A B} (r : Res A) (f : A -> Res B) (m : string) :
  r ≫= f = Panic m -> r = Panic m \/ exists a, r = Ok a /\ f a = Panic m.
Proof. destruct r as [a|m']; simpl; [eauto | intros [= ->]; auto]. Qed.

(** ** Machine integers *)


(** The value of a Go [int] after an arithmetic operation whose exact
    result is [z]. *)
Definition wrap64 (z : Z) : Z := (z + 2 ^ 63) mod 2 ^ 64 - 2 ^ 63.



Lemma wrap64_add_l a b : wrap64 (wrap64 a + b) = wrap64 (a + b).
Proof.
  unfold wrap64.
  replace ((a + 2 ^ 63) mod 2 ^ 64 - 2 ^ 63 + b + 2 ^ 63)
    with ((a + 2 ^ 63) mod 2 ^ 64 + b) by lia.
  rewrite Zplus_mod_idemp_l. f_equal. f_equal. lia.
Qed.

(** ** float64 comparisons on the rational model *)

Definition Qgtb (a b : Q) : bool := negb (Qle_bool a b).
Definition Qneqb (a b : Q) : bool := negb (Qeq_bool a b).



(** ** Strings as byte sequences *)

Definition bytes (s : string) : list ascii := list_ascii_of_string s.
Definition str (l : list ascii) : string := string_of_list_ascii l.

Lemma bytes_str l : bytes (str l) = l.
Proof. apply list_ascii_of_string_of_list_ascii. Qed.

Lemma str_bytes s : str (bytes s) = s.
Proof. apply string_of_list_ascii_of_string. Qed.

Lemma bytes_app s1 s2 : bytes (s1 +:+ s2) = bytes s1 ++ bytes s2.
Proof. induction s1 as [|c s1 IH]; simpl; [reflexivity | now rewrite IH]. Qed.

Lemma bytes_nil_inv s : bytes s = [] -> s = "".
Proof. destruct s; [reflexivity | discriminate]. Qed.

(** [len(s)] *)
Definition len (s : string) : nat := length (bytes s).

(** [s[j:i]] on the bytes of a string. *)
Definition slice (bs : list ascii) (j i : nat) : string :=
  str (take (i - j) (drop j bs)).

Definition streq (a b : string) : bool := bool_decide (a = b).

Lemma streq_refl (a : string) : streq a a = true.
Proof. unfold streq. now apply bool_decide_eq_true. Qed.

Lemma streq_true (a b : string) : streq a b = true <-> a = b.
Proof. unfold streq. apply bool_decide_eq_true. Qed.

Lemma streq_false (a b : string) : streq a b = false <-> a <> b.
Proof. unfold streq. apply bool_decide_eq_false. Qed.

(** [strings.Contains(s, c)] and [strings.Count(s, c)] for a pattern [c] of
    one byte, the only patterns the package uses. *)
Definition containsByte (s : string) (c : ascii) : bool :=
  existsb (fun d => bool_decide (d = c)) (bytes s).

Definition countByte (s : string) (c : ascii) : nat :=
  length (filter (fun d => d = c) (bytes s)).

(** [strings.ReplaceAll(s, old, new)] for [old] of one byte. *)
Definition replaceByte (old : ascii) (new : string) (s : string) : string :=
  str (flat_map (fun d => if bool_decide (d = old) then bytes new else [d])
         (bytes s)).

(** [strings.ReplaceAll(s, old, new)] for a non-empty [old]: a left-to-right
    scan without overlap; [skip] counts the bytes of a match still to drop. *)
Fixpoint replaceFrom (old new : list ascii) (skip : nat) (s : list ascii)
  : list ascii :=
  match s with
  | [] => []
  | c :: t =>
      match skip with
      | S m => replaceFrom old new m t
      | O =>
          if bool_decide (take (length old) s = old)
          then new ++ replaceFrom old new (length old - 1) t
          else c :: replaceFrom old new O t
      end
  end.

Definition replaceAll (s old new : string) : string :=
  str (replaceFrom (bytes old) (bytes new) O (bytes s)).

(** [strings.Join(l, sep)] *)
Fixpoint join (l : list string) (sep : string) : string :=
  match l with
  | [] => ""
  | [a] => a
  | a :: rest => a +:+ sep +:+ join rest sep
  end.

(** [strconv.Itoa] *)
Definition itoa (z : Z) : string := pretty z.

(** The verb [%0Nd] of [fmt], for the non-negative values it is used on. *)
Definition padLeft (width : nat) (c : ascii) (s : string) : string :=
  str (replicate (width - len s) c ++ bytes s).

Definition sprintf_0d (width : nat) (z : Z) : string :=
  padLeft width "0"%char (itoa z).

(** The verb [%0NX] of [fmt] on a non-negative integer. *)
Definition hexDigit (d : Z) : ascii :=
  nth (Z.to_nat d) (bytes "0123456789ABCDEF") "0"%char.

Fixpoint hexFrom (fuel : nat) (z : Z) (acc : list ascii) : list ascii :=
  match fuel with
  | O => acc
  | S f =>
      if z <? 16 then hexDigit z :: acc
      else hexFrom f (z / 16) (hexDigit (z mod 16) :: acc)
  end.

Definition sprintf_0X (width : nat) (z : Z) : string :=
  padLeft width "0"%char (str (hexFrom 64 z [])).

(** ** Data model *)

(** An entry of a font's code-point map: one code point, or a run of
    consecutive ones ([pdfUVRange]). *)
Inductive uvEntry : Type :=
| UVInt (v : Z)
| UVRange (start count : Z).

(** [pdfFont].  The width table [cw [256]int] is indexed by a byte and is
    total on bytes. *)
Record pdfFont : Type := mkFont {
  font_typ : string;
  font_name : string;
  font_up : Q;
  font_ut : Q;
  font_cw : ascii -> Z;
  font_enc : string;
  font_uv : gmap Z uvEntry;
  font_n : Z;
  font_i : Z
}.

Definition font_with_n (f : pdfFont) (m : Z) : pdfFont :=
  mkFont (font_typ f) (font_name f) (font_up f) (font_ut f) (font_cw f)
    (font_enc f) (font_uv f) m (font_i f).

Definition font_with_i (f : pdfFont) (m : Z) : pdfFont :=
  mkFont (font_typ f) (font_name f) (font_up f) (font_ut f) (font_cw f)
    (font_enc f) (font_uv f) (font_n f) m.

(** [pdfImage], with the fields the serializer reads. *)
Record pdfImage : Type := mkImage {
  img_w : Z;
  img_h : Z;
  img_cs : string;
  img_bpc : Z;
  img_f : string;
  img_data : list ascii;
  img_n : Z;
  img_i : Z
}.

Definition img_with_n (im : pdfImage) (m : Z) : pdfImage :=
  mkImage (img_w im) (img_h im) (img_cs im) (img_bpc im) (img_f im)
    (img_data im) m (img_i im).

(** The dynamically typed arguments ([interface{}]) of the package. *)
Inductive Border : Type :=
| BNil
| BInt (z : Z)
| BStr (s : string).

Inductive LinkVal : Type :=
| LNil
| LStr (s : string)
| LInt (z : Z)
| LNum (q : Q).

Inductive ZoomMode : Type :=
| ZoomNil
| ZoomStr (s : string)
| ZoomNum (q : Q).

(** An element of [pageLinks[page]]: the slice
    [{x*k, hPt - y*k, w*k, h*k, link}], and what [putPages] appends to it. *)
Record PageLink : Type := mkPageLink {
  pl_x : Q;
  pl_y : Q;
  pl_w : Q;
  pl_h : Q;
  pl_link : LinkVal;
  pl_tail : list Z
}.

(** [pageInfo[page]]: the keys "size", "rotation" and "n" of the map. *)
Record PageInfo : Type := mkPageInfo {
  pi_size : option (Q * Q);
  pi_rotation : option Z;
  pi_n : option Z
}.

Definition emptyInfo : PageInfo := mkPageInfo None None None.

(** The document, [Fpdf].  The fields [fontpath], [fontFiles], [encodings]
    and [cmaps] are never read by the package and are left out; the hooks
    [headerFunc] and [footerFunc] are in [Host]. *)
Record Fpdf : Type := mkFpdf {
  state : Z;
  page : Z;
  n : Z;
  offsets : gmap Z Z;
  buffer : list ascii;
  pages : gmap Z (list string);
  compress : bool;
  k : Q;
  defOrientation : string;
  curOrientation : string;
  stdPageSizes : gmap string (Q * Q);
  defPageSize : Q * Q;
  curPageSize : Q * Q;
  curRotation : Z;
  pageInfo : gmap Z PageInfo;
  wPt : Q;
  hPt : Q;
  w : Q;
  h : Q;
  lMargin : Q;
  tMargin : Q;
  rMargin : Q;
  bMargin : Q;
  cMargin : Q;
  x : Q;
  y : Q;
  lasth : Q;
  lineWidth : Q;
  coreFonts : list string;
  fonts : gmap string pdfFont;
  fontFamily : string;
  fontStyle : string;
  underline : bool;
  currentFont : option pdfFont;
  fontSizePt : Q;
  fontSize : Q;
  drawColor : string;
  fillColor : string;
  textColor : string;
  colorFlag : bool;
  withAlpha : bool;
  ws : Q;
  images : gmap string pdfImage;
  pageLinks : gmap Z (list PageLink);
  links : gmap Z (Q * Q);
  autoPageBreak : bool;
  pageBreakTrigger : Q;
  inHeader : bool;
  inFooter : bool;
  aliasNbPages : string;
  zoomMode : ZoomMode;
  layoutMode : string;
  metadata : gmap string string;
  creationDate : string;
  pdfVersion : string;
  assetFonts : gmap string pdfFont;
  lastError : string
}.

(** Assignment to one field. *)
Definition set_state (v : Z) (p : Fpdf) : Fpdf :=
  mkFpdf
    v (page p) (n p) (offsets p) (buffer p) (pages p) (compress p) (k p)
    (defOrientation p) (curOrientation p) (stdPageSizes p) (defPageSize p)
    (curPageSize p) (curRotation p) (pageInfo p) (wPt p) (hPt p) (w p) (h p)
    (lMargin p) (tMargin p) (rMargin p) (bMargin p) (cMargin p) (x p) (y p)
    (lasth p) (lineWidth p) (coreFonts p) (fonts p) (fontFamily p)
    (fontStyle p) (underline p) (currentFont p) (fontSizePt p) (fontSize p)
    (drawColor p) (fillColor p) (textColor p) (colorFlag p) (withAlpha p)
    (ws p) (images p) (pageLinks p) (links p) (autoPageBreak p)
    (pageBreakTrigger p) (inHeader p) (inFooter p) (aliasNbPages p)
    (zoomMode p) (layoutMode p) (metadata p) (creationDate p) (pdfVersion p)
    (assetFonts p) (lastError p).

Definition set_page (v : Z) (p : Fpdf) : Fpdf :=
  mkFpdf
    (state p) v (n p) (offsets p) (buffer p) (pages p) (compress p) (k p)
    (defOrientation p) (curOrientation p) (stdPageSizes p) (defPageSize p)
    (curPageSize p) (curRotation p) (pageInfo p) (wPt p) (hPt p) (w p) (h p)
    (lMargin p) (tMargin p) (rMargin p) (bMargin p) (cMargin p) (x p) (y p)
    (lasth p) (lineWidth p) (coreFonts p) (fonts p) (fontFamily p)
    (fontStyle p) (underline p) (currentFont p) (fontSizePt p) (fontSize p)
    (drawColor p) (fillColor p) (textColor p) (colorFlag p) (withAlpha p)
    (ws p) (images p) (pageLinks p) (links p) (autoPageBreak p)
    (pageBreakTrigger p) (inHeader p) (inFooter p) (aliasNbPages p)
    (zoomMode p) (layoutMode p) (metadata p) (creationDate p) (pdfVersion p)
    (assetFonts p) (lastError p).

Definition set_n (v : Z) (p : Fpdf) : Fpdf :=
  mkFpdf
    (state p) (page p) v (offsets p) (buffer p) (pages p) (compress p) (k p)
    (defOrientation p) (curOrientation p) (stdPageSizes p) (defPageSize p)
    (curPageSize p) (curRotation p) (pageInfo p) (wPt p) (hPt p) (w p) (h p)
    (lMargin p) (tMargin p) (rMargin p) (bMargin p) (cMargin p) (x p) (y p)
    (lasth p) (lineWidth p) (coreFonts p) (fonts p) (fontFamily p)
    (fontStyle p) (underline p) (currentFont p) (fontSizePt p) (fontSize p)
    (drawColor p) (fillColor p) (textColor p) (colorFlag p) (withAlpha p)
    (ws p) (images p) (pageLinks p) (links p) (autoPageBreak p)
    (pageBreakTrigger p) (inHeader p) (inFooter p) (aliasNbPages p)
    (zoomMode p) (layoutMode p) (metadata p) (creationDate p) (pdfVersion p)
    (assetFonts p) (lastError p).

Definition set_offsets (v : gmap Z Z) (p : Fpdf) : Fpdf :=
  mkFpdf
    (state p) (page p) (n p) v (buffer p) (pages p) (compress p) (k p)
    (defOrientation p) (curOrientation p) (stdPageSizes p) (defPageSize p)
    (curPageSize p) (curRotation p) (pageInfo p) (wPt p) (hPt p) (w p) (h p)
    (lMargin p) (tMargin p) (rMargin p) (bMargin p) (cMargin p) (x p) (y p)
    (lasth p) (lineWidth p) (coreFonts p) (fonts p) (fontFamily p)
    (fontStyle p) (underline p) (currentFont p) (fontSizePt p) (fontSize p)
    (drawColor p) (fillColor p) (textColor p) (colorFlag p) (withAlpha p)
    (ws p) (images p) (pageLinks p) (links p) (autoPageBreak p)
    (pageBreakTrigger p) (inHeader p) (inFooter p) (aliasNbPages p)
    (zoomMode p) (layoutMode p) (metadata p) (creationDate p) (pdfVersion p)
    (assetFonts p) (lastError p).

Definition set_buffer (v : list ascii) (p : Fpdf) : Fpdf :=
  mkFpdf
    (state p) (page p) (n p) (offsets p) v (pages p) (compress p) (k p)
    (defOrientation p) (curOrientation p) (stdPageSizes p) (defPageSize p)
    (curPageSize p) (curRotation p) (pageInfo p) (wPt p) (hPt p) (w p) (h p)
    (lMargin p) (tMargin p) (rMargin p) (bMargin p) (cMargin p) (x p) (y p)
    (lasth p) (lineWidth p) (coreFonts p) (fonts p) (fontFamily p)
    (fontStyle p) (underline p) (currentFont p) (fontSizePt p) (fontSize p)
    (drawColor p) (fillColor p) (textColor p) (colorFlag p) (withAlpha p)
    (ws p) (images p) (pageLinks p) (links p) (autoPageBreak p)
    (pageBreakTrigger p) (inHeader p) (inFooter p) (aliasNbPages p)
    (zoomMode p) (layoutMode p) (metadata p) (creationDate p) (pdfVersion p)
    (assetFonts p) (lastError p).

Definition set_pages (v : gmap Z (list string)) (p : Fpdf) : Fpdf :=
  mkFpdf
    (state p) (page p) (n p) (offsets p) (buffer p) v (compress p) (k p)
    (defOrientation p) (curOrientation p) (stdPageSizes p) (defPageSize p)
    (curPageSize p) (curRotation p) (pageInfo p) (wPt p) (hPt p) (w p) (h p)
    (lMargin p) (tMargin p) (rMargin p) (bMargin p) (cMargin p) (x p) (y p)
    (lasth p) (lineWidth p) (coreFonts p) (fonts p) (fontFamily p)
    (fontStyle p) (underline p) (currentFont p) (fontSizePt p) (fontSize p)
    (drawColor p) (fillColor p) (textColor p) (colorFlag p) (withAlpha p)
    (ws p) (images p) (pageLinks p) (links p) (autoPageBreak p)
    (pageBreakTrigger p) (inHeader p) (inFooter p) (aliasNbPages p)
    (zoomMode p) (layoutMode p) (metadata p) (creationDate p) (pdfVersion p)
    (assetFonts p) (lastError p).

Definition set_compress (v : bool) (p : Fpdf) : Fpdf :=
  mkFpdf
    (state p) (page p) (n p) (offsets p) (buffer p) (pages p) v (k p)
    (defOrientation p) (curOrientation p) (stdPageSizes p) (defPageSize p)
    (curPageSize p) (curRotation p) (pageInfo p) (wPt p) (hPt p) (w p) (h p)
    (lMargin p) (tMargin p) (rMargin p) (bMargin p) (cMargin p) (x p) (y p)
    (lasth p) (lineWidth p) (coreFonts p) (fonts p) (fontFamily p)
    (fontStyle p) (underline p) (currentFont p) (fontSizePt p) (fontSize p)
    (drawColor p) (fillColor p) (textColor p) (colorFlag p) (withAlpha p)
    (ws p) (images p) (pageLinks p) (links p) (autoPageBreak p)
    (pageBreakTrigger p) (inHeader p) (inFooter p) (aliasNbPages p)
    (zoomMode p) (layoutMode p) (metadata p) (creationDate p) (pdfVersion p)
    (assetFonts p) (lastError p).

Definition set_k (v : Q) (p : Fpdf) : Fpdf :=
  mkFpdf
    (state p) (page p) (n p) (offsets p) (buffer p) (pages p) (compress p) v
    (defOrientation p) (curOrientation p) (stdPageSizes p) (defPageSize p)
    (curPageSize p) (curRotation p) (pageInfo p) (wPt p) (hPt p) (w p) (h p)
    (lMargin p) (tMargin p) (rMargin p) (bMargin p) (cMargin p) (x p) (y p)
    (lasth p) (lineWidth p) (coreFonts p) (fonts p) (fontFamily p)
    (fontStyle p) (underline p) (currentFont p) (fontSizePt p) (fontSize p)
    (drawColor p) (fillColor p) (textColor p) (colorFlag p) (withAlpha p)
    (ws p) (images p) (pageLinks p) (links p) (autoPageBreak p)
    (pageBreakTrigger p) (inHeader p) (inFooter p) (aliasNbPages p)
    (zoomMode p) (layoutMode p) (metadata p) (creationDate p) (pdfVersion p)
    (assetFonts p) (lastError p).

Definition set_defOrientation (v : string) (p : Fpdf) : Fpdf :=
  mkFpdf
    (state p) (page p) (n p) (offsets p) (buffer p) (pages p) (compress p)
    (k p) v (curOrientation p) (stdPageSizes p) (defPageSize p)
    (curPageSize p) (curRotation p) (pageInfo p) (wPt p) (hPt p) (w p) (h p)
    (lMargin p) (tMargin p) (rMargin p) (bMargin p) (cMargin p) (x p) (y p)
    (lasth p) (lineWidth p) (coreFonts p) (fonts p) (fontFamily p)
    (fontStyle p) (underline p) (currentFont p) (fontSizePt p) (fontSize p)
    (drawColor p) (fillColor p) (textColor p) (colorFlag p) (withAlpha p)
    (ws p) (images p) (pageLinks p) (links p) (autoPageBreak p)
    (pageBreakTrigger p) (inHeader p) (inFooter p) (aliasNbPages p)
    (zoomMode p) (layoutMode p) (metadata p) (creationDate p) (pdfVersion p)
    (assetFonts p) (lastError p).

Definition set_curOrientation (v : string) (p : Fpdf) : Fpdf :=
  mkFpdf
    (state p) (page p) (n p) (offsets p) (buffer p) (pages p) (compress p)
    (k p) (defOrientation p) v (stdPageSizes p) (defPageSize p)
    (curPageSize p) (curRotation p) (pageInfo p) (wPt p) (hPt p) (w p) (h p)
    (lMargin p) (tMargin p) (rMargin p) (bMargin p) (cMargin p) (x p) (y p)
    (lasth p) (lineWidth p) (coreFonts p) (fonts p) (fontFamily p)
    (fontStyle p) (underline p) (currentFont p) (fontSizePt p) (fontSize p)
    (drawColor p) (fillColor p) (textColor p) (colorFlag p) (withAlpha p)
    (ws p) (images p) (pageLinks p) (links p) (autoPageBreak p)
    (pageBreakTrigger p) (inHeader p) (inFooter p) (aliasNbPages p)
    (zoomMode p) (layoutMode p) (metadata p) (creationDate p) (pdfVersion p)
    (assetFonts p) (lastError p).

Definition set_stdPageSizes (v : gmap string (Q * Q)) (p : Fpdf) : Fpdf :=
  mkFpdf
    (state p) (page p) (n p) (offsets p) (buffer p) (pages p) (compress p)
    (k p) (defOrientation p) (curOrientation p) v (defPageSize p)
    (curPageSize p) (curRotation p) (pageInfo p) (wPt p) (hPt p) (w p) (h p)
    (lMargin p) (tMargin p) (rMargin p) (bMargin p) (cMargin p) (x p) (y p)
    (lasth p) (lineWidth p) (coreFonts p) (fonts p) (fontFamily p)
    (fontStyle p) (underline p) (currentFont p) (fontSizePt p) (fontSize p)
    (drawColor p) (fillColor p) (textColor p) (colorFlag p) (withAlpha p)
    (ws p) (images p) (pageLinks p) (links p) (autoPageBreak p)
    (pageBreakTrigger p) (inHeader p) (inFooter p) (aliasNbPages p)
    (zoomMode p) (layoutMode p) (metadata p) (creationDate p) (pdfVersion p)
    (assetFonts p) (lastError p).

Definition set_defPageSize (v : Q * Q) (p : Fpdf) : Fpdf :=
  mkFpdf
    (state p) (page p) (n p) (offsets p) (buffer p) (pages p) (compress p)
    (k p) (defOrientation p) (curOrientation p) (stdPageSizes p) v
    (curPageSize p) (curRotation p) (pageInfo p) (wPt p) (hPt p) (w p) (h p)
    (lMargin p) (tMargin p) (rMargin p) (bMargin p) (cMargin p) (x p) (y p)
    (lasth p) (lineWidth p) (coreFonts p) (fonts p) (fontFamily p)
    (fontStyle p) (underline p) (currentFont p) (fontSizePt p) (fontSize p)
    (drawColor p) (fillColor p) (textColor p) (colorFlag p) (withAlpha p)
    (ws p) (images p) (pageLinks p) (links p) (autoPageBreak p)
    (pageBreakTrigger p) (inHeader p) (inFooter p) (aliasNbPages p)
    (zoomMode p) (layoutMode p) (metadata p) (creationDate p) (pdfVersion p)
    (assetFonts p) (lastError p).

Definition set_curPageSize (v : Q * Q) (p : Fpdf) : Fpdf :=
  mkFpdf
    (state p) (page p) (n p) (offsets p) (buffer p) (pages p) (compress p)
    (k p) (defOrientation p) (curOrientation p) (stdPageSizes p)
    (defPageSize p) v (curRotation p) (pageInfo p) (wPt p) (hPt p) (w p)
    (h p) (lMargin p) (tMargin p) (rMargin p) (bMargin p) (cMargin p) (x p)
    (y p) (lasth p) (lineWidth p) (coreFonts p) (fonts p) (fontFamily p)
    (fontStyle p) (underline p) (currentFont p) (fontSizePt p) (fontSize p)
    (drawColor p) (fillColor p) (textColor p) (colorFlag p) (withAlpha p)
    (ws p) (images p) (pageLinks p) (links p) (autoPageBreak p)
    (pageBreakTrigger p) (inHeader p) (inFooter p) (aliasNbPages p)
    (zoomMode p) (layoutMode p) (metadata p) (creationDate p) (pdfVersion p)
    (assetFonts p) (lastError p).

Definition set_curRotation (v : Z) (p : Fpdf) : Fpdf :=
  mkFpdf
    (state p) (page p) (n p) (offsets p) (buffer p) (pages p) (compress p)
    (k p) (defOrientation p) (curOrientation p) (stdPageSizes p)
    (defPageSize p) (curPageSize p) v (pageInfo p) (wPt p) (hPt p) (w p)
    (h p) (lMargin p) (tMargin p) (rMargin p) (bMargin p) (cMargin p) (x p)
    (y p) (lasth p) (lineWidth p) (coreFonts p) (fonts p) (fontFamily p)
    (fontStyle p) (underline p) (currentFont p) (fontSizePt p) (fontSize p)
    (drawColor p) (fillColor p) (textColor p) (colorFlag p) (withAlpha p)
    (ws p) (images p) (pageLinks p) (links p) (autoPageBreak p)
    (pageBreakTrigger p) (inHeader p) (inFooter p) (aliasNbPages p)
    (zoomMode p) (layoutMode p) (metadata p) (creationDate p) (pdfVersion p)
    (assetFonts p) (lastError p).

Definition set_pageInfo (v : gmap Z PageInfo) (p : Fpdf) : Fpdf :=
  mkFpdf
    (state p) (page p) (n p) (offsets p) (buffer p) (pages p) (compress p)
    (k p) (defOrientation p) (curOrientation p) (stdPageSizes p)
    (defPageSize p) (curPageSize p) (curRotation p) v (wPt p) (hPt p) (w p)
    (h p) (lMargin p) (tMargin p) (rMargin p) (bMargin p) (cMargin p) (x p)
    (y p) (lasth p) (lineWidth p) (coreFonts p) (fonts p) (fontFamily p)
    (fontStyle p) (underline p) (currentFont p) (fontSizePt p) (fontSize p)
    (drawColor p) (fillColor p) (textColor p) (colorFlag p) (withAlpha p)
    (ws p) (images p) (pageLinks p) (links p) (autoPageBreak p)
    (pageBreakTrigger p) (inHeader p) (inFooter p) (aliasNbPages p)
    (zoomMode p) (layoutMode p) (metadata p) (creationDate p) (pdfVersion p)
    (assetFonts p) (lastError p).

Definition set_wPt (v : Q) (p : Fpdf) : Fpdf :=
  mkFpdf
    (state p) (page p) (n p) (offsets p) (buffer p) (pages p) (compress p)
    (k p) (defOrientation p) (curOrientation p) (stdPageSizes p)
    (defPageSize p) (curPageSize p) (curRotation p) (pageInfo p) v (hPt p)
    (w p) (h p) (lMargin p) (tMargin p) (rMargin p) (bMargin p) (cMargin p)
    (x p) (y p) (lasth p) (lineWidth p) (coreFonts p) (fonts p)
    (fontFamily p) (fontStyle p) (underline p) (currentFont p) (fontSizePt p)
    (fontSize p) (drawColor p) (fillColor p) (textColor p) (colorFlag p)
    (withAlpha p) (ws p) (images p) (pageLinks p) (links p) (autoPageBreak p)
    (pageBreakTrigger p) (inHeader p) (inFooter p) (aliasNbPages p)
    (zoomMode p) (layoutMode p) (metadata p) (creationDate p) (pdfVersion p)
    (assetFonts p) (lastError p).

Definition set_hPt (v : Q) (p : Fpdf) : Fpdf :=
  mkFpdf
    (state p) (page p) (n p) (offsets p) (buffer p) (pages p) (compress p)
    (k p) (defOrientation p) (curOrientation p) (stdPageSizes p)
    (defPageSize p) (curPageSize p) (curRotation p) (pageInfo p) (wPt p) v
    (w p) (h p) (lMargin p) (tMargin p) (rMargin p) (bMargin p) (cMargin p)
    (x p) (y p) (lasth p) (lineWidth p) (coreFonts p) (fonts p)
    (fontFamily p) (fontStyle p) (underline p) (currentFont p) (fontSizePt p)
    (fontSize p) (drawColor p) (fillColor p) (textColor p) (colorFlag p)
    (withAlpha p) (ws p) (images p) (pageLinks p) (links p) (autoPageBreak p)
    (pageBreakTrigger p) (inHeader p) (inFooter p) (aliasNbPages p)
    (zoomMode p) (layoutMode p) (metadata p) (creationDate p) (pdfVersion p)
    (assetFonts p) (lastError p).

Definition set_w (v : Q) (p : Fpdf) : Fpdf :=
  mkFpdf
    (state p) (page p) (n p) (offsets p) (buffer p) (pages p) (compress p)
    (k p) (defOrientation p) (curOrientation p) (stdPageSizes p)
    (defPageSize p) (curPageSize p) (curRotation p) (pageInfo p) (wPt p)
    (hPt p) v (h p) (lMargin p) (tMargin p) (rMargin p) (bMargin p)
    (cMargin p) (x p) (y p) (lasth p) (lineWidth p) (coreFonts p) (fonts p)
    (fontFamily p) (fontStyle p) (underline p) (currentFont p) (fontSizePt p)
    (fontSize p) (drawColor p) (fillColor p) (textColor p) (colorFlag p)
    (withAlpha p) (ws p) (images p) (pageLinks p) (links p) (autoPageBreak p)
    (pageBreakTrigger p) (inHeader p) (inFooter p) (aliasNbPages p)
    (zoomMode p) (layoutMode p) (metadata p) (creationDate p) (pdfVersion p)
    (assetFonts p) (lastError p).

Definition set_h (v : Q) (p : Fpdf) : Fpdf :=
  mkFpdf
    (state p) (page p) (n p) (offsets p) (buffer p) (pages p) (compress p)
    (k p) (defOrientation p) (curOrientation p) (stdPageSizes p)
    (defPageSize p) (curPageSize p) (curRotation p) (pageInfo p) (wPt p)
    (hPt p) (w p) v (lMargin p) (tMargin p) (rMargin p) (bMargin p)
    (cMargin p) (x p) (y p) (lasth p) (lineWidth p) (coreFonts p) (fonts p)
    (fontFamily p) (fontStyle p) (underline p) (currentFont p) (fontSizePt p)
    (fontSize p) (drawColor p) (fillColor p) (textColor p) (colorFlag p)
    (withAlpha p) (ws p) (images p) (pageLinks p) (links p) (autoPageBreak p)
    (pageBreakTrigger p) (inHeader p) (inFooter p) (aliasNbPages p)
    (zoomMode p) (layoutMode p) (metadata p) (creationDate p) (pdfVersion p)
    (assetFonts p) (lastError p).

Definition set_lMargin (v : Q) (p : Fpdf) : Fpdf :=
  mkFpdf
    (state p) (page p) (n p) (offsets p) (buffer p) (pages p) (compress p)
    (k p) (defOrientation p) (curOrientation p) (stdPageSizes p)
    (defPageSize p) (curPageSize p) (curRotation p) (pageInfo p) (wPt p)
    (hPt p) (w p) (h p) v (tMargin p) (rMargin p) (bMargin p) (cMargin p)
    (x p) (y p) (lasth p) (lineWidth p) (coreFonts p) (fonts p)
    (fontFamily p) (fontStyle p) (underline p) (currentFont p) (fontSizePt p)
    (fontSize p) (drawColor p) (fillColor p) (textColor p) (colorFlag p)
    (withAlpha p) (ws p) (images p) (pageLinks p) (links p) (autoPageBreak p)
    (pageBreakTrigger p) (inHeader p) (inFooter p) (aliasNbPages p)
    (zoomMode p) (layoutMode p) (metadata p) (creationDate p) (pdfVersion p)
    (assetFonts p) (lastError p).

Definition set_tMargin (v : Q) (p : Fpdf) : Fpdf :=
  mkFpdf
    (state p) (page p) (n p) (offsets p) (buffer p) (pages p) (compress p)
    (k p) (defOrientation p) (curOrientation p) (stdPageSizes p)
    (defPageSize p) (curPageSize p) (curRotation p) (pageInfo p) (wPt p)
    (hPt p) (w p) (h p) (lMargin p) v (rMargin p) (bMargin p) (cMargin p)
    (x p) (y p) (lasth p) (lineWidth p) (coreFonts p) (fonts p)
    (fontFamily p) (fontStyle p) (underline p) (currentFont p) (fontSizePt p)
    (fontSize p) (drawColor p) (fillColor p) (textColor p) (colorFlag p)
    (withAlpha p) (ws p) (images p) (pageLinks p) (links p) (autoPageBreak p)
    (pageBreakTrigger p) (inHeader p) (inFooter p) (aliasNbPages p)
    (zoomMode p) (layoutMode p) (metadata p) (creationDate p) (pdfVersion p)
    (assetFonts p) (lastError p).

Definition set_rMargin (v : Q) (p : Fpdf) : Fpdf :=
  mkFpdf
    (state p) (page p) (n p) (offsets p) (buffer p) (pages p) (compress p)
    (k p) (defOrientation p) (curOrientation p) (stdPageSizes p)
    (defPageSize p) (curPageSize p) (curRotation p) (pageInfo p) (wPt p)
    (hPt p) (w p) (h p) (lMargin p) (tMargin p) v (bMargin p) (cMargin p)
    (x p) (y p) (lasth p) (lineWidth p) (coreFonts p) (fonts p)
    (fontFamily p) (fontStyle p) (underline p) (currentFont p) (fontSizePt p)
    (fontSize p) (drawColor p) (fillColor p) (textColor p) (colorFlag p)
    (withAlpha p) (ws p) (images p) (pageLinks p) (links p) (autoPageBreak p)
    (pageBreakTrigger p) (inHeader p) (inFooter p) (aliasNbPages p)
    (zoomMode p) (layoutMode p) (metadata p) (creationDate p) (pdfVersion p)
    (assetFonts p) (lastError p).

Definition set_bMargin (v : Q) (p : Fpdf) : Fpdf :=
  mkFpdf
    (state p) (page p) (n p) (offsets p) (buffer p) (pages p) (compress p)
    (k p) (defOrientation p) (curOrientation p) (stdPageSizes p)
    (defPageSize p) (curPageSize p) (curRotation p) (pageInfo p) (wPt p)
    (hPt p) (w p) (h p) (lMargin p) (tMargin p) (rMargin p) v (cMargin p)
    (x p) (y p) (lasth p) (lineWidth p) (coreFonts p) (fonts p)
    (fontFamily p) (fontStyle p) (underline p) (currentFont p) (fontSizePt p)
    (fontSize p) (drawColor p) (fillColor p) (textColor p) (colorFlag p)
    (withAlpha p) (ws p) (images p) (pageLinks p) (links p) (autoPageBreak p)
    (pageBreakTrigger p) (inHeader p) (inFooter p) (aliasNbPages p)
    (zoomMode p) (layoutMode p) (metadata p) (creationDate p) (pdfVersion p)
    (assetFonts p) (lastError p).

Definition set_cMargin (v : Q) (p : Fpdf) : Fpdf :=
  mkFpdf
    (state p) (page p) (n p) (offsets p) (buffer p) (pages p) (compress p)
    (k p) (defOrientation p) (curOrientation p) (stdPageSizes p)
    (defPageSize p) (curPageSize p) (curRotation p) (pageInfo p) (wPt p)
    (hPt p) (w p) (h p) (lMargin p) (tMargin p) (rMargin p) (bMargin p) v
    (x p) (y p) (lasth p) (lineWidth p) (coreFonts p) (fonts p)
    (fontFamily p) (fontStyle p) (underline p) (currentFont p) (fontSizePt p)
    (fontSize p) (drawColor p) (fillColor p) (textColor p) (colorFlag p)
    (withAlpha p) (ws p) (images p) (pageLinks p) (links p) (autoPageBreak p)
    (pageBreakTrigger p) (inHeader p) (inFooter p) (aliasNbPages p)
    (zoomMode p) (layoutMode p) (metadata p) (creationDate p) (pdfVersion p)
    (assetFonts p) (lastError p).

Definition set_x (v : Q) (p : Fpdf) : Fpdf :=
  mkFpdf
    (state p) (page p) (n p) (offsets p) (buffer p) (pages p) (compress p)
    (k p) (defOrientation p) (curOrientation p) (stdPageSizes p)
    (defPageSize p) (curPageSize p) (curRotation p) (pageInfo p) (wPt p)
    (hPt p) (w p) (h p) (lMargin p) (tMargin p) (rMargin p) (bMargin p)
    (cMargin p) v (y p) (lasth p) (lineWidth p) (coreFonts p) (fonts p)
    (fontFamily p) (fontStyle p) (underline p) (currentFont p) (fontSizePt p)
    (fontSize p) (drawColor p) (fillColor p) (textColor p) (colorFlag p)
    (withAlpha p) (ws p) (images p) (pageLinks p) (links p) (autoPageBreak p)
    (pageBreakTrigger p) (inHeader p) (inFooter p) (aliasNbPages p)
    (zoomMode p) (layoutMode p) (metadata p) (creationDate p) (pdfVersion p)
    (assetFonts p) (lastError p).

Definition set_y (v : Q) (p : Fpdf) : Fpdf :=
  mkFpdf
    (state p) (page p) (n p) (offsets p) (buffer p) (pages p) (compress p)
    (k p) (defOrientation p) (curOrientation p) (stdPageSizes p)
    (defPageSize p) (curPageSize p) (curRotation p) (pageInfo p) (wPt p)
    (hPt p) (w p) (h p) (lMargin p) (tMargin p) (rMargin p) (bMargin p)
    (cMargin p) (x p) v (lasth p) (lineWidth p) (coreFonts p) (fonts p)
    (fontFamily p) (fontStyle p) (underline p) (currentFont p) (fontSizePt p)
    (fontSize p) (drawColor p) (fillColor p) (textColor p) (colorFlag p)
    (withAlpha p) (ws p) (images p) (pageLinks p) (links p) (autoPageBreak p)
    (pageBreakTrigger p) (inHeader p) (inFooter p) (aliasNbPages p)
    (zoomMode p) (layoutMode p) (metadata p) (creationDate p) (pdfVersion p)
    (assetFonts p) (lastError p).

Definition set_lasth (v : Q) (p : Fpdf) : Fpdf :=
  mkFpdf
    (state p) (page p) (n p) (offsets p) (buffer p) (pages p) (compress p)
    (k p) (defOrientation p) (curOrientation p) (stdPageSizes p)
    (defPageSize p) (curPageSize p) (curRotation p) (pageInfo p) (wPt p)
    (hPt p) (w p) (h p) (lMargin p) (tMargin p) (rMargin p) (bMargin p)
    (cMargin p) (x p) (y p) v (lineWidth p) (coreFonts p) (fonts p)
    (fontFamily p) (fontStyle p) (underline p) (currentFont p) (fontSizePt p)
    (fontSize p) (drawColor p) (fillColor p) (textColor p) (colorFlag p)
    (withAlpha p) (ws p) (images p) (pageLinks p) (links p) (autoPageBreak p)
    (pageBreakTrigger p) (inHeader p) (inFooter p) (aliasNbPages p)
    (zoomMode p) (layoutMode p) (metadata p) (creationDate p) (pdfVersion p)
    (assetFonts p) (lastError p).

Definition set_lineWidth (v : Q) (p : Fpdf) : Fpdf :=
  mkFpdf
    (state p) (page p) (n p) (offsets p) (buffer p) (pages p) (compress p)
    (k p) (defOrientation p) (curOrientation p) (stdPageSizes p)
    (defPageSize p) (curPageSize p) (curRotation p) (pageInfo p) (wPt p)
    (hPt p) (w p) (h p) (lMargin p) (tMargin p) (rMargin p) (bMargin p)
    (cMargin p) (x p) (y p) (lasth p) v (coreFonts p) (fonts p)
    (fontFamily p) (fontStyle p) (underline p) (currentFont p) (fontSizePt p)
    (fontSize p) (drawColor p) (fillColor p) (textColor p) (colorFlag p)
    (withAlpha p) (ws p) (images p) (pageLinks p) (links p) (autoPageBreak p)
    (pageBreakTrigger p) (inHeader p) (inFooter p) (aliasNbPages p)
    (zoomMode p) (layoutMode p) (metadata p) (creationDate p) (pdfVersion p)
    (assetFonts p) (lastError p).

Definition set_coreFonts (v : list string) (p : Fpdf) : Fpdf :=
  mkFpdf
    (state p) (page p) (n p) (offsets p) (buffer p) (pages p) (compress p)
    (k p) (defOrientation p) (curOrientation p) (stdPageSizes p)
    (defPageSize p) (curPageSize p) (curRotation p) (pageInfo p) (wPt p)
    (hPt p) (w p) (h p) (lMargin p) (tMargin p) (rMargin p) (bMargin p)
    (cMargin p) (x p) (y p) (lasth p) (lineWidth p) v (fonts p)
    (fontFamily p) (fontStyle p) (underline p) (currentFont p) (fontSizePt p)
    (fontSize p) (drawColor p) (fillColor p) (textColor p) (colorFlag p)
    (withAlpha p) (ws p) (images p) (pageLinks p) (links p) (autoPageBreak p)
    (pageBreakTrigger p) (inHeader p) (inFooter p) (aliasNbPages p)
    (zoomMode p) (layoutMode p) (metadata p) (creationDate p) (pdfVersion p)
    (assetFonts p) (lastError p).

Definition set_fonts (v : gmap string pdfFont) (p : Fpdf) : Fpdf :=
  mkFpdf
    (state p) (page p) (n p) (offsets p) (buffer p) (pages p) (compress p)
    (k p) (defOrientation p) (curOrientation p) (stdPageSizes p)
    (defPageSize p) (curPageSize p) (curRotation p) (pageInfo p) (wPt p)
    (hPt p) (w p) (h p) (lMargin p) (tMargin p) (rMargin p) (bMargin p)
    (cMargin p) (x p) (y p) (lasth p) (lineWidth p) (coreFonts p) v
    (fontFamily p) (fontStyle p) (underline p) (currentFont p) (fontSizePt p)
    (fontSize p) (drawColor p) (fillColor p) (textColor p) (colorFlag p)
    (withAlpha p) (ws p) (images p) (pageLinks p) (links p) (autoPageBreak p)
    (pageBreakTrigger p) (inHeader p) (inFooter p) (aliasNbPages p)
    (zoomMode p) (layoutMode p) (metadata p) (creationDate p) (pdfVersion p)
    (assetFonts p) (lastError p).

Definition set_fontFamily (v : string) (p : Fpdf) : Fpdf :=
  mkFpdf
    (state p) (page p) (n p) (offsets p) (buffer p) (pages p) (compress p)
    (k p) (defOrientation p) (curOrientation p) (stdPageSizes p)
    (defPageSize p) (curPageSize p) (curRotation p) (pageInfo p) (wPt p)
    (hPt p) (w p) (h p) (lMargin p) (tMargin p) (rMargin p) (bMargin p)
    (cMargin p) (x p) (y p) (lasth p) (lineWidth p) (coreFonts p) (fonts p) v
    (fontStyle p) (underline p) (currentFont p) (fontSizePt p) (fontSize p)
    (drawColor p) (fillColor p) (textColor p) (colorFlag p) (withAlpha p)
    (ws p) (images p) (pageLinks p) (links p) (autoPageBreak p)
    (pageBreakTrigger p) (inHeader p) (inFooter p) (aliasNbPages p)
    (zoomMode p) (layoutMode p) (metadata p) (creationDate p) (pdfVersion p)
    (assetFonts p) (lastError p).

Definition set_fontStyle (v : string) (p : Fpdf) : Fpdf :=
  mkFpdf
    (state p) (page p) (n p) (offsets p) (buffer p) (pages p) (compress p)
    (k p) (defOrientation p) (curOrientation p) (stdPageSizes p)
    (defPageSize p) (curPageSize p) (curRotation p) (pageInfo p) (wPt p)
    (hPt p) (w p) (h p) (lMargin p) (tMargin p) (rMargin p) (bMargin p)
    (cMargin p) (x p) (y p) (lasth p) (lineWidth p) (coreFonts p) (fonts p)
    (fontFamily p) v (underline p) (currentFont p) (fontSizePt p)
    (fontSize p) (drawColor p) (fillColor p) (textColor p) (colorFlag p)
    (withAlpha p) (ws p) (images p) (pageLinks p) (links p) (autoPageBreak p)
    (pageBreakTrigger p) (inHeader p) (inFooter p) (aliasNbPages p)
    (zoomMode p) (layoutMode p) (metadata p) (creationDate p) (pdfVersion p)
    (assetFonts p) (lastError p).

Definition set_underline (v : bool) (p : Fpdf) : Fpdf :=
  mkFpdf
    (state p) (page p) (n p) (offsets p) (buffer p) (pages p) (compress p)
    (k p) (defOrientation p) (curOrientation p) (stdPageSizes p)
    (defPageSize p) (curPageSize p) (curRotation p) (pageInfo p) (wPt p)
    (hPt p) (w p) (h p) (lMargin p) (tMargin p) (rMargin p) (bMargin p)
    (cMargin p) (x p) (y p) (lasth p) (lineWidth p) (coreFonts p) (fonts p)
    (fontFamily p) (fontStyle p) v (currentFont p) (fontSizePt p)
    (fontSize p) (drawColor p) (fillColor p) (textColor p) (colorFlag p)
    (withAlpha p) (ws p) (images p) (pageLinks p) (links p) (autoPageBreak p)
    (pageBreakTrigger p) (inHeader p) (inFooter p) (aliasNbPages p)
    (zoomMode p) (layoutMode p) (metadata p) (creationDate p) (pdfVersion p)
    (assetFonts p) (lastError p).

Definition set_currentFont (v : option pdfFont) (p : Fpdf) : Fpdf :=
  mkFpdf
    (state p) (page p) (n p) (offsets p) (buffer p) (pages p) (compress p)
    (k p) (defOrientation p) (curOrientation p) (stdPageSizes p)
    (defPageSize p) (curPageSize p) (curRotation p) (pageInfo p) (wPt p)
    (hPt p) (w p) (h p) (lMargin p) (tMargin p) (rMargin p) (bMargin p)
    (cMargin p) (x p) (y p) (lasth p) (lineWidth p) (coreFonts p) (fonts p)
    (fontFamily p) (fontStyle p) (underline p) v (fontSizePt p) (fontSize p)
    (drawColor p) (fillColor p) (textColor p) (colorFlag p) (withAlpha p)
    (ws p) (images p) (pageLinks p) (links p) (autoPageBreak p)
    (pageBreakTrigger p) (inHeader p) (inFooter p) (aliasNbPages p)
    (zoomMode p) (layoutMode p) (metadata p) (creationDate p) (pdfVersion p)
    (assetFonts p) (lastError p).

Definition set_fontSizePt (v : Q) (p : Fpdf) : Fpdf :=
  mkFpdf
    (state p) (page p) (n p) (offsets p) (buffer p) (pages p) (compress p)
    (k p) (defOrientation p) (curOrientation p) (stdPageSizes p)
    (defPageSize p) (curPageSize p) (curRotation p) (pageInfo p) (wPt p)
    (hPt p) (w p) (h p) (lMargin p) (tMargin p) (rMargin p) (bMargin p)
    (cMargin p) (x p) (y p) (lasth p) (lineWidth p) (coreFonts p) (fonts p)
    (fontFamily p) (fontStyle p) (underline p) (currentFont p) v (fontSize p)
    (drawColor p) (fillColor p) (textColor p) (colorFlag p) (withAlpha p)
    (ws p) (images p) (pageLinks p) (links p) (autoPageBreak p)
    (pageBreakTrigger p) (inHeader p) (inFooter p) (aliasNbPages p)
    (zoomMode p) (layoutMode p) (metadata p) (creationDate p) (pdfVersion p)
    (assetFonts p) (lastError p).

Definition set_fontSize (v : Q) (p : Fpdf) : Fpdf :=
  mkFpdf
    (state p) (page p) (n p) (offsets p) (buffer p) (pages p) (compress p)
    (k p) (defOrientation p) (curOrientation p) (stdPageSizes p)
    (defPageSize p) (curPageSize p) (curRotation p) (pageInfo p) (wPt p)
    (hPt p) (w p) (h p) (lMargin p) (tMargin p) (rMargin p) (bMargin p)
    (cMargin p) (x p) (y p) (lasth p) (lineWidth p) (coreFonts p) (fonts p)
    (fontFamily p) (fontStyle p) (underline p) (currentFont p) (fontSizePt p)
    v (drawColor p) (fillColor p) (textColor p) (colorFlag p) (withAlpha p)
    (ws p) (images p) (pageLinks p) (links p) (autoPageBreak p)
    (pageBreakTrigger p) (inHeader p) (inFooter p) (aliasNbPages p)
    (zoomMode p) (layoutMode p) (metadata p) (creationDate p) (pdfVersion p)
    (assetFonts p) (lastError p).

Definition set_drawColor (v : string) (p : Fpdf) : Fpdf :=
  mkFpdf
    (state p) (page p) (n p) (offsets p) (buffer p) (pages p) (compress p)
    (k p) (defOrientation p) (curOrientation p) (stdPageSizes p)
    (defPageSize p) (curPageSize p) (curRotation p) (pageInfo p) (wPt p)
    (hPt p) (w p) (h p) (lMargin p) (tMargin p) (rMargin p) (bMargin p)
    (cMargin p) (x p) (y p) (lasth p) (lineWidth p) (coreFonts p) (fonts p)
    (fontFamily p) (fontStyle p) (underline p) (currentFont p) (fontSizePt p)
    (fontSize p) v (fillColor p) (textColor p) (colorFlag p) (withAlpha p)
    (ws p) (images p) (pageLinks p) (links p) (autoPageBreak p)
    (pageBreakTrigger p) (inHeader p) (inFooter p) (aliasNbPages p)
    (zoomMode p) (layoutMode p) (metadata p) (creationDate p) (pdfVersion p)
    (assetFonts p) (lastError p).

Definition set_fillColor (v : string) (p : Fpdf) : Fpdf :=
  mkFpdf
    (state p) (page p) (n p) (offsets p) (buffer p) (pages p) (compress p)
    (k p) (defOrientation p) (curOrientation p) (stdPageSizes p)
    (defPageSize p) (curPageSize p) (curRotation p) (pageInfo p) (wPt p)
    (hPt p) (w p) (h p) (lMargin p) (tMargin p) (rMargin p) (bMargin p)
    (cMargin p) (x p) (y p) (lasth p) (lineWidth p) (coreFonts p) (fonts p)
    (fontFamily p) (fontStyle p) (underline p) (currentFont p) (fontSizePt p)
    (fontSize p) (drawColor p) v (textColor p) (colorFlag p) (withAlpha p)
    (ws p) (images p) (pageLinks p) (links p) (autoPageBreak p)
    (pageBreakTrigger p) (inHeader p) (inFooter p) (aliasNbPages p)
    (zoomMode p) (layoutMode p) (metadata p) (creationDate p) (pdfVersion p)
    (assetFonts p) (lastError p).

Definition set_textColor (v : string) (p : Fpdf) : Fpdf :=
  mkFpdf
    (state p) (page p) (n p) (offsets p) (buffer p) (pages p) (compress p)
    (k p) (defOrientation p) (curOrientation p) (stdPageSizes p)
    (defPageSize p) (curPageSize p) (curRotation p) (pageInfo p) (wPt p)
    (hPt p) (w p) (h p) (lMargin p) (tMargin p) (rMargin p) (bMargin p)
    (cMargin p) (x p) (y p) (lasth p) (lineWidth p) (coreFonts p) (fonts p)
    (fontFamily p) (fontStyle p) (underline p) (currentFont p) (fontSizePt p)
    (fontSize p) (drawColor p) (fillColor p) v (colorFlag p) (withAlpha p)
    (ws p) (images p) (pageLinks p) (links p) (autoPageBreak p)
    (pageBreakTrigger p) (inHeader p) (inFooter p) (aliasNbPages p)
    (zoomMode p) (layoutMode p) (metadata p) (creationDate p) (pdfVersion p)
    (assetFonts p) (lastError p).

Definition set_colorFlag (v : bool) (p : Fpdf) : Fpdf :=
  mkFpdf
    (state p) (page p) (n p) (offsets p) (buffer p) (pages p) (compress p)
    (k p) (defOrientation p) (curOrientation p) (stdPageSizes p)
    (defPageSize p) (curPageSize p) (curRotation p) (pageInfo p) (wPt p)
    (hPt p) (w p) (h p) (lMargin p) (tMargin p) (rMargin p) (bMargin p)
    (cMargin p) (x p) (y p) (lasth p) (lineWidth p) (coreFonts p) (fonts p)
    (fontFamily p) (fontStyle p) (underline p) (currentFont p) (fontSizePt p)
    (fontSize p) (drawColor p) (fillColor p) (textColor p) v (withAlpha p)
    (ws p) (images p) (pageLinks p) (links p) (autoPageBreak p)
    (pageBreakTrigger p) (inHeader p) (inFooter p) (aliasNbPages p)
    (zoomMode p) (layoutMode p) (metadata p) (creationDate p) (pdfVersion p)
    (assetFonts p) (lastError p).

Definition set_withAlpha (v : bool) (p : Fpdf) : Fpdf :=
  mkFpdf
    (state p) (page p) (n p) (offsets p) (buffer p) (pages p) (compress p)
    (k p) (defOrientation p) (curOrientation p) (stdPageSizes p)
    (defPageSize p) (curPageSize p) (curRotation p) (pageInfo p) (wPt p)
    (hPt p) (w p) (h p) (lMargin p) (tMargin p) (rMargin p) (bMargin p)
    (cMargin p) (x p) (y p) (lasth p) (lineWidth p) (coreFonts p) (fonts p)
    (fontFamily p) (fontStyle p) (underline p) (currentFont p) (fontSizePt p)
    (fontSize p) (drawColor p) (fillColor p) (textColor p) (colorFlag p) v
    (ws p) (images p) (pageLinks p) (links p) (autoPageBreak p)
    (pageBreakTrigger p) (inHeader p) (inFooter p) (aliasNbPages p)
    (zoomMode p) (layoutMode p) (metadata p) (creationDate p) (pdfVersion p)
    (assetFonts p) (lastError p).

Definition set_ws (v : Q) (p : Fpdf) : Fpdf :=
  mkFpdf
    (state p) (page p) (n p) (offsets p) (buffer p) (pages p) (compress p)
    (k p) (defOrientation p) (curOrientation p) (stdPageSizes p)
    (defPageSize p) (curPageSize p) (curRotation p) (pageInfo p) (wPt p)
    (hPt p) (w p) (h p) (lMargin p) (tMargin p) (rMargin p) (bMargin p)
    (cMargin p) (x p) (y p) (lasth p) (lineWidth p) (coreFonts p) (fonts p)
    (fontFamily p) (fontStyle p) (underline p) (currentFont p) (fontSizePt p)
    (fontSize p) (drawColor p) (fillColor p) (textColor p) (colorFlag p)
    (withAlpha p) v (images p) (pageLinks p) (links p) (autoPageBreak p)
    (pageBreakTrigger p) (inHeader p) (inFooter p) (aliasNbPages p)
    (zoomMode p) (layoutMode p) (metadata p) (creationDate p) (pdfVersion p)
    (assetFonts p) (lastError p).

Definition set_images (v : gmap string pdfImage) (p : Fpdf) : Fpdf :=
  mkFpdf
    (state p) (page p) (n p) (offsets p) (buffer p) (pages p) (compress p)
    (k p) (defOrientation p) (curOrientation p) (stdPageSizes p)
    (defPageSize p) (curPageSize p) (curRotation p) (pageInfo p) (wPt p)
    (hPt p) (w p) (h p) (lMargin p) (tMargin p) (rMargin p) (bMargin p)
    (cMargin p) (x p) (y p) (lasth p) (lineWidth p) (coreFonts p) (fonts p)
    (fontFamily p) (fontStyle p) (underline p) (currentFont p) (fontSizePt p)
    (fontSize p) (drawColor p) (fillColor p) (textColor p) (colorFlag p)
    (withAlpha p) (ws p) v (pageLinks p) (links p) (autoPageBreak p)
    (pageBreakTrigger p) (inHeader p) (inFooter p) (aliasNbPages p)
    (zoomMode p) (layoutMode p) (metadata p) (creationDate p) (pdfVersion p)
    (assetFonts p) (lastError p).

Definition set_pageLinks (v : gmap Z (list PageLink)) (p : Fpdf) : Fpdf :=
  mkFpdf
    (state p) (page p) (n p) (offsets p) (buffer p) (pages p) (compress p)
    (k p) (defOrientation p) (curOrientation p) (stdPageSizes p)
    (defPageSize p) (curPageSize p) (curRotation p) (pageInfo p) (wPt p)
    (hPt p) (w p) (h p) (lMargin p) (tMargin p) (rMargin p) (bMargin p)
    (cMargin p) (x p) (y p) (lasth p) (lineWidth p) (coreFonts p) (fonts p)
    (fontFamily p) (fontStyle p) (underline p) (currentFont p) (fontSizePt p)
    (fontSize p) (drawColor p) (fillColor p) (textColor p) (colorFlag p)
    (withAlpha p) (ws p) (images p) v (links p) (autoPageBreak p)
    (pageBreakTrigger p) (inHeader p) (inFooter p) (aliasNbPages p)
    (zoomMode p) (layoutMode p) (metadata p) (creationDate p) (pdfVersion p)
    (assetFonts p) (lastError p).

Definition set_links (v : gmap Z (Q * Q)) (p : Fpdf) : Fpdf :=
  mkFpdf
    (state p) (page p) (n p) (offsets p) (buffer p) (pages p) (compress p)
    (k p) (defOrientation p) (curOrientation p) (stdPageSizes p)
    (defPageSize p) (curPageSize p) (curRotation p) (pageInfo p) (wPt p)
    (hPt p) (w p) (h p) (lMargin p) (tMargin p) (rMargin p) (bMargin p)
    (cMargin p) (x p) (y p) (lasth p) (lineWidth p) (coreFonts p) (fonts p)
    (fontFamily p) (fontStyle p) (underline p) (currentFont p) (fontSizePt p)
    (fontSize p) (drawColor p) (fillColor p) (textColor p) (colorFlag p)
    (withAlpha p) (ws p) (images p) (pageLinks p) v (autoPageBreak p)
    (pageBreakTrigger p) (inHeader p) (inFooter p) (aliasNbPages p)
    (zoomMode p) (layoutMode p) (metadata p) (creationDate p) (pdfVersion p)
    (assetFonts p) (lastError p).

Definition set_autoPageBreak (v : bool) (p : Fpdf) : Fpdf :=
  mkFpdf
    (state p) (page p) (n p) (offsets p) (buffer p) (pages p) (compress p)
    (k p) (defOrientation p) (curOrientation p) (stdPageSizes p)
    (defPageSize p) (curPageSize p) (curRotation p) (pageInfo p) (wPt p)
    (hPt p) (w p) (h p) (lMargin p) (tMargin p) (rMargin p) (bMargin p)
    (cMargin p) (x p) (y p) (lasth p) (lineWidth p) (coreFonts p) (fonts p)
    (fontFamily p) (fontStyle p) (underline p) (currentFont p) (fontSizePt p)
    (fontSize p) (drawColor p) (fillColor p) (textColor p) (colorFlag p)
    (withAlpha p) (ws p) (images p) (pageLinks p) (links p) v
    (pageBreakTrigger p) (inHeader p) (inFooter p) (aliasNbPages p)
    (zoomMode p) (layoutMode p) (metadata p) (creationDate p) (pdfVersion p)
    (assetFonts p) (lastError p).

Definition set_pageBreakTrigger (v : Q) (p : Fpdf) : Fpdf :=
  mkFpdf
    (state p) (page p) (n p) (offsets p) (buffer p) (pages p) (compress p)
    (k p) (defOrientation p) (curOrientation p) (stdPageSizes p)
    (defPageSize p) (curPageSize p) (curRotation p) (pageInfo p) (wPt p)
    (hPt p) (w p) (h p) (lMargin p) (tMargin p) (rMargin p) (bMargin p)
    (cMargin p) (x p) (y p) (lasth p) (lineWidth p) (coreFonts p) (fonts p)
    (fontFamily p) (fontStyle p) (underline p) (currentFont p) (fontSizePt p)
    (fontSize p) (drawColor p) (fillColor p) (textColor p) (colorFlag p)
    (withAlpha p) (ws p) (images p) (pageLinks p) (links p) (autoPageBreak p)
    v (inHeader p) (inFooter p) (aliasNbPages p) (zoomMode p) (layoutMode p)
    (metadata p) (creationDate p) (pdfVersion p) (assetFonts p) (lastError p).

Definition set_inHeader (v : bool) (p : Fpdf) : Fpdf :=
  mkFpdf
    (state p) (page p) (n p) (offsets p) (buffer p) (pages p) (compress p)
    (k p) (defOrientation p) (curOrientation p) (stdPageSizes p)
    (defPageSize p) (curPageSize p) (curRotation p) (pageInfo p) (wPt p)
    (hPt p) (w p) (h p) (lMargin p) (tMargin p) (rMargin p) (bMargin p)
    (cMargin p) (x p) (y p) (lasth p) (lineWidth p) (coreFonts p) (fonts p)
    (fontFamily p) (fontStyle p) (underline p) (currentFont p) (fontSizePt p)
    (fontSize p) (drawColor p) (fillColor p) (textColor p) (colorFlag p)
    (withAlpha p) (ws p) (images p) (pageLinks p) (links p) (autoPageBreak p)
    (pageBreakTrigger p) v (inFooter p) (aliasNbPages p) (zoomMode p)
    (layoutMode p) (metadata p) (creationDate p) (pdfVersion p)
    (assetFonts p) (lastError p).

Definition set_inFooter (v : bool) (p : Fpdf) : Fpdf :=
  mkFpdf
    (state p) (page p) (n p) (offsets p) (buffer p) (pages p) (compress p)
    (k p) (defOrientation p) (curOrientation p) (stdPageSizes p)
    (defPageSize p) (curPageSize p) (curRotation p) (pageInfo p) (wPt p)
    (hPt p) (w p) (h p) (lMargin p) (tMargin p) (rMargin p) (bMargin p)
    (cMargin p) (x p) (y p) (lasth p) (lineWidth p) (coreFonts p) (fonts p)
    (fontFamily p) (fontStyle p) (underline p) (currentFont p) (fontSizePt p)
    (fontSize p) (drawColor p) (fillColor p) (textColor p) (colorFlag p)
    (withAlpha p) (ws p) (images p) (pageLinks p) (links p) (autoPageBreak p)
    (pageBreakTrigger p) (inHeader p) v (aliasNbPages p) (zoomMode p)
    (layoutMode p) (metadata p) (creationDate p) (pdfVersion p)
    (assetFonts p) (lastError p).

Definition set_aliasNbPages (v : string) (p : Fpdf) : Fpdf :=
  mkFpdf
    (state p) (page p) (n p) (offsets p) (buffer p) (pages p) (compress p)
    (k p) (defOrientation p) (curOrientation p) (stdPageSizes p)
    (defPageSize p) (curPageSize p) (curRotation p) (pageInfo p) (wPt p)
    (hPt p) (w p) (h p) (lMargin p) (tMargin p) (rMargin p) (bMargin p)
    (cMargin p) (x p) (y p) (lasth p) (lineWidth p) (coreFonts p) (fonts p)
    (fontFamily p) (fontStyle p) (underline p) (currentFont p) (fontSizePt p)
    (fontSize p) (drawColor p) (fillColor p) (textColor p) (colorFlag p)
    (withAlpha p) (ws p) (images p) (pageLinks p) (links p) (autoPageBreak p)
    (pageBreakTrigger p) (inHeader p) (inFooter p) v (zoomMode p)
    (layoutMode p) (metadata p) (creationDate p) (pdfVersion p)
    (assetFonts p) (lastError p).

Definition set_zoomMode (v : ZoomMode) (p : Fpdf) : Fpdf :=
  mkFpdf
    (state p) (page p) (n p) (offsets p) (buffer p) (pages p) (compress p)
    (k p) (defOrientation p) (curOrientation p) (stdPageSizes p)
    (defPageSize p) (curPageSize p) (curRotation p) (pageInfo p) (wPt p)
    (hPt p) (w p) (h p) (lMargin p) (tMargin p) (rMargin p) (bMargin p)
    (cMargin p) (x p) (y p) (lasth p) (lineWidth p) (coreFonts p) (fonts p)
    (fontFamily p) (fontStyle p) (underline p) (currentFont p) (fontSizePt p)
    (fontSize p) (drawColor p) (fillColor p) (textColor p) (colorFlag p)
    (withAlpha p) (ws p) (images p) (pageLinks p) (links p) (autoPageBreak p)
    (pageBreakTrigger p) (inHeader p) (inFooter p) (aliasNbPages p) v
    (layoutMode p) (metadata p) (creationDate p) (pdfVersion p)
    (assetFonts p) (lastError p).

Definition set_layoutMode (v : string) (p : Fpdf) : Fpdf :=
  mkFpdf
    (state p) (page p) (n p) (offsets p) (buffer p) (pages p) (compress p)
    (k p) (defOrientation p) (curOrientation p) (stdPageSizes p)
    (defPageSize p) (curPageSize p) (curRotation p) (pageInfo p) (wPt p)
    (hPt p) (w p) (h p) (lMargin p) (tMargin p) (rMargin p) (bMargin p)
    (cMargin p) (x p) (y p) (lasth p) (lineWidth p) (coreFonts p) (fonts p)
    (fontFamily p) (fontStyle p) (underline p) (currentFont p) (fontSizePt p)
    (fontSize p) (drawColor p) (fillColor p) (textColor p) (colorFlag p)
    (withAlpha p) (ws p) (images p) (pageLinks p) (links p) (autoPageBreak p)
    (pageBreakTrigger p) (inHeader p) (inFooter p) (aliasNbPages p)
    (zoomMode p) v (metadata p) (creationDate p) (pdfVersion p)
    (assetFonts p) (lastError p).

Definition set_metadata (v : gmap string string) (p : Fpdf) : Fpdf :=
  mkFpdf
    (state p) (page p) (n p) (offsets p) (buffer p) (pages p) (compress p)
    (k p) (defOrientation p) (curOrientation p) (stdPageSizes p)
    (defPageSize p) (curPageSize p) (curRotation p) (pageInfo p) (wPt p)
    (hPt p) (w p) (h p) (lMargin p) (tMargin p) (rMargin p) (bMargin p)
    (cMargin p) (x p) (y p) (lasth p) (lineWidth p) (coreFonts p) (fonts p)
    (fontFamily p) (fontStyle p) (underline p) (currentFont p) (fontSizePt p)
    (fontSize p) (drawColor p) (fillColor p) (textColor p) (colorFlag p)
    (withAlpha p) (ws p) (images p) (pageLinks p) (links p) (autoPageBreak p)
    (pageBreakTrigger p) (inHeader p) (inFooter p) (aliasNbPages p)
    (zoomMode p) (layoutMode p) v (creationDate p) (pdfVersion p)
    (assetFonts p) (lastError p).

Definition set_creationDate (v : string) (p : Fpdf) : Fpdf :=
  mkFpdf
    (state p) (page p) (n p) (offsets p) (buffer p) (pages p) (compress p)
    (k p) (defOrientation p) (curOrientation p) (stdPageSizes p)
    (defPageSize p) (curPageSize p) (curRotation p) (pageInfo p) (wPt p)
    (hPt p) (w p) (h p) (lMargin p) (tMargin p) (rMargin p) (bMargin p)
    (cMargin p) (x p) (y p) (lasth p) (lineWidth p) (coreFonts p) (fonts p)
    (fontFamily p) (fontStyle p) (underline p) (currentFont p) (fontSizePt p)
    (fontSize p) (drawColor p) (fillColor p) (textColor p) (colorFlag p)
    (withAlpha p) (ws p) (images p) (pageLinks p) (links p) (autoPageBreak p)
    (pageBreakTrigger p) (inHeader p) (inFooter p) (aliasNbPages p)
    (zoomMode p) (layoutMode p) (metadata p) v (pdfVersion p) (assetFonts p)
    (lastError p).

Definition set_pdfVersion (v : string) (p : Fpdf) : Fpdf :=
  mkFpdf
    (state p) (page p) (n p) (offsets p) (buffer p) (pages p) (compress p)
    (k p) (defOrientation p) (curOrientation p) (stdPageSizes p)
    (defPageSize p) (curPageSize p) (curRotation p) (pageInfo p) (wPt p)
    (hPt p) (w p) (h p) (lMargin p) (tMargin p) (rMargin p) (bMargin p)
    (cMargin p) (x p) (y p) (lasth p) (lineWidth p) (coreFonts p) (fonts p)
    (fontFamily p) (fontStyle p) (underline p) (currentFont p) (fontSizePt p)
    (fontSize p) (drawColor p) (fillColor p) (textColor p) (colorFlag p)
    (withAlpha p) (ws p) (images p) (pageLinks p) (links p) (autoPageBreak p)
    (pageBreakTrigger p) (inHeader p) (inFooter p) (aliasNbPages p)
    (zoomMode p) (layoutMode p) (metadata p) (creationDate p) v
    (assetFonts p) (lastError p).

Definition set_assetFonts (v : gmap string pdfFont) (p : Fpdf) : Fpdf :=
  mkFpdf
    (state p) (page p) (n p) (offsets p) (buffer p) (pages p) (compress p)
    (k p) (defOrientation p) (curOrientation p) (stdPageSizes p)
    (defPageSize p) (curPageSize p) (curRotation p) (pageInfo p) (wPt p)
    (hPt p) (w p) (h p) (lMargin p) (tMargin p) (rMargin p) (bMargin p)
    (cMargin p) (x p) (y p) (lasth p) (lineWidth p) (coreFonts p) (fonts p)
    (fontFamily p) (fontStyle p) (underline p) (currentFont p) (fontSizePt p)
    (fontSize p) (drawColor p) (fillColor p) (textColor p) (colorFlag p)
    (withAlpha p) (ws p) (images p) (pageLinks p) (links p) (autoPageBreak p)
    (pageBreakTrigger p) (inHeader p) (inFooter p) (aliasNbPages p)
    (zoomMode p) (layoutMode p) (metadata p) (creationDate p) (pdfVersion p)
    v (lastError p).

Definition set_lastError (v : string) (p : Fpdf) : Fpdf :=
  mkFpdf
    (state p) (page p) (n p) (offsets p) (buffer p) (pages p) (compress p)
    (k p) (defOrientation p) (curOrientation p) (stdPageSizes p)
    (defPageSize p) (curPageSize p) (curRotation p) (pageInfo p) (wPt p)
    (hPt p) (w p) (h p) (lMargin p) (tMargin p) (rMargin p) (bMargin p)
    (cMargin p) (x p) (y p) (lasth p) (lineWidth p) (coreFonts p) (fonts p)
    (fontFamily p) (fontStyle p) (underline p) (currentFont p) (fontSizePt p)
    (fontSize p) (drawColor p) (fillColor p) (textColor p) (colorFlag p)
    (withAlpha p) (ws p) (images p) (pageLinks p) (links p) (autoPageBreak p)
    (pageBreakTrigger p) (inHeader p) (inFooter p) (aliasNbPages p)
    (zoomMode p) (layoutMode p) (metadata p) (creationDate p) (pdfVersion p)
    (assetFonts p) v.

(** Reads of fields through assignments are computed; nothing else is
    unfolded. *)
Ltac fields :=
  cbn beta iota zeta delta
  [
    state page n offsets buffer pages compress k defOrientation
    curOrientation stdPageSizes defPageSize curPageSize curRotation pageInfo
    wPt hPt w h lMargin tMargin rMargin bMargin cMargin x y lasth lineWidth
    coreFonts fonts fontFamily fontStyle underline currentFont fontSizePt
    fontSize drawColor fillColor textColor colorFlag withAlpha ws images
    pageLinks links autoPageBreak pageBreakTrigger inHeader inFooter
    aliasNbPages zoomMode layoutMode metadata creationDate pdfVersion
    assetFonts lastError set_state set_page set_n set_offsets set_buffer
    set_pages set_compress set_k set_defOrientation set_curOrientation
    set_stdPageSizes set_defPageSize set_curPageSize set_curRotation
    set_pageInfo set_wPt set_hPt set_w set_h set_lMargin set_tMargin
    set_rMargin set_bMargin set_cMargin set_x set_y set_lasth set_lineWidth
    set_coreFonts set_fonts set_fontFamily set_fontStyle set_underline
    set_currentFont set_fontSizePt set_fontSize set_drawColor set_fillColor
    set_textColor set_colorFlag set_withAlpha set_ws set_images set_pageLinks
    set_links set_autoPageBreak set_pageBreakTrigger set_inHeader
    set_inFooter set_aliasNbPages set_zoomMode set_layoutMode set_metadata
    set_creationDate set_pdfVersion set_assetFonts set_lastError ].

Ltac fields_in H :=
  cbn beta iota zeta delta
  [
    state page n offsets buffer pages compress k defOrientation
    curOrientation stdPageSizes defPageSize curPageSize curRotation pageInfo
    wPt hPt w h lMargin tMargin rMargin bMargin cMargin x y lasth lineWidth
    coreFonts fonts fontFamily fontStyle underline currentFont fontSizePt
    fontSize drawColor fillColor textColor colorFlag withAlpha ws images
    pageLinks links autoPageBreak pageBreakTrigger inHeader inFooter
    aliasNbPages zoomMode layoutMode metadata creationDate pdfVersion
    assetFonts lastError set_state set_page set_n set_offsets set_buffer
    set_pages set_compress set_k set_defOrientation set_curOrientation
    set_stdPageSizes set_defPageSize set_curPageSize set_curRotation
    set_pageInfo set_wPt set_hPt set_w set_h set_lMargin set_tMargin
    set_rMargin set_bMargin set_cMargin set_x set_y set_lasth set_lineWidth
    set_coreFonts set_fonts set_fontFamily set_fontStyle set_underline
    set_currentFont set_fontSizePt set_fontSize set_drawColor set_fillColor
    set_textColor set_colorFlag set_withAlpha set_ws set_images set_pageLinks
    set_links set_autoPageBreak set_pageBreakTrigger set_inHeader
    set_inFooter set_aliasNbPages set_zoomMode set_layoutMode set_metadata
    set_creationDate set_pdfVersion set_assetFonts set_lastError ] in H.

(** The zero value of [Fpdf], what [&Fpdf{}] allocates. *)
Definition zeroFpdf : Fpdf :=
  mkFpdf 0 0 0 ∅ [] ∅ false 0%Q "" "" ∅ (0%Q, 0%Q) (0%Q, 0%Q) 0 ∅
    0%Q 0%Q 0%Q 0%Q 0%Q 0%Q 0%Q 0%Q 0%Q 0%Q 0%Q 0%Q 0%Q
    [] ∅ "" "" false None 0%Q 0%Q "" "" "" false false 0%Q
    ∅ ∅ ∅ false 0%Q false false "" ZoomNil "" ∅ "" "" ∅ "".

(** ** The host: Go's library and the user's hooks *)

Class Host : Type := {
  (** the verb [%.NF] of [fmt.Sprintf], [N] digits after the point *)
  sprintfF : nat -> Q -> string;
  strings_ToLower : string -> string;
  strings_ToUpper : string -> string;
  strings_TrimSpace : string -> string;
  filepath_Base : string -> string;
  (** [zlib] compression of a byte sequence *)
  zlibCompress : list ascii -> list ascii;
  (** [time.Now()], in the layout "20060102150405-0700" *)
  timeNow : string;
  (** the conversion [[]rune(s)] *)
  runesOf : string -> list Z;
  (** the order in which [range] visits the entries of a map *)
  rangeFonts : gmap string pdfFont -> list (string * pdfFont);
  rangeImages : gmap string pdfImage -> list (string * pdfImage);
  (** the hooks installed by [SetHeaderFunc] and [SetFooterFunc] *)
  headerFunc : option (Fpdf -> Res Fpdf);
  footerFunc : option (Fpdf -> Res Fpdf)
}.

(** ** fonts.go: the embedded font definitions *)

Definition courier_uv : gmap Z uvEntry :=
  list_to_map
    [ (0, UVRange 0 128); (128, UVInt 8364); (130, UVInt 8218);
      (131, UVInt 402); (132, UVInt 8222); (133, UVInt 8230);
      (134, UVRange 8224 2); (136, UVInt 710); (137, UVInt 8240);
      (138, UVInt 352); (139, UVInt 8249); (140, UVInt 338);
      (142, UVInt 381); (145, UVRange 8216 2); (147, UVRange 8220 2);
      (149, UVInt 8226); (150, UVRange 8211 2); (152, UVInt 732);
      (153, UVInt 8482); (154, UVInt 353); (155, UVInt 8250);
      (156, UVInt 339); (158, UVInt 382); (159, UVInt 376);
      (160, UVRange 160 96) ].

Definition translatedFPDFFonts : gmap string pdfFont :=
  list_to_map
    [ ("courier.php",
       mkFont "Core" "Courier" (-100)%Q 50%Q (fun _ => 600) "cp1252"
         courier_uv 0 0);
      ("courierb.php",
       mkFont "Core" "Courier-Bold" (-100)%Q 50%Q (fun _ => 600) "cp1252"
         ∅ 0 0);
      ("helvetica.php",
       mkFont "Core" "Helvetica" (-100)%Q 50%Q (fun _ => 500) "cp1252"
         ∅ 0 0) ].

(** ** The engine *)

Section Engine.
Context `{Host}.

Definition F2 (q : Q) : string := sprintfF 2 q.
Definition F3 (q : Q) : string := sprintfF 3 q.

Definition setError (msg : string) (p : Fpdf) : Fpdf := set_lastError msg p.

Definition panicError {A : Type} (msg : string) : Res A :=
  Panic ("fpdf error: " +:+ msg).

Definition pairNeq (a b : Q * Q) : bool :=
  Qneqb (fst a) (fst b) || Qneqb (snd a) (snd b).

(** *** Geometry and units *)

Definition SetMargins (left top : Q) (right : option Q) (p : Fpdf) : Fpdf :=
  let p := set_lMargin left p in
  let p := set_tMargin top p in
  match right with
  | None => set_rMargin left p
  | Some r => set_rMargin r p
  end.

Definition SetAutoPageBreak (auto : bool) (margin : Q) (p : Fpdf) : Fpdf :=
  let p := set_autoPageBreak auto p in
  let p := set_bMargin margin p in
  set_pageBreakTrigger (h p - margin)%Q p.

Definition SetDisplayMode (zoom : ZoomMode) (layout : string) (p : Fpdf)
  : Fpdf :=
  set_layoutMode (strings_ToLower layout) (set_zoomMode zoom p).

Definition SetCompression (c : bool) (p : Fpdf) : Fpdf := set_compress c p.

Definition getPageSize (size : string) (p : Fpdf) : Q * Q :=
  let s := strings_ToLower (strings_TrimSpace size) in
  let s := if streq s "" then "a4" else s in
  match stdPageSizes p !! s with
  | Some v => v
  | None => default (0%Q, 0%Q) (stdPageSizes p !! "a4")
  end.

(** The four unit tokens and their scale factors ([Reset], the [switch]). *)
Definition unitScale (u : string) : option Q :=
  if streq u "pt" then Some 1%Q
  else if streq u "mm" then Some (72 / 25.4)%Q
  else if streq u "cm" then Some (72 / 2.54)%Q
  else if streq u "in" then Some 72%Q
  else None.

(** [Reset], in the order of the source: the fields cleared first, ... *)
Definition Reset_fields (p : Fpdf) : Fpdf :=
  let p := set_state 0 p in
  let p := set_page 0 p in
  let p := set_n 2 p in
  let p := set_offsets ∅ p in
  let p := set_buffer [] p in
  let p := set_pages ∅ p in
  let p := set_pageInfo ∅ p in
  let p := set_fonts ∅ p in
  let p := set_images ∅ p in
  let p := set_links ∅ p in
  let p := set_pageLinks ∅ p in
  let p := set_inHeader false p in
  let p := set_inFooter false p in
  let p := set_lasth 0%Q p in
  let p := set_fontFamily "" p in
  let p := set_fontStyle "" p in
  let p := set_fontSizePt 12%Q p in
  let p := set_underline false p in
  let p := set_drawColor "0 G" p in
  let p := set_fillColor "0 g" p in
  let p := set_textColor "0 g" p in
  let p := set_colorFlag false p in
  let p := set_withAlpha false p in
  let p := set_ws 0%Q p in
  let p :=
    set_coreFonts ["courier"; "helvetica"; "times"; "symbol"; "zapfdingbats"]
      p in
  set_assetFonts translatedFPDFFonts p.

(** ... the [switch] on the unit, ... *)
Definition Reset_unit (unit : string) (p : Fpdf) : Fpdf :=
  match unitScale (strings_ToLower (strings_TrimSpace unit)) with
  | Some s => set_k s p
  | None =>
      let p := setError ("incorrect unit: " +:+ unit) p in
      set_k (72 / 25.4)%Q p
  end.

Definition pageSizeTable (k0 : Q) : gmap string (Q * Q) :=
  list_to_map
    [ ("a3", (841.89 / k0, 1190.55 / k0)%Q);
      ("a4", (595.28 / k0, 841.89 / k0)%Q);
      ("a5", (420.94 / k0, 595.28 / k0)%Q);
      ("letter", (612 / k0, 792 / k0)%Q);
      ("legal", (612 / k0, 1008 / k0)%Q) ].

(** ... the page size and the orientation, ... *)
Definition Reset_page (orientation size : string) (p : Fpdf) : Fpdf :=
  let p := set_stdPageSizes (pageSizeTable (k p)) p in
  let sz := getPageSize size p in
  let p := set_defPageSize sz p in
  let p := set_curPageSize sz p in
  let o := strings_ToLower (strings_TrimSpace orientation) in
  let p :=
    if streq o "" || streq o "p" || streq o "portrait"
    then set_h (snd sz) (set_w (fst sz) (set_defOrientation "P" p))
    else set_h (fst sz) (set_w (snd sz) (set_defOrientation "L" p)) in
  let p := set_curOrientation (defOrientation p) p in
  let p := set_wPt (w p * k p)%Q p in
  let p := set_hPt (h p * k p)%Q p in
  set_curRotation 0 p.

(** ... and the margins and the defaults of the viewer. *)
Definition Reset_defaults (p : Fpdf) : Fpdf :=
  let margin := (28.35 / k p)%Q in
  let p := SetMargins margin margin None p in
  let p := set_cMargin (margin / 10)%Q p in
  let p := set_lineWidth (0.567 / k p)%Q p in
  let p := SetAutoPageBreak true (2 * margin)%Q p in
  let p := SetDisplayMode (ZoomStr "default") "default" p in
  let p := SetCompression true p in
  let p := set_metadata {[ "Producer" := "G3pix Gofpdf Library" ]} p in
  let p := set_pdfVersion "1.3" p in
  let p := set_creationDate timeNow p in
  set_lastError "" p.

Definition Reset (orientation unit size : string) (p : Fpdf) : Fpdf :=
  let p := Reset_fields p in
  let p := Reset_unit unit p in
  let p := Reset_page orientation size p in
  Reset_defaults p.

Definition NewFpdf (orientation unit size : string) : Fpdf :=
  Reset orientation unit size zeroFpdf.

(** *** Pages *)

(** [p.pages[p.page] = append(p.pages[p.page], s)] *)
Definition appendOp (s : string) (p : Fpdf) : Fpdf :=
  set_pages (<[page p := default [] (pages p !! page p) ++ [s]]> (pages p)) p.

Definition out (s : string) (p : Fpdf) : Res Fpdf :=
  if state p =? 2 then Ok (appendOp s p)
  else if state p =? 0 then panicError "no page has been added yet"
  else if state p =? 1 then panicError "invalid call"
  else if state p =? 3 then panicError "the document is closed"
  else Ok p.

Definition updInfo (f : PageInfo -> PageInfo) (p : Fpdf) : Fpdf :=
  set_pageInfo
    (<[page p := f (default emptyInfo (pageInfo p !! page p))]> (pageInfo p))
    p.

Definition beginPage (orientation size : string) (rotation : Z) (p : Fpdf)
  : Fpdf :=
  let p := set_page (page p + 1) p in
  let p := set_pages (<[page p := []]> (pages p)) p in
  let p := set_pageLinks (<[page p := []]> (pageLinks p)) p in
  let p := set_state 2 p in
  let p := set_x (lMargin p) p in
  let p := set_y (tMargin p) p in
  let p := set_fontFamily "" p in
  let orientation :=
    if streq orientation "" then defOrientation p
    else strings_ToUpper (str (take 1 (bytes orientation))) in
  let ps := if streq size "" then defPageSize p else getPageSize size p in
  let p :=
    if negb (streq orientation (curOrientation p))
       || pairNeq ps (curPageSize p)
    then
      let p :=
        if streq orientation "P"
        then set_h (snd ps) (set_w (fst ps) p)
        else set_h (fst ps) (set_w (snd ps) p) in
      let p := set_wPt (w p * k p)%Q p in
      let p := set_hPt (h p * k p)%Q p in
      let p := set_pageBreakTrigger (h p - bMargin p)%Q p in
      let p := set_curOrientation orientation p in
      set_curPageSize ps p
    else p in
  let p :=
    if negb (streq orientation (defOrientation p))
       || pairNeq ps (defPageSize p)
    then
      updInfo (fun pi =>
        mkPageInfo (Some (wPt p, hPt p)) (pi_rotation pi) (pi_n pi)) p
    else p in
  let p :=
    if negb (rotation =? 0)
    then
      updInfo (fun pi => mkPageInfo (pi_size pi) (Some rotation) (pi_n pi)) p
    else p in
  set_curRotation rotation p.

Definition endPage (p : Fpdf) : Fpdf := set_state 1 p.

Definition Header (p : Fpdf) : Res Fpdf :=
  match headerFunc with
  | Some f => f p
  | None => Ok p
  end.

Definition Footer (p : Fpdf) : Res Fpdf :=
  match footerFunc with
  | Some f => f p
  | None => Ok p
  end.

(** *** Fonts *)

Definition loadFontAsset (file : string) (p : Fpdf) : option pdfFont :=
  assetFonts p !! strings_ToLower (filepath_Base file).

Definition AddFont (family style file dir : string) (p : Fpdf) : Res Fpdf :=
  let family := strings_ToLower (strings_TrimSpace family) in
  let file :=
    if streq file ""
    then replaceByte " " "" family +:+ strings_ToLower style +:+ ".php"
    else file in
  let style := strings_ToUpper style in
  let style := if streq style "IB" then "BI" else style in
  let fontkey := family +:+ style in
  match fonts p !! fontkey with
  | Some _ => Ok p
  | None =>
      if containsByte file "/" || containsByte file "\"
      then panicError ("incorrect font definition file name: " +:+ file)
      else
        match loadFontAsset file p with
        | None =>
            panicError ("could not load embedded font definition: " +:+ file)
        | Some info =>
            let clone := font_with_i info (Z.of_nat (size (fonts p)) + 1) in
            Ok (set_fonts (<[fontkey := clone]> (fonts p)) p)
        end
  end.

Definition setFontOp (f : pdfFont) (p : Fpdf) : string :=
  "BT /F" +:+ itoa (font_i f) +:+ " " +:+ F2 (fontSizePt p) +:+ " Tf ET".

Definition SetFont (family style : string) (size : Q) (p : Fpdf)
  : Res Fpdf :=
  let family :=
    if streq family "" then fontFamily p else strings_ToLower family in
  let style := strings_ToUpper style in
  let '(p, style) :=
    if containsByte style "U"
    then (set_underline true p, replaceByte "U" "" style)
    else (set_underline false p, style) in
  let style := if streq style "IB" then "BI" else style in
  let size := if Qeq_bool size 0 then fontSizePt p else size in
  if streq (fontFamily p) family && streq (fontStyle p) style
     && Qeq_bool (fontSizePt p) size
  then Ok p
  else
    let fontkey := family +:+ style in
    r ← match fonts p !! fontkey with
        | Some _ => Ok (p, family, style, fontkey)
        | None =>
            let family := if streq family "arial" then "helvetica" else family in
            if bool_decide (family ∈ coreFonts p) then
              let style :=
                if streq family "symbol" || streq family "zapfdingbats"
                then "" else style in
              let fontkey := family +:+ style in
              p ← match fonts p !! fontkey with
                  | Some _ => Ok p
                  | None => AddFont family style "" "" p
                  end;
              Ok (p, family, style, fontkey)
            else
              panicError ("undefined font: " +:+ family +:+ " " +:+ style)
        end;
    let '(p, family, style, fontkey) := r in
    let p := set_fontFamily family p in
    let p := set_fontStyle style p in
    let p := set_fontSizePt size p in
    let p := set_fontSize (size / k p)%Q p in
    let p := set_currentFont (fonts p !! fontkey) p in
    if 0 <? page p then
      match currentFont p with
      | Some f => out (setFontOp f p) p
      | None => Panic "runtime error: invalid memory address or nil pointer dereference"
      end
    else Ok p.

Definition AddPage (orientation size : string) (rotation : Z) (p : Fpdf)
  : Res Fpdf :=
  if state p =? 3 then panicError "the document is closed"
  else
    let family := fontFamily p in
    let style :=
      if underline p then fontStyle p +:+ "U" else fontStyle p in
    let fontsize := fontSizePt p in
    let lw := lineWidth p in
    let dc := drawColor p in
    let fc := fillColor p in
    let tc := textColor p in
    let cf := colorFlag p in
    p ← (if 0 <? page p then
           p ← Footer (set_inFooter true p);
           Ok (endPage (set_inFooter false p))
         else Ok p);
    let p := beginPage orientation size rotation p in
    p ← out "2 J" p;
    let p := set_lineWidth lw p in
    p ← out (F2 (lw * k p)%Q +:+ " w") p;
    p ← (if negb (streq family "") then SetFont family style fontsize p
         else Ok p);
    let p := set_drawColor dc p in
    p ← (if negb (streq dc "0 G") then out dc p else Ok p);
    let p := set_fillColor fc p in
    p ← (if negb (streq fc "0 g") then out fc p else Ok p);
    let p := set_textColor tc p in
    let p := set_colorFlag cf p in
    p ← Header (set_inHeader true p);
    let p := set_inHeader false p in
    p ← (if Qneqb (lineWidth p) lw
         then out (F2 (lw * k p)%Q +:+ " w") (set_lineWidth lw p)
         else Ok p);
    p ← (if negb (streq family "") then SetFont family style fontsize p
         else Ok p);
    p ← (if negb (streq (drawColor p) dc) then out dc (set_drawColor dc p)
         else Ok p);
    p ← (if negb (streq (fillColor p) fc) then out fc (set_fillColor fc p)
         else Ok p);
    let p := set_textColor tc p in
    Ok (set_colorFlag cf p).

Definition AcceptPageBreak (p : Fpdf) : bool := autoPageBreak p.

(** *** Text metrics *)

(** The accumulator [w] of [GetStringWidth]: the table entries of the bytes
    of [s], added in Go's [int]. *)
Definition stringUnits (f : pdfFont) (s : string) : Z :=
  fold_left (fun acc c => wrap64 (acc + font_cw f c)) (bytes s) 0.

Definition GetStringWidth (s : string) (p : Fpdf) : Q :=
  match currentFont p with
  | None => 0%Q
  | Some f => (inject_Z (stringUnits f s) * fontSize p / 1000)%Q
  end.

Definition fontCharWidth (f : pdfFont) (c : ascii) : Z :=
  let cw := font_cw f c in
  if cw =? 0 then font_cw f "?"%char else cw.

Definition charWidth (c : ascii) (p : Fpdf) : Z :=
  match currentFont p with
  | None => 0
  | Some f => fontCharWidth f c
  end.

Definition escape (s : string) : string :=
  let r := replaceByte "\" "\\" s in
  let r := replaceByte "(" "\(" r in
  let r := replaceByte ")" "\)" r in
  replaceByte "013" "\r" r.

Definition doUnderline (x0 y0 : Q) (txt : string) (p : Fpdf) : string :=
  match currentFont p with
  | None => ""
  | Some f =>
      let wd :=
        (GetStringWidth txt p + ws p * inject_Z (Z.of_nat (countByte txt " ")))%Q
      in
      F2 (x0 * k p)%Q +:+ " "
      +:+ F2 ((h p - (y0 - font_up f / 1000 * fontSize p)) * k p)%Q +:+ " "
      +:+ F2 (wd * k p)%Q +:+ " "
      +:+ F2 (- font_ut f / 1000 * fontSizePt p)%Q +:+ " re f"
  end.

Definition Link (x0 y0 wd ht : Q) (link : LinkVal) (p : Fpdf) : Fpdf :=
  set_pageLinks
    (<[page p :=
         default [] (pageLinks p !! page p)
         ++ [mkPageLink (x0 * k p)%Q (hPt p - y0 * k p)%Q (wd * k p)%Q
               (ht * k p)%Q link []]]> (pageLinks p)) p.

(** *** Cell *)

(** [border == 1 || border == "1"] *)
Definition borderIsOne (b : Border) : bool :=
  match b with
  | BInt z => z =? 1
  | BStr s => streq s "1"
  | BNil => false
  end.

(** [link != "" && link != nil] *)
Definition linkIsSet (l : LinkVal) : bool :=
  match l with
  | LNil => false
  | LStr s => negb (streq s "")
  | _ => true
  end.

(** [if p.ws > 0 { p.ws = 0; p.out("0 Tw") }] *)
Definition clearWs (p : Fpdf) : Res Fpdf :=
  if Qgtb (ws p) 0 then out "0 Tw" (set_ws 0%Q p) else Ok p.

(** The condition of the page break at the head of [Cell]. *)
Definition needsPageBreak (ht : Q) (p : Fpdf) : bool :=
  Qgtb (y p + ht)%Q (pageBreakTrigger p) && negb (inHeader p)
  && negb (inFooter p) && AcceptPageBreak p.

(** After the page break: the saved abscissa [x0] and word spacing [ws0]
    are put back. *)
Definition restoreAfterBreak (x0 ws0 k0 : Q) (p : Fpdf) : Res Fpdf :=
  let p := set_x x0 p in
  if Qgtb ws0 0 then out (F3 (ws0 * k0)%Q +:+ " Tw") (set_ws ws0 p)
  else Ok p.

(** The page break at the head of [Cell]; [k0] is [p.k] as read on entry. *)
Definition Cell_pageBreak (k0 ht : Q) (p : Fpdf) : Res Fpdf :=
  if needsPageBreak ht p then
    let x0 := x p in
    let ws0 := ws p in
    p ← clearWs p;
    p ← AddPage (curOrientation p) "" (curRotation p) p;
    restoreAfterBreak x0 ws0 k0 p
  else Ok p.

Definition lineOp (x1 y1 x2 y2 : Q) : string :=
  F2 x1 +:+ " " +:+ F2 y1 +:+ " m " +:+ F2 x2 +:+ " " +:+ F2 y2 +:+ " l S ".

(** The width [Cell] works with: [w == 0] stands for the rest of the line. *)
Definition cellWidth (wd : Q) (p : Fpdf) : Q :=
  if Qeq_bool wd 0 then (w p - rMargin p - x p)%Q else wd.

(** The operators of the background and of the frame of a cell; [k0] is the
    scale factor read when [Cell] was entered. *)
Definition cellFrame (k0 wd ht : Q) (border : Border) (fill : bool)
    (p : Fpdf) : string :=
  let s :=
    if fill || borderIsOne border then
      let op :=
        if fill then (if borderIsOne border then "B" else "f") else "S" in
      F2 (x p * k0)%Q +:+ " " +:+ F2 ((h p - y p) * k0)%Q +:+ " "
      +:+ F2 (wd * k0)%Q +:+ " " +:+ F2 (- ht * k0)%Q +:+ " re " +:+ op
      +:+ " "
    else "" in
  match border with
  | BStr bs =>
      let x0 := x p in
      let y0 := y p in
      let s :=
        if containsByte bs "L"
        then s +:+ lineOp (x0 * k0) ((h p - y0) * k0) (x0 * k0)
                     ((h p - (y0 + ht)) * k0)
        else s in
      let s :=
        if containsByte bs "T"
        then s +:+ lineOp (x0 * k0) ((h p - y0) * k0) ((x0 + wd) * k0)
                     ((h p - y0) * k0)
        else s in
      let s :=
        if containsByte bs "R"
        then s +:+ lineOp ((x0 + wd) * k0) ((h p - y0) * k0) ((x0 + wd) * k0)
                     ((h p - (y0 + ht)) * k0)
        else s in
      if containsByte bs "B"
      then s +:+ lineOp (x0 * k0) ((h p - (y0 + ht)) * k0) ((x0 + wd) * k0)
                   ((h p - (y0 + ht)) * k0)
      else s
  | _ => s
  end.

(** The text of a cell: the operators appended to [s], and the link. *)
Definition cellText (k0 wd ht : Q) (txt align : string) (link : LinkVal)
    (s : string) (p : Fpdf) : Res (string * Fpdf) :=
  match currentFont p with
  | None => panicError "no font has been set"
  | Some _ =>
      let dx :=
        if streq align "R" then (wd - cMargin p - GetStringWidth txt p)%Q
        else if streq align "C" then ((wd - GetStringWidth txt p) / 2)%Q
        else cMargin p in
      let s := if colorFlag p then s +:+ "q " +:+ textColor p +:+ " " else s in
      let s :=
        s +:+ "BT " +:+ F2 ((x p + dx) * k0)%Q +:+ " "
        +:+ F2 ((h p - (y p + 0.5 * ht + 0.3 * fontSize p)) * k0)%Q
        +:+ " Td (" +:+ escape txt +:+ ") Tj ET" in
      let s :=
        if underline p
        then s +:+ " "
             +:+ doUnderline (x p + dx)%Q (y p + 0.5 * ht + 0.3 * fontSize p)%Q
                   txt p
        else s in
      let s := if colorFlag p then s +:+ " Q" else s in
      let p :=
        if linkIsSet link
        then Link (x p + dx)%Q (y p + 0.5 * ht - 0.5 * fontSize p)%Q
               (GetStringWidth txt p) (fontSize p) link p
        else p in
      Ok (s, p)
  end.

(** The end of [Cell]: the height is recorded and the cursor moves, down
    for [ln > 0] (and back to the left margin for [ln == 1]), right
    otherwise. *)
Definition Cell_advance (wd ht : Q) (ln : Z) (p : Fpdf) : Fpdf :=
  let p := set_lasth ht p in
  if 0 <? ln then
    let p := set_y (y p + ht)%Q p in
    if ln =? 1 then set_x (lMargin p) p else p
  else set_x (x p + wd)%Q p.

(** What [Cell] does once the page break is behind it. *)
Definition Cell_draw (k0 wd ht : Q) (txt : string) (border : Border)
    (ln : Z) (align : string) (fill : bool) (link : LinkVal) (p : Fpdf)
  : Res Fpdf :=
  let wd := cellWidth wd p in
  let s := cellFrame k0 wd ht border fill p in
  r ← (if negb (streq txt "") then cellText k0 wd ht txt align link s p
       else Ok (s, p));
  let '(s, p) := r in
  p ← (if negb (streq s "") then out s p else Ok p);
  Ok (Cell_advance wd ht ln p).

Definition Cell (wd ht : Q) (txt : string) (border : Border) (ln : Z)
    (align : string) (fill : bool) (link : LinkVal) (p : Fpdf) : Res Fpdf :=
  let k0 := k p in
  p ← Cell_pageBreak k0 ht p;
  Cell_draw k0 wd ht txt border ln align fill link p.

(** *** MultiCell *)

Definition nl_byte : ascii := "010"%char.
Definition cr_byte : ascii := "013"%char.
Definition sp_byte : ascii := " "%char.

(** [border != nil && border != 0 && border != "0" && border != ""] *)
Definition borderGiven (b : Border) : bool :=
  match b with
  | BNil => false
  | BInt z => negb (z =? 0)
  | BStr s => negb (streq s "0") && negb (streq s "")
  end.

(** The border letters of the first line ([b]) and of the later lines
    ([b2]). *)
Definition borderLetters (border : Border) : string * string :=
  if borderGiven border then
    if borderIsOne border then ("LRT", "LR")
    else
      match border with
      | BStr bs =>
          let b2 := if containsByte bs "L" then "L" else "" in
          let b2 := if containsByte bs "R" then b2 +:+ "R" else b2 in
          (if containsByte bs "T" then b2 +:+ "T" else b2, b2)
      | _ => ("", "")
      end
  else ("", "").

(** The variables of the scanning loop of [MultiCell]; [sep == -1] is
    [None]. *)
Record mcState : Type := mkMc {
  mc_i : nat;
  mc_j : nat;
  mc_sep : option nat;
  mc_l : Z;
  mc_ns : Z;
  mc_nl : Z;
  mc_b : string
}.

(** The bookkeeping after a line has been emitted: the scan resumes at
    [i]. *)
Definition mcNextLine (i : nat) (b2 : string) (st : mcState) : mcState :=
  let nl := mc_nl st + 1 in
  mkMc i i None 0 0 nl
    (if negb (streq (mc_b st) "") && (nl =? 2) then b2 else mc_b st).

(** The justification of [MultiCell]: the padding of a line broken at a
    separator, computed and sent to the page when the line has spaces. *)
Definition justify (wd : Q) (line : string) (p : Fpdf) : Res Fpdf :=
  let spaces := countByte line sp_byte in
  if (0 <? spaces)%nat then
    let strW := GetStringWidth line p in
    let p :=
      set_ws ((wd - 2 * cMargin p - strW) / inject_Z (Z.of_nat spaces))%Q p in
    out (F3 (ws p * k p)%Q +:+ " Tw") p
  else Ok p.

(** One turn of the loop [for i < nb] of [MultiCell]. *)
Definition MultiCell_iter (wd ht : Q) (s : list ascii) (b2 align : string)
    (fill : bool) (wmax : Q) (st : mcState) (p : Fpdf)
  : Res (mcState * Fpdf) :=
  let i := mc_i st in
  let j := mc_j st in
  let c := nth i s "000"%char in
  if bool_decide (c = nl_byte) then
    p ← clearWs p;
    p ← Cell wd ht (slice s j i) (BStr (mc_b st)) 2 align fill (LStr "") p;
    Ok (mcNextLine (i + 1) b2 st, p)
  else
    let sep := if bool_decide (c = sp_byte) then Some i else mc_sep st in
    let ns := if bool_decide (c = sp_byte) then mc_ns st + 1 else mc_ns st in
    let l := wrap64 (mc_l st + charWidth c p) in
    if Qgtb (inject_Z l) wmax then
      match sep with
      | None =>
          let i := if (i =? j)%nat then (i + 1)%nat else i in
          p ← clearWs p;
          p ← Cell wd ht (slice s j i) (BStr (mc_b st)) 2 align fill
                (LStr "") p;
          Ok (mcNextLine i b2 st, p)
      | Some sp =>
          p ← (if streq align "J" then justify wd (slice s j sp) p
               else Ok p);
          p ← Cell wd ht (slice s j sp) (BStr (mc_b st)) 2 align fill
                (LStr "") p;
          Ok (mcNextLine (sp + 1) b2 st, p)
      end
    else Ok (mkMc (i + 1) j sep l ns (mc_nl st) (mc_b st), p).

(** The loop, with a budget of turns. *)
Fixpoint MultiCell_loop (fuel : nat) (wd ht : Q) (s : list ascii) (nb : nat)
    (b2 align : string) (fill : bool) (wmax : Q) (st : mcState) (p : Fpdf)
  : option (Res (mcState * Fpdf)) :=
  if (nb <=? mc_i st)%nat then Some (Ok (st, p))
  else
    match fuel with
    | O => None
    | S fuel' =>
        match MultiCell_iter wd ht s b2 align fill wmax st p with
        | Panic m => Some (Panic m)
        | Ok (st', p') =>
            MultiCell_loop fuel' wd ht s nb b2 align fill wmax st' p'
        end
    end.

(** A budget that the loops of [MultiCell] and [Write] never exhaust. *)
Definition scanBudget (nb : nat) : nat := (nb + 1) * (nb + 2).

(** The last line of [MultiCell]. *)
Definition MultiCell_last (wd ht : Q) (s : list ascii) (border : Border)
    (align : string) (fill : bool) (st : mcState) (p : Fpdf) : Res Fpdf :=
  p ← clearWs p;
  let b :=
    if borderIsOne border then mc_b st +:+ "B"
    else
      match border with
      | BStr bs => if containsByte bs "B" then mc_b st +:+ "B" else mc_b st
      | _ => mc_b st
      end in
  p ← Cell wd ht (slice s (mc_j st) (mc_i st)) (BStr b) 2 align fill
        (LStr "") p;
  Ok (set_x (lMargin p) p).

Definition MultiCell (wd ht : Q) (txt : string) (border : Border)
    (align : string) (fill : bool) (p : Fpdf) : Res Fpdf :=
  match currentFont p with
  | None => panicError "no font has been set"
  | Some _ =>
      let wd := cellWidth wd p in
      let wmax := ((wd - 2 * cMargin p) * 1000 / fontSize p)%Q in
      let s := bytes (replaceByte cr_byte "" txt) in
      let nb := length s in
      let nb :=
        if (0 <? nb)%nat && bool_decide (nth (nb - 1) s "000"%char = nl_byte)
        then (nb - 1)%nat else nb in
      let '(b, b2) := borderLetters border in
      match MultiCell_loop (scanBudget nb) wd ht s nb b2 align fill wmax
              (mkMc 0 0 None 0 0 1 b) p with
      | None => Panic "scan budget exhausted"
      | Some r =>
          r ≫= fun '(st, p) => MultiCell_last wd ht s border align fill st p
      end
  end.

(** *** Write *)

Record wrState : Type := mkWr {
  wr_i : nat;
  wr_j : nat;
  wr_sep : option nat;
  wr_l : Z;
  wr_nl : Z;
  wr_w : Q;
  wr_wmax : Q
}.

(** [w = p.w - p.rMargin - p.x] and the budget [wmax] derived from it. *)
Definition lineBudget (p : Fpdf) : Q * Q :=
  let wd := (w p - rMargin p - x p)%Q in
  (wd, ((wd - 2 * cMargin p) * 1000 / fontSize p)%Q).

(** The bookkeeping of [Write] after a line has been emitted: from the
    second line on, lines start at the left margin. *)
Definition wrNextLine (i : nat) (st : wrState) (p : Fpdf) : wrState * Fpdf :=
  if wr_nl st =? 1 then
    let p := set_x (lMargin p) p in
    (mkWr i i None 0 (wr_nl st + 1) (fst (lineBudget p)) (snd (lineBudget p)),
     p)
  else (mkWr i i None 0 (wr_nl st + 1) (wr_w st) (wr_wmax st), p).

(** One turn of the loop [for i < nb] of [Write]. *)
Definition Write_iter (ht : Q) (s : list ascii) (link : LinkVal)
    (st : wrState) (p : Fpdf) : Res (wrState * Fpdf) :=
  let i := wr_i st in
  let j := wr_j st in
  let c := nth i s "000"%char in
  if bool_decide (c = nl_byte) then
    p ← Cell (wr_w st) ht (slice s j i) (BInt 0) 2 "" false link p;
    Ok (wrNextLine (i + 1) st p)
  else
    let sep := if bool_decide (c = sp_byte) then Some i else wr_sep st in
    let l := wrap64 (wr_l st + charWidth c p) in
    if Qgtb (inject_Z l) (wr_wmax st) then
      match sep with
      | None =>
          if Qgtb (x p) (lMargin p) then
            let p := set_x (lMargin p) p in
            let p := set_y (y p + ht)%Q p in
            Ok (mkWr (i + 1) j sep l (wr_nl st + 1) (fst (lineBudget p))
                  (snd (lineBudget p)), p)
          else
            let i := if (i =? j)%nat then (i + 1)%nat else i in
            p ← Cell (wr_w st) ht (slice s j i) (BInt 0) 2 "" false link p;
            Ok (wrNextLine i st p)
      | Some sp =>
          p ← Cell (wr_w st) ht (slice s j sp) (BInt 0) 2 "" false link p;
          Ok (wrNextLine (sp + 1) st p)
      end
    else Ok (mkWr (i + 1) j sep l (wr_nl st) (wr_w st) (wr_wmax st), p).

Fixpoint Write_loop (fuel : nat) (ht : Q) (s : list ascii) (nb : nat)
    (link : LinkVal) (st : wrState) (p : Fpdf)
  : option (Res (wrState * Fpdf)) :=
  if (nb <=? wr_i st)%nat then Some (Ok (st, p))
  else
    match fuel with
    | O => None
    | S fuel' =>
        match Write_iter ht s link st p with
        | Panic m => Some (Panic m)
        | Ok (st', p') => Write_loop fuel' ht s nb link st' p'
        end
    end.

(** The remainder after the last break. *)
Definition Write_last (ht : Q) (s : list ascii) (link : LinkVal)
    (st : wrState) (p : Fpdf) : Res Fpdf :=
  if negb (wr_i st =? wr_j st)%nat then
    Cell (inject_Z (wr_l st) / 1000 * fontSize p)%Q ht
      (slice s (wr_j st) (length s)) (BInt 0) 0 "" false link p
  else Ok p.

Definition Write (ht : Q) (txt : string) (link : LinkVal) (p : Fpdf)
  : Res Fpdf :=
  match currentFont p with
  | None => panicError "no font has been set"
  | Some _ =>
      let s := bytes (replaceByte cr_byte "" txt) in
      let nb := length s in
      match Write_loop (scanBudget nb) ht s nb link
              (mkWr 0 0 None 0 1 (fst (lineBudget p)) (snd (lineBudget p))) p
      with
      | None => Panic "scan budget exhausted"
      | Some r => r ≫= fun '(st, p) => Write_last ht s link st p
      end
  end.

(** *** The serializer *)

Definition put (s : string) (p : Fpdf) : Fpdf :=
  set_buffer (buffer p ++ bytes s ++ [nl_byte]) p.

Definition getOffset (p : Fpdf) : Z := Z.of_nat (length (buffer p)).

(** The framing line of object [m]. *)
Definition objHeader (m : Z) : string := itoa m +:+ " 0 obj".

(** [newObj(forced...)]: the number is the next one of the counter, or the
    forced one. *)
Definition newObj (forced : option Z) (p : Fpdf) : Fpdf :=
  let '(m, p) :=
    match forced with
    | Some m => (m, set_n (Z.max (n p) m) p)
    | None => (n p + 1, set_n (n p + 1) p)
    end in
  let p := set_offsets (<[m := getOffset p]> (offsets p)) p in
  put (objHeader m) p.

Definition putStream (data : list ascii) (p : Fpdf) : Fpdf :=
  let p := put "stream" p in
  let p := set_buffer (buffer p ++ data ++ [nl_byte]) p in
  put "endstream" p.

Definition flateCompress (data : list ascii) : list ascii := zlibCompress data.

Definition putStreamObject (data : list ascii) (p : Fpdf) : Fpdf :=
  let '(entries, data) :=
    if compress p then ("/Filter /FlateDecode ", flateCompress data)
    else ("", data) in
  let entries := entries +:+ "/Length " +:+ itoa (Z.of_nat (length data)) in
  let p := newObj None p in
  let p := put ("<<" +:+ entries +:+ ">>") p in
  let p := putStream data p in
  put "endobj" p.

(** [int(f)] on a float: truncation towards zero. *)
Definition Qtruncate (q : Q) : Z := Z.quot (Qnum q) (Z.pos (Qden q)).

Definition linkToInt (v : LinkVal) : Z :=
  match v with
  | LInt z => z
  | LNum q => Qtruncate q
  | _ => 0
  end.

Definition isASCII (s : string) : bool :=
  forallb (fun c => (N_of_ascii c <=? 127)%N) (bytes s).

Definition byteOf (z : Z) : ascii := ascii_of_N (Z.to_N (z mod 256)).

Definition utf8ToUTF16BEWithBOM (s : string) : string :=
  str (byteOf 254 :: byteOf 255
       :: flat_map (fun r =>
            let r := if 65535 <? r then 63 else r in
            [byteOf (r / 256); byteOf r]) (runesOf s)).

Definition textString (s : string) : string :=
  let s := if isASCII s then s else utf8ToUTF16BEWithBOM s in
  "(" +:+ escape s +:+ ")".

(** Pass 1 of [putPages]: the numbers of the annotations of one page. *)
Fixpoint numberLinks (m : Z) (l : list PageLink) : list PageLink * Z :=
  match l with
  | [] => ([], m)
  | pl :: rest =>
      let m := m + 1 in
      let '(rest', m') := numberLinks m rest in
      (mkPageLink (pl_x pl) (pl_y pl) (pl_w pl) (pl_h pl) (pl_link pl)
         (pl_tail pl ++ [m]) :: rest', m')
  end.

(** Pass 1 of [putPages] for page [i]; [m] is the local counter [n]. *)
Definition planPage (acc : Z * Fpdf) (i : Z) : Z * Fpdf :=
  let '(m, p) := acc in
  let info := default emptyInfo (pageInfo p !! i) in
  let m := m + 1 in
  let p :=
    set_pageInfo
      (<[i := mkPageInfo (pi_size info) (pi_rotation info) (Some m)]>
         (pageInfo p)) p in
  let m := m + 1 in
  match pageLinks p !! i with
  | None => (m, p)
  | Some l =>
      let '(l', m') := numberLinks m l in
      (m', set_pageLinks (<[i := l']> (pageLinks p)) p)
  end.

(** [pl[5]], the number planned for an annotation. *)
Definition pl_n (pl : PageLink) : Z := hd 0 (pl_tail pl).

(** [p.pageInfo[i]["n"]] through [toInt]. *)
Definition pageObj (i : Z) (p : Fpdf) : Z :=
  default 0 (pageInfo p !! i ≫= pi_n).

Definition putLink (pl : PageLink) (p : Fpdf) : Fpdf :=
  let p := newObj None p in
  let rect :=
    F2 (pl_x pl) +:+ " " +:+ F2 (pl_y pl) +:+ " " +:+ F2 (pl_x pl + pl_w pl)%Q
    +:+ " " +:+ F2 (pl_y pl - pl_h pl)%Q in
  let s :=
    "<</Type /Annot /Subtype /Link /Rect [" +:+ rect +:+ "] /Border [0 0 0] "
  in
  let s :=
    match pl_link pl with
    | LStr v => s +:+ "/A <</S /URI /URI " +:+ textString v +:+ ">>>>"
    | v =>
        let dst := default (0%Q, 0%Q) (links p !! linkToInt v) in
        let pg := Qtruncate (fst dst) in
        let y2 := snd dst in
        let hPage :=
          match pageInfo p !! pg ≫= pi_size with
          | Some sz => snd sz
          | None => hPt p
          end in
        s +:+ "/Dest [" +:+ itoa (pageObj pg p) +:+ " 0 R /XYZ 0 "
        +:+ F2 (hPage - y2 * k p)%Q +:+ " null]>>"
    end in
  let p := put s p in
  put "endobj" p.

Definition putLinks (pg : Z) (p : Fpdf) : Fpdf :=
  fold_left (fun p pl => putLink pl p) (default [] (pageLinks p !! pg)) p.

(** The parts of [putPage] that read the document more than once: the
    size and rotation of the page, ... *)
Definition putPageBox (pg : Z) (p : Fpdf) : Fpdf :=
  match pageInfo p !! pg with
  | Some info =>
      let p :=
        match pi_size info with
        | Some sz =>
            put ("/MediaBox [0 0 " +:+ F2 (fst sz) +:+ " " +:+ F2 (snd sz)
                 +:+ "]") p
        | None => p
        end in
      match pi_rotation info with
      | Some rot => put ("/Rotate " +:+ itoa rot) p
      | None => p
      end
  | None => p
  end.

(** ... the references to its annotations, ... *)
Definition putPageAnnots (pg : Z) (p : Fpdf) : Fpdf :=
  let pls := default [] (pageLinks p !! pg) in
  if (0 <? length pls)%nat then
    put (fold_left (fun s pl => s +:+ itoa (pl_n pl) +:+ " 0 R ") pls
           "/Annots [" +:+ "]") p
  else p.

(** ... the transparency group, the reference to the content stream, ... *)
Definition putPageGroup (p : Fpdf) : Fpdf :=
  if withAlpha p
  then put "/Group <</Type /Group /S /Transparency /CS /DeviceRGB>>" p
  else p.

Definition putContentsRef (p : Fpdf) : Fpdf :=
  put ("/Contents " +:+ itoa (n p + 1) +:+ " 0 R>>") p.

(** ... and the content stream itself. *)
Definition pageContent (pg : Z) (p : Fpdf) : string :=
  let content := join (default [] (pages p !! pg)) (str [nl_byte])
                 +:+ str [nl_byte] in
  if negb (streq (aliasNbPages p) "")
  then replaceAll content (aliasNbPages p) (itoa (page p))
  else content.

Definition putPageContent (pg : Z) (p : Fpdf) : Fpdf :=
  putStreamObject (bytes (pageContent pg p)) p.

Definition putPage (pg : Z) (p : Fpdf) : Fpdf :=
  let p := newObj None p in
  let p := put "<</Type /Page" p in
  let p := put "/Parent 1 0 R" p in
  let p := putPageBox pg p in
  let p := put "/Resources 2 0 R" p in
  let p := putPageAnnots pg p in
  let p := putPageGroup p in
  let p := putContentsRef p in
  let p := put "endobj" p in
  let p := putPageContent pg p in
  putLinks pg p.

(** Pass 1 and pass 2 of [putPages]. *)
Definition planPages (p : Fpdf) : Fpdf :=
  snd (fold_left planPage (seqZ 1 (page p)) (n p, p)).

Definition emitPages (p : Fpdf) : Fpdf :=
  fold_left (fun p i => putPage i p) (seqZ 1 (page p)) p.

(** The entries of the pages root. *)
Definition putKids (p : Fpdf) : Fpdf :=
  put (fold_left (fun s i => s +:+ itoa (pageObj i p) +:+ " 0 R ")
         (seqZ 1 (page p)) "/Kids [" +:+ "]") p.

Definition putCount (p : Fpdf) : Fpdf := put ("/Count " +:+ itoa (page p)) p.

Definition putRootBox (p : Fpdf) : Fpdf :=
  let '(w0, h0) := defPageSize p in
  let '(w0, h0) :=
    if negb (streq (defOrientation p) "P") then (h0, w0) else (w0, h0) in
  put ("/MediaBox [0 0 " +:+ F2 (w0 * k p)%Q +:+ " " +:+ F2 (h0 * k p)%Q
       +:+ "]") p.

Definition putPages (p : Fpdf) : Fpdf :=
  let p := planPages p in
  let p := emitPages p in
  let p := newObj (Some 1) p in
  let p := put "<</Type /Pages" p in
  let p := putKids p in
  let p := putCount p in
  let p := putRootBox p in
  let p := put ">>" p in
  put "endobj" p.

Definition toUnicodeCMap (uv : gmap Z uvEntry) : string :=
  let keys := merge_sort Z.le (map fst (map_to_list uv)) in
  let '(ranges, chars, nbr, nbc) :=
    fold_left (fun '(ranges, chars, nbr, nbc) c =>
      match uv !! c with
      | Some (UVRange start count) =>
          (ranges +:+ "<" +:+ sprintf_0X 2 c +:+ "> <"
           +:+ sprintf_0X 2 (c + count - 1) +:+ "> <" +:+ sprintf_0X 4 start
           +:+ ">" +:+ str [nl_byte], chars, nbr + 1, nbc)
      | Some (UVInt v) =>
          (ranges,
           chars +:+ "<" +:+ sprintf_0X 2 c +:+ "> <" +:+ sprintf_0X 4 v
           +:+ ">" +:+ str [nl_byte], nbr, nbc + 1)
      | None => (ranges, chars, nbr, nbc)
      end) keys ("", "", 0, 0) in
  let nl := str [nl_byte] in
  let b := "/CIDInit /ProcSet findresource begin" +:+ nl in
  let b := b +:+ "12 dict begin" +:+ nl in
  let b := b +:+ "begincmap" +:+ nl in
  let b :=
    b +:+ "/CIDSystemInfo" +:+ nl +:+ "<</Registry (Adobe)" +:+ nl
    +:+ "/Ordering (UCS)" +:+ nl +:+ "/Supplement 0" +:+ nl +:+ ">> def"
    +:+ nl in
  let b :=
    b +:+ "/CMapName /Adobe-Identity-UCS def" +:+ nl +:+ "/CMapType 2 def"
    +:+ nl in
  let b :=
    b +:+ "1 begincodespacerange" +:+ nl +:+ "<00> <FF>" +:+ nl
    +:+ "endcodespacerange" +:+ nl in
  let b :=
    if 0 <? nbr
    then b +:+ itoa nbr +:+ " beginbfrange" +:+ nl +:+ ranges
         +:+ "endbfrange" +:+ nl
    else b in
  let b :=
    if 0 <? nbc
    then b +:+ itoa nbc +:+ " beginbfchar" +:+ nl +:+ chars +:+ "endbfchar"
         +:+ nl
    else b in
  b +:+ "endcmap" +:+ nl +:+ "CMapName currentdict /CMap defineresource pop"
  +:+ nl +:+ "end" +:+ nl +:+ "end".

(** The Unicode map of a font, when it has one; the result is
    [toUnicodeObj]. *)
Definition putToUnicode (f : pdfFont) (p : Fpdf) : Z * Fpdf :=
  if (0 <? size (font_uv f))%nat then
    let p := putStreamObject (bytes (toUnicodeCMap (font_uv f))) p in
    (n p, p)
  else (0, p).

(** [f.n = p.n; p.fonts[k] = f] *)
Definition setFontNumber (key : string) (f : pdfFont) (p : Fpdf) : Fpdf :=
  set_fonts (<[key := font_with_n f (n p)]> (fonts p)) p.

Definition putFontDict (f : pdfFont) (toUnicodeObj : Z) (p : Fpdf) : Fpdf :=
  let p := put "<</Type /Font" p in
  let p := put ("/BaseFont /" +:+ font_name f) p in
  let p := put "/Subtype /Type1" p in
  let p :=
    if negb (streq (font_name f) "Symbol")
       && negb (streq (font_name f) "ZapfDingbats")
    then put "/Encoding /WinAnsiEncoding" p
    else p in
  let p :=
    if 0 <? toUnicodeObj
    then put ("/ToUnicode " +:+ itoa toUnicodeObj +:+ " 0 R") p
    else p in
  let p := put ">>" p in
  put "endobj" p.

(** The body of the loop of [putFonts], for the entry [(key, f)]. *)
Definition putFont (p : Fpdf) (kf : string * pdfFont) : Fpdf :=
  let '(key, f) := kf in
  let '(toUnicodeObj, p) := putToUnicode f p in
  let p := newObj None p in
  let p := setFontNumber key f p in
  putFontDict f toUnicodeObj p.

Definition putFonts (p : Fpdf) : Fpdf :=
  fold_left putFont (rangeFonts (fonts p)) p.

(** [info.n = p.n], through the pointer held by [images]. *)
Definition setImageNumber (key : string) (info : pdfImage) (p : Fpdf)
  : Fpdf :=
  set_images (<[key := img_with_n info (n p)]> (images p)) p.

Definition putImageDict (info : pdfImage) (p : Fpdf) : Fpdf :=
  let p := put "<</Type /XObject" p in
  let p := put "/Subtype /Image" p in
  let p := put ("/Width " +:+ itoa (img_w info)) p in
  let p := put ("/Height " +:+ itoa (img_h info)) p in
  let p := put ("/ColorSpace /" +:+ img_cs info) p in
  let p := put ("/BitsPerComponent " +:+ itoa (img_bpc info)) p in
  let p :=
    if negb (streq (img_f info) "") then put ("/Filter /" +:+ img_f info) p
    else p in
  let p :=
    put ("/Length " +:+ itoa (Z.of_nat (length (img_data info))) +:+ ">>") p in
  let p := putStream (img_data info) p in
  put "endobj" p.

(** [putImage]; the image is the entry [key] of [images]. *)
Definition putImage (p : Fpdf) (ki : string * pdfImage) : Fpdf :=
  let '(key, info) := ki in
  let p := newObj None p in
  let p := setImageNumber key info p in
  putImageDict info p.

Definition putImages (p : Fpdf) : Fpdf :=
  fold_left putImage (rangeImages (images p)) p.

Definition putFontRefs (p : Fpdf) : Fpdf :=
  fold_left (fun p '(_, f) =>
    put ("/F" +:+ itoa (font_i f) +:+ " " +:+ itoa (font_n f) +:+ " 0 R") p)
    (rangeFonts (fonts p)) p.

Definition putImageRefs (p : Fpdf) : Fpdf :=
  fold_left (fun p '(_, im) =>
    put ("/I" +:+ itoa (img_i im) +:+ " " +:+ itoa (img_n im) +:+ " 0 R") p)
    (rangeImages (images p)) p.

Definition putResourceDict (p : Fpdf) : Fpdf :=
  let p := put "/ProcSet [/PDF /Text /ImageB /ImageC /ImageI]" p in
  let p := put "/Font <<" p in
  let p := putFontRefs p in
  let p := put ">>" p in
  let p := put "/XObject <<" p in
  let p := putImageRefs p in
  put ">>" p.

Definition putResources (p : Fpdf) : Fpdf :=
  let p := putFonts p in
  let p := putImages p in
  let p := newObj (Some 2) p in
  let p := put "<<" p in
  let p := putResourceDict p in
  let p := put ">>" p in
  put "endobj" p.

(** [p.metadata["CreationDate"] = ...] *)
Definition setCreationDate (p : Fpdf) : Fpdf :=
  let date := bytes (creationDate p) in
  let cut := (length date - 2)%nat in
  set_metadata
    (<["CreationDate" :=
         "D:" +:+ str (take cut date) +:+ "'" +:+ str (drop cut date)
         +:+ "'"]> (metadata p)) p.

Definition putInfoLines (p : Fpdf) : Fpdf :=
  fold_left (fun p key =>
    put ("/" +:+ key +:+ " "
         +:+ textString (default "" (metadata p !! key))) p)
    (merge_sort (fun a b => String.leb a b)
       (map fst (map_to_list (metadata p)))) p.

Definition putInfo (p : Fpdf) : Fpdf :=
  let p := setCreationDate p in
  putInfoLines p.

Definition putOpenAction (m : Z) (p : Fpdf) : Fpdf :=
  match zoomMode p with
  | ZoomStr v =>
      let s := strings_ToLower v in
      if streq s "fullpage"
      then put ("/OpenAction [" +:+ itoa m +:+ " 0 R /Fit]") p
      else if streq s "fullwidth"
      then put ("/OpenAction [" +:+ itoa m +:+ " 0 R /FitH null]") p
      else if streq s "real"
      then put ("/OpenAction [" +:+ itoa m +:+ " 0 R /XYZ null null 1]") p
      else p
  | ZoomNum v =>
      put ("/OpenAction [" +:+ itoa m +:+ " 0 R /XYZ null null "
           +:+ F2 (v / 100)%Q +:+ "]") p
  | ZoomNil => p
  end.

Definition putPageLayout (p : Fpdf) : Fpdf :=
  if streq (layoutMode p) "single" then put "/PageLayout /SinglePage" p
  else if streq (layoutMode p) "continuous"
  then put "/PageLayout /OneColumn" p
  else if streq (layoutMode p) "two" then put "/PageLayout /TwoColumnLeft" p
  else p.

Definition putCatalog (p : Fpdf) : Fpdf :=
  let m := pageObj 1 p in
  let p := put "/Type /Catalog" p in
  let p := put "/Pages 1 0 R" p in
  let p := putOpenAction m p in
  putPageLayout p.

Definition putHeader (p : Fpdf) : Fpdf := put ("%PDF-" +:+ pdfVersion p) p.

Definition putTrailer (p : Fpdf) : Fpdf :=
  let p := put ("/Size " +:+ itoa (n p + 1)) p in
  let p := put ("/Root " +:+ itoa (n p) +:+ " 0 R") p in
  put ("/Info " +:+ itoa (n p - 1) +:+ " 0 R") p.

(** One line of the cross-reference table. *)
Definition xrefLine (p : Fpdf) (i : Z) : string :=
  sprintf_0d 10 (default 0 (offsets p !! i)) +:+ " 00000 n ".

(** The lines of the table: [for i := 1; i <= p.n; i++]; [put] leaves
    [p.n] as it is, so that the bound is the one on entry. *)
Definition putXrefLines (p : Fpdf) : Fpdf :=
  fold_left (fun p i => put (xrefLine p i) p) (seqZ 1 (n p)) p.

Definition putXrefHead (p : Fpdf) : Fpdf :=
  let p := put "xref" p in
  let p := put ("0 " +:+ itoa (n p + 1)) p in
  put "0000000000 65535 f " p.

(** The cross-reference table and the trailer, the end of [endDoc];
    [offset] is the offset of the table. *)
Definition putXref (p : Fpdf) : Fpdf :=
  let offset := getOffset p in
  let p := putXrefHead p in
  let p := putXrefLines p in
  let p := put "trailer" p in
  let p := put "<<" p in
  let p := putTrailer p in
  let p := put ">>" p in
  let p := put "startxref" p in
  let p := put (itoa offset) p in
  let p := put "%%EOF" p in
  set_state 3 p.

(** The objects of [endDoc]: everything up to the catalog. *)
Definition putObjects (p : Fpdf) : Fpdf :=
  let p := putPages p in
  let p := putResources p in
  let p := newObj None p in
  let p := put "<<" p in
  let p := putInfo p in
  let p := put ">>" p in
  let p := put "endobj" p in
  let p := newObj None p in
  let p := put "<<" p in
  let p := putCatalog p in
  let p := put ">>" p in
  put "endobj" p.

Definition endDoc (p : Fpdf) : Fpdf :=
  let p := set_creationDate timeNow p in
  let p := putHeader p in
  let p := putObjects p in
  putXref p.

Definition Close (p : Fpdf) : Res Fpdf :=
  if state p =? 3 then Ok p
  else
    p ← (if page p =? 0 then AddPage "" "" 0 p else Ok p);
    p ← Footer (set_inFooter true p);
    let p := set_inFooter false p in
    Ok (endDoc (endPage p)).

End Engine.

(** ** A host to run the model on

    ASCII case mapping and trimming, decimal formatting of the exact value
    (ties to even), no compression, a fixed clock, one rune per byte, maps
    visited in the order of [map_to_list], no hooks. *)

Definition asciiLower (c : ascii) : ascii :=
  let m := N_of_ascii c in
  if ((65 <=? m) && (m <=? 90))%N then ascii_of_N (m + 32) else c.

Definition asciiUpper (c : ascii) : ascii :=
  let m := N_of_ascii c in
  if ((97 <=? m) && (m <=? 122))%N then ascii_of_N (m - 32) else c.

Definition isSpace (c : ascii) : bool :=
  let m := N_of_ascii c in
  ((9 <=? m) && (m <=? 13) || (m =? 32))%N.

Fixpoint trimLeft (l : list ascii) : list ascii :=
  match l with
  | c :: t => if isSpace c then trimLeft t else l
  | [] => []
  end.

Definition trimSpace (s : string) : string :=
  str (rev (trimLeft (rev (trimLeft (bytes s))))).

Fixpoint afterLastSlash (acc l : list ascii) : list ascii :=
  match l with
  | [] => acc
  | c :: t =>
      if bool_decide (c = "/"%char) then afterLastSlash [] t
      else afterLastSlash (acc ++ [c]) t
  end.

Definition roundHalfEven (q : Q) : Z :=
  let fl := Qfloor q in
  let r := (q - inject_Z fl)%Q in
  if Qgtb (1 # 2) r then fl
  else if Qgtb r (1 # 2) then fl + 1
  else if Z.even fl then fl else fl + 1.

Definition fmtFixed (digits : nat) (q : Q) : string :=
  let scale := 10 ^ Z.of_nat digits in
  let m := roundHalfEven (Qabs q * inject_Z scale)%Q in
  (if Qgtb 0 q then "-" else "")
  +:+ itoa (m / scale)
  +:+ (if (0 <? digits)%nat
       then "." +:+ padLeft digits "0"%char (itoa (m mod scale))
       else "").

Definition plainHost : Host := {|
  sprintfF := fmtFixed;
  strings_ToLower := fun s => str (map asciiLower (bytes s));
  strings_ToUpper := fun s => str (map asciiUpper (bytes s));
  strings_TrimSpace := trimSpace;
  filepath_Base := fun s => str (afterLastSlash [] (bytes s));
  zlibCompress := fun d => d;
  timeNow := "20260102030405+0000";
  runesOf := fun s => map (fun c => Z.of_N (N_of_ascii c)) (bytes s);
  rangeFonts := map_to_list;
  rangeImages := map_to_list;
  headerFunc := None;
  footerFunc := None
|}.

(** * Properties *)

(** ** Sums of widths *)



(** The accumulator [l] of the scanning loops over the bytes [bs]. *)
Definition scanUnits (f : pdfFont) (bs : list ascii) : Z :=
  fold_left (fun acc c => wrap64 (acc + fontCharWidth f c)) bs 0.


Lemma wrap64_idem z : wrap64 (wrap64 z) = wrap64 z.
Proof.
  replace (wrap64 z) with (wrap64 z + 0) at 1 by lia.
  rewrite wrap64_add_l. f_equal. lia.
Qed.




Lemma scanUnits_snoc (f : pdfFont) (bs : list ascii) (c : ascii) :
  scanUnits f (bs ++ [c]) = wrap64 (scanUnits f bs + fontCharWidth f c).
Proof. unfold scanUnits. now rewrite fold_left_app. Qed.




(** ** C3: GetStringWidth and the fallback to '?' *)





(** ** C4: GetStringWidth is additive *)




(** ** C10: GetStringWidth without a font *)

(** C10: with no font selected, [GetStringWidth] returns 0 for every string;
    it is a total function, it has no failing path. *)
Theorem GetStringWidth_no_font (s : string) (p : Fpdf) :
  currentFont p = None -> GetStringWidth s p = 0%Q.
Proof. intros Hf. unfold GetStringWidth. now rewrite Hf. Qed.

Lemma GetStringWidth_no_font_witness :
  GetStringWidth "any text" zeroFpdf = 0%Q.
Proof. apply (GetStringWidth_no_font "any text" zeroFpdf). reflexivity. Defined.

Section Properties.
Context `{Host}.

(** ** C8: invalid unit and page-size tokens *)

(** The page size A4 in user units at scale [k0]. *)
Definition a4Size (k0 : Q) : Q * Q := (595.28 / k0, 841.89 / k0)%Q.

(** The page-size tokens of [stdPageSizes]. *)
Definition isPageSize (t : string) : bool :=
  bool_decide (t ∈ ["a3"; "a4"; "a5"; "letter"; "legal"]).

Lemma Reset_defaults_keeps (p : Fpdf) :
  k (Reset_defaults p) = k p
  /\ defPageSize (Reset_defaults p) = defPageSize p
  /\ curPageSize (Reset_defaults p) = curPageSize p
  /\ lastError (Reset_defaults p) = "".
Proof.
  unfold Reset_defaults, SetMargins, SetAutoPageBreak, SetDisplayMode,
    SetCompression.
  fields. auto.
Qed.

Lemma Reset_page_sizes (orientation size : string) (p : Fpdf) :
  let q := Reset_page orientation size p in
  k q = k p
  /\ defPageSize q = getPageSize size (set_stdPageSizes (pageSizeTable (k p)) p)
  /\ curPageSize q = defPageSize q.
Proof.
  unfold Reset_page. fields. destruct (_ || _); fields; auto.
Qed.

Lemma Reset_unit_k (unit : string) (p : Fpdf) :
  k (Reset_unit unit p)
  = default (72 / 25.4)%Q
      (unitScale (strings_ToLower (strings_TrimSpace unit))).
Proof.
  unfold Reset_unit, setError.
  destruct (unitScale _); fields; reflexivity.
Qed.

Lemma pageSizeTable_a4 (k0 : Q) : pageSizeTable k0 !! "a4" = Some (a4Size k0).
Proof. reflexivity. Qed.

Lemma pageSizeTable_other (k0 : Q) (t : string) :
  isPageSize t = false -> pageSizeTable k0 !! t = None.
Proof.
  unfold isPageSize. intros Ht. apply bool_decide_eq_false in Ht.
  unfold pageSizeTable. simpl.
  rewrite !lookup_insert_ne; [apply lookup_empty|..];
    intros E; subst t; apply Ht; set_solver.
Qed.

(** What [getPageSize] answers on a token outside the table. *)
Lemma getPageSize_fallback (size : string) (k0 : Q) (p : Fpdf) :
  isPageSize (strings_ToLower (strings_TrimSpace size)) = false ->
  getPageSize size (set_stdPageSizes (pageSizeTable k0) p) = a4Size k0.
Proof.
  intros Ht. unfold getPageSize. fields.
  destruct (streq _ "").
  - now rewrite pageSizeTable_a4.
  - rewrite (pageSizeTable_other _ _ Ht). now rewrite pageSizeTable_a4.
Qed.

(** C8, amended: creating a document with an invalid unit token or an
    invalid page-size token does not abort; the document is created with the
    scale of millimetres, 72/25.4, for the unit and with the size A4 for the
    page. *)
Theorem Reset_invalid_tokens (orientation unit size : string) (p : Fpdf) :
  let q := Reset orientation unit size p in
  (unitScale (strings_ToLower (strings_TrimSpace unit)) = None ->
   k q = (72 / 25.4)%Q)
  /\ (isPageSize (strings_ToLower (strings_TrimSpace size)) = false ->
      defPageSize q = a4Size (k q) /\ curPageSize q = a4Size (k q)).
Proof.
  unfold Reset. cbv zeta.
  destruct (Reset_defaults_keeps
              (Reset_page orientation size (Reset_unit unit (Reset_fields p))))
    as (Hk & Hd & Hc & _).
  destruct (Reset_page_sizes orientation size (Reset_unit unit (Reset_fields p)))
    as (Hk' & Hd' & Hc').
  rewrite Hk, Hd, Hc, Hk', Hc', Hd'. split.
  - intros Hu. rewrite Reset_unit_k, Hu. reflexivity.
  - intros Hs. now rewrite (getPageSize_fallback _ _ _ Hs).
Qed.

End Properties.

(** C8 as stated fails: with the unit token "furlong" and the page-size
    token "B7" the constructor returns a document, no error is recorded, and
    millimetres and A4 have been substituted. *)
Lemma NewFpdf_accepts_bad_tokens :
  let q := @NewFpdf plainHost "P" "furlong" "B7" in
  lastError q = ""
  /\ k q = (72 / 25.4)%Q
  /\ defPageSize q = a4Size (72 / 25.4)
  /\ state q = 0.
Proof. vm_compute. auto. Qed.

Lemma Reset_invalid_tokens_witness :
  let q := @NewFpdf plainHost "P" "furlong" "B7" in
  k q = (72 / 25.4)%Q
  /\ defPageSize q = a4Size (k q) /\ curPageSize q = a4Size (k q).
Proof.
  intros q.
  destruct (@Reset_invalid_tokens plainHost "P" "furlong" "B7" zeroFpdf)
    as [Hu Hs].
  split; [apply Hu | apply Hs]; reflexivity.
Defined.

Section CellProperties.
Context `{Host}.

Ltac res_simpl := cbn [mbind Res_bind mret Res_ret].

(** ** The guard of [out] *)

Lemma out_open (s : string) (p : Fpdf) :
  state p = 2 -> out s p = Ok (appendOp s p).
Proof. intros Hs. unfold out. now rewrite Hs. Qed.

Lemma out_Ok (s : string) (p q : Fpdf) :
  out s p = Ok q -> q = appendOp s p \/ q = p.
Proof.
  unfold out, panicError.
  repeat (destruct (_ =? _); try discriminate); intros [= <-]; auto.
Qed.

(** The messages [out] panics with. *)
Definition stateMessages : list string :=
  [ "fpdf error: no page has been added yet"; "fpdf error: invalid call";
    "fpdf error: the document is closed" ].

Lemma out_Panic (s : string) (p : Fpdf) (m : string) :
  out s p = Panic m -> m ∈ stateMessages.
Proof.
  unfold out, panicError, stateMessages.
  repeat (destruct (_ =? _); try discriminate); intros [= <-]; set_solver.
Qed.

Lemma appendOp_frame (s : string) (p : Fpdf) :
  x (appendOp s p) = x p /\ y (appendOp s p) = y p
  /\ ws (appendOp s p) = ws p /\ lMargin (appendOp s p) = lMargin p
  /\ currentFont (appendOp s p) = currentFont p
  /\ fontSize (appendOp s p) = fontSize p
  /\ state (appendOp s p) = state p /\ page (appendOp s p) = page p.
Proof. unfold appendOp. fields. repeat split. Qed.


(** ** C9: Cell and the missing font *)

Definition noFontFailure : Res Fpdf := panicError "no font has been set".

(** A frame is asked for: a background, the full border, or a border
    letter. *)
Definition frameRequested (border : Border) (fill : bool) : bool :=
  fill || borderIsOne border
  || match border with
     | BStr bs =>
         containsByte bs "L" || containsByte bs "T" || containsByte bs "R"
         || containsByte bs "B"
     | _ => false
     end.

(** The cursor after a cell of width [wd] and height [ht] drawn at [p]. *)
Definition advanced (wd ht : Q) (ln : Z) (p q : Fpdf) : Prop :=
  if 0 <? ln
  then y q = (y p + ht)%Q /\ x q = (if ln =? 1 then lMargin p else x p)
  else x q = (x p + wd)%Q /\ y q = y p.

Lemma append_nonempty (a b : string) : b <> "" -> a +:+ b <> "".
Proof. destruct a; simpl; [auto | discriminate]. Qed.

Lemma append_nonempty_l (a b : string) : a <> "" -> a +:+ b <> "".
Proof. destruct a; simpl; [congruence | discriminate]. Qed.

Lemma lineOp_nonempty (a b c d : Q) : lineOp a b c d <> "".
Proof. unfold lineOp. apply append_nonempty. discriminate. Qed.

Lemma cellFrame_requested (k0 wd ht : Q) (border : Border) (fill : bool)
    (p : Fpdf) :
  frameRequested border fill = true -> cellFrame k0 wd ht border fill p <> "".
Proof.
  unfold frameRequested, cellFrame. intros Hreq.
  set (s0 := if fill || borderIsOne border then _ else "").
  assert (Hs0 : fill || borderIsOne border = true -> s0 <> "").
  { intros E. unfold s0. rewrite E.
    apply append_nonempty. discriminate. }
  clearbody s0.
  destruct border as [|z|bs].
  - apply Hs0. now rewrite orb_false_r in Hreq.
  - apply Hs0. now rewrite orb_false_r in Hreq.
  - cbv zeta. destruct (fill || borderIsOne (BStr bs)) eqn:E0.
    + specialize (Hs0 eq_refl).
      repeat match goal with
             | |- context [if ?c then _ else _] => destruct c
             end;
        repeat apply append_nonempty_l; assumption.
    + simpl in Hreq.
      destruct (containsByte bs "L") eqn:EL;
        destruct (containsByte bs "T") eqn:ET;
        destruct (containsByte bs "R") eqn:ER;
        destruct (containsByte bs "B") eqn:EB; try discriminate;
        first [ apply append_nonempty, lineOp_nonempty
              | apply append_nonempty_l, append_nonempty, lineOp_nonempty
              | apply lineOp_nonempty ].
Qed.

Lemma Cell_advance_cursor (wd ht : Q) (ln : Z) (p : Fpdf) :
  advanced wd ht ln p (Cell_advance wd ht ln p)
  /\ pages (Cell_advance wd ht ln p) = pages p
  /\ ws (Cell_advance wd ht ln p) = ws p.
Proof.
  unfold advanced, Cell_advance.
  destruct (0 <? ln); [destruct (ln =? 1)|]; fields; auto.
Qed.

(** Without a page break, [Cell] is its drawing part. *)
Lemma Cell_without_break (wd ht : Q) (txt : string) (border : Border)
    (ln : Z) (align : string) (fill : bool) (link : LinkVal) (p : Fpdf) :
  needsPageBreak ht p = false ->
  Cell wd ht txt border ln align fill link p
  = Cell_draw (k p) wd ht txt border ln align fill link p.
Proof. intros Hnb. unfold Cell, Cell_pageBreak. now rewrite Hnb. Qed.

Lemma noFont_not_state_message :
  "fpdf error: no font has been set" ∉ stateMessages.
Proof.
  unfold stateMessages. rewrite !elem_of_cons, elem_of_nil.
  intros [E|[E|[E|[]]]]; discriminate.
Qed.

(** The drawing part ends normally or with a panic of [out], once the text
    has been laid out. *)
Lemma draw_tail_not_noFont (s : string) (wd ht : Q) (ln : Z) (p : Fpdf) :
  ((if negb (streq s "") then out s p else Ok p)
     ≫= fun q => Ok (Cell_advance wd ht ln q)) <> noFontFailure.
Proof.
  destruct (negb (streq s "")); [|discriminate].
  destruct (out s p) as [q|m] eqn:Ho; [discriminate|].
  res_simpl. intros [= ->]. apply out_Panic in Ho.
  now apply noFont_not_state_message.
Qed.

(** C9, amended: when the page-break branch is not taken, [Cell] raises the
    no-font failure exactly when the text is not empty and no font is set;
    with an empty text it succeeds without a font whenever nothing is to be
    drawn or a page is open: the operators of the frame, which are not empty
    when a border or a fill is asked for, are appended to the page, and the
    cursor advances by the width, or by the height when a line break is
    asked for. *)
Theorem Cell_font_failure (wd ht : Q) (txt : string) (border : Border)
    (ln : Z) (align : string) (fill : bool) (link : LinkVal) (p : Fpdf) :
  needsPageBreak ht p = false ->
  let wd' := cellWidth wd p in
  let s := cellFrame (k p) wd' ht border fill p in
  (Cell wd ht txt border ln align fill link p = noFontFailure
   <-> txt <> "" /\ currentFont p = None)
  /\ (txt = "" -> s = "" \/ state p = 2 ->
      exists q,
        Cell wd ht txt border ln align fill link p = Ok q
        /\ pages q = (if streq s "" then pages p else pages (appendOp s p))
        /\ advanced wd' ht ln p q)
  /\ (frameRequested border fill = true -> s <> "").
Proof.
  intros Hnb wd' s. rewrite (Cell_without_break _ _ _ _ _ _ _ _ _ Hnb).
  unfold Cell_draw. fold wd'. fold s.
  split; [|split].
  - destruct (streq txt "") eqn:Et.
    + apply streq_true in Et. subst txt. cbn [negb]. res_simpl.
      split; [|intros [Hne _]; now destruct Hne].
      intros Hr. now apply draw_tail_not_noFont in Hr.
    + apply streq_false in Et. cbn [negb]. unfold cellText.
      destruct (currentFont p) as [f|] eqn:Hf.
      * res_simpl. split; [|intros [_ [=]]].
        intros Hr. now apply draw_tail_not_noFont in Hr.
      * res_simpl. split; [auto | reflexivity].
  - intros -> Hs. rewrite streq_refl. cbn [negb]. res_simpl.
    destruct (Cell_advance_cursor wd' ht ln p) as (Ha & Hp & _).
    destruct (streq s "") eqn:Es; cbn [negb].
    + res_simpl. eexists. split; [reflexivity|]. split; assumption.
    + destruct Hs as [Hs | Hs].
      { apply streq_false in Es. contradiction. }
      rewrite (out_open _ _ Hs). res_simpl.
      eexists. split; [reflexivity|].
      destruct (Cell_advance_cursor wd' ht ln (appendOp s p)) as (Ha' & Hp' & _).
      split; [assumption|].
      destruct (appendOp_frame s p) as (Hx & Hy & _ & Hl & _).
      unfold advanced in *. rewrite Hx, Hy, Hl in Ha'. exact Ha'.
  - apply cellFrame_requested.
Qed.

(** ** C6: the page break of Cell *)





End CellProperties.

(** A document with one open page, on the runnable host. *)
Definition pageDoc : Fpdf :=
  match @AddPage plainHost "" "" 0 (@NewFpdf plainHost "P" "mm" "A4") with
  | Ok p => p
  | Panic _ => zeroFpdf
  end.

(** C9 as stated fails: on a document without a page, a cell with an empty
    text and a full border, whose page-break branch is not taken, does not
    succeed. *)
Lemma Cell_empty_text_no_page :
  let p := @NewFpdf plainHost "P" "mm" "A4" in
  needsPageBreak 10 p = false
  /\ currentFont p = None
  /\ @Cell plainHost 40 10 "" (BInt 1) 0 "" false LNil p
     = Panic "fpdf error: no page has been added yet".
Proof. vm_compute. auto. Qed.

Lemma Cell_font_failure_witness :
  (exists q,
     @Cell plainHost 40 10 "" (BInt 1) 0 "" false LNil pageDoc = Ok q
     /\ advanced 40 10 0 pageDoc q)
  /\ @Cell plainHost 40 10 "text" (BInt 1) 0 "" false LNil pageDoc
     = noFontFailure.
Proof.
  split.
  - destruct (@Cell_font_failure plainHost 40 10 "" (BInt 1) 0 "" false LNil
                pageDoc) as (_ & Hempty & _); [vm_compute; reflexivity|].
    destruct (Hempty eq_refl (or_intror eq_refl)) as (q & Hq & _ & Hadv).
    exists q. split; [exact Hq | exact Hadv].
  - apply (@Cell_font_failure plainHost 40 10 "text" (BInt 1) 0 "" false LNil
             pageDoc); [vm_compute; reflexivity|].
    split; [discriminate | reflexivity].
Defined.

(** ** The scanning loops *)













Section DrawProperties.
Context `{Host}.

Ltac res_simpl := cbn [mbind Res_bind mret Res_ret].




End DrawProperties.

(** ** C7: Write *)

Section WriteProperties.
Context `{Host}.
Variables (ht : Q) (s : list ascii) (link : LinkVal).

Ltac res_simpl := cbn [mbind Res_bind mret Res_ret].








End WriteProperties.

Section WriteTheorem.
Context `{Host}.

Ltac res_simpl := cbn [mbind Res_bind mret Res_ret].



End WriteTheorem.






(** ** C5: the justification of MultiCell *)

Section MultiCellProperties.
Context `{Host}.
Variables (wd ht : Q) (s : list ascii) (nb : nat) (b2 align : string)
  (fill : bool) (wmax : Q).
Hypothesis nb_le : (nb <= length s)%nat.

Ltac res_simpl := cbn [mbind Res_bind mret Res_ret].









End MultiCellProperties.

Section MultiCellTheorem.
Context `{Host}.

Ltac res_simpl := cbn [mbind Res_bind mret Res_ret].





End MultiCellTheorem.


(** ** The serializer: objects, numbers and offsets *)

(** The kinds of objects of a document, in the order of the traversal. *)
Inductive Kind : Type :=
| KPage | KContent | KAnnot | KPagesRoot | KToUnicode | KFont | KImage
| KResources | KInfo | KCatalog.

(** How the text of an object of each kind begins, after its framing
    line. *)
Definition kindPrefix (kd : Kind) : list ascii :=
  match kd with
  | KPage => bytes "<</Type /Page" ++ [nl_byte]
  | KContent | KToUnicode => bytes "<</"
  | KAnnot => bytes "<</Type /Annot /Subtype /Link"
  | KPagesRoot => bytes "<</Type /Pages" ++ [nl_byte]
  | KFont => bytes "<</Type /Font" ++ [nl_byte]
  | KImage => bytes "<</Type /XObject" ++ [nl_byte]
  | KResources => bytes "<<" ++ [nl_byte] ++ bytes "/ProcSet"
  | KInfo => bytes "<<" ++ [nl_byte]
  | KCatalog => bytes "<<" ++ [nl_byte] ++ bytes "/Type /Catalog" ++ [nl_byte]
  end.

(** An object as it stands in the file: its number, its kind and its bytes,
    from the framing line to the byte before the next object. *)
Record Obj : Type := mkObj {
  obj_num : Z;
  obj_kind : Kind;
  obj_bytes : list ascii
}.

Definition obj_tag (o : Obj) : Z * Kind := (obj_num o, obj_kind o).

(** The bytes of an object begin with its framing line "N 0 obj" and go on
    as its kind says. *)
Definition framed (o : Obj) : Prop :=
  exists rest,
    obj_bytes o
    = bytes (objHeader (obj_num o)) ++ [nl_byte] ++ kindPrefix (obj_kind o)
      ++ rest.

(** The offsets of objects laid one after the other from position [base]. *)
Fixpoint layOffsets (base : nat) (os : list Obj) (offs : gmap Z Z)
  : gmap Z Z :=
  match os with
  | [] => offs
  | o :: rest =>
      layOffsets (base + length (obj_bytes o)) rest
        (<[obj_num o := Z.of_nat base]> offs)
  end.

Definition objBytes (os : list Obj) : list ascii :=
  concat (map obj_bytes os).

(** From [p] to [p'] the objects [os] have been written, and nothing
    else. *)
Definition emits (p : Fpdf) (os : list Obj) (p' : Fpdf) : Prop :=
  buffer p' = buffer p ++ objBytes os
  /\ offsets p' = layOffsets (length (buffer p)) os (offsets p).

(** The same, the objects being known by number and kind. *)
Definition emitsPlan (p : Fpdf) (plan : list (Z * Kind)) (p' : Fpdf)
  : Prop :=
  exists os, emits p os p' /\ map obj_tag os = plan /\ Forall framed os.

(** The fields that the traversal of the serializer reads. *)
Definition sameRes (p p' : Fpdf) : Prop :=
  page p' = page p /\ pageInfo p' = pageInfo p
  /\ pageLinks p' = pageLinks p /\ fonts p' = fonts p
  /\ images p' = images p.

(** From [p] to [p'] bytes have been added to the object being written. *)
Definition grows (p p' : Fpdf) : Prop :=
  (exists ext, buffer p' = buffer p ++ ext)
  /\ offsets p' = offsets p /\ n p' = n p /\ sameRes p p'.

Lemma sameRes_refl (p : Fpdf) : sameRes p p.
Proof. repeat split. Qed.

Lemma sameRes_trans (p1 p2 p3 : Fpdf) :
  sameRes p1 p2 -> sameRes p2 p3 -> sameRes p1 p3.
Proof.
  intros (A1 & A2 & A3 & A4 & A5) (B1 & B2 & B3 & B4 & B5).
  repeat split; congruence.
Qed.

Lemma grows_refl (p : Fpdf) : grows p p.
Proof.
  split; [exists []; now rewrite app_nil_r|].
  split; [reflexivity|]. split; [reflexivity | apply sameRes_refl].
Qed.

Lemma grows_trans (p1 p2 p3 : Fpdf) :
  grows p1 p2 -> grows p2 p3 -> grows p1 p3.
Proof.
  intros ([e1 A0] & A1 & A2 & A3) ([e2 B0] & B1 & B2 & B3).
  split; [exists (e1 ++ e2); now rewrite B0, A0, app_assoc|].
  split; [congruence|]. split; [congruence|].
  eapply sameRes_trans; eauto.
Qed.

Lemma layOffsets_app (base : nat) (os1 os2 : list Obj) (offs : gmap Z Z) :
  layOffsets base (os1 ++ os2) offs
  = layOffsets (base + length (objBytes os1)) os2 (layOffsets base os1 offs).
Proof.
  revert base offs. induction os1 as [|o os1 IH]; intros base offs.
  - cbn. now rewrite Nat.add_0_r.
  - cbn [app layOffsets]. rewrite IH. unfold objBytes. cbn [map concat].
    rewrite length_app. f_equal. lia.
Qed.

Lemma emits_app (p1 p2 p3 : Fpdf) (os1 os2 : list Obj) :
  emits p1 os1 p2 -> emits p2 os2 p3 -> emits p1 (os1 ++ os2) p3.
Proof.
  intros [A1 A2] [B1 B2]. split.
  - rewrite B1, A1. unfold objBytes. now rewrite map_app, concat_app, app_assoc.
  - rewrite B2, A2, A1, layOffsets_app. now rewrite length_app.
Qed.

Lemma emitsPlan_app (p1 p2 p3 : Fpdf) (pl1 pl2 : list (Z * Kind)) :
  emitsPlan p1 pl1 p2 -> emitsPlan p2 pl2 p3 -> emitsPlan p1 (pl1 ++ pl2) p3.
Proof.
  intros (os1 & E1 & T1 & F1) (os2 & E2 & T2 & F2).
  exists (os1 ++ os2). split; [eapply emits_app; eauto|].
  split; [now rewrite map_app, T1, T2 | now apply Forall_app].
Qed.

Lemma emitsPlan_nil (p : Fpdf) : emitsPlan p [] p.
Proof.
  exists []. split; [|split; [reflexivity | constructor]].
  split; cbn; [now rewrite app_nil_r | reflexivity].
Qed.

(** One object: the framing line written at the end of the buffer of [p],
    then text that begins as the kind says. *)
Lemma emitsPlan_object (p p1 p2 : Fpdf) (m : Z) (kd : Kind) :
  buffer p1 = buffer p ++ bytes (objHeader m) ++ [nl_byte] ->
  offsets p1 = <[m := Z.of_nat (length (buffer p))]> (offsets p) ->
  (exists rest, buffer p2 = buffer p1 ++ kindPrefix kd ++ rest) ->
  offsets p2 = offsets p1 ->
  emitsPlan p [(m, kd)] p2.
Proof.
  intros Hb Ho [rest Hb2] Ho2.
  exists [mkObj m kd (bytes (objHeader m) ++ [nl_byte] ++ kindPrefix kd
                      ++ rest)].
  split; [|split; [reflexivity|]].
  - split; unfold objBytes; cbn.
    + rewrite Hb2, Hb, app_nil_r. now rewrite <- !app_assoc.
    + now rewrite Ho2, Ho.
  - constructor; [|constructor]. exists rest. reflexivity.
Qed.

Section Serializer.
Context `{Host}.

Lemma put_grows (s : string) (p : Fpdf) : grows p (put s p).
Proof.
  unfold put. split; [eexists; fields; reflexivity|].
  fields. repeat split.
Qed.

Lemma put_buffer (s : string) (p : Fpdf) :
  buffer (put s p) = buffer p ++ bytes s ++ [nl_byte].
Proof. reflexivity. Qed.

Lemma putStream_grows (data : list ascii) (p : Fpdf) :
  grows p (putStream data p).
Proof.
  unfold putStream.
  eapply grows_trans; [apply put_grows|].
  eapply grows_trans; [|apply put_grows].
  split; [eexists; fields; reflexivity|]. fields. repeat split.
Qed.

(** What [newObj] does with the next number of the counter. *)
Lemma newObj_next (p : Fpdf) :
  let q := newObj None p in
  buffer q = buffer p ++ bytes (objHeader (n p + 1)) ++ [nl_byte]
  /\ offsets q = <[n p + 1 := Z.of_nat (length (buffer p))]> (offsets p)
  /\ n q = n p + 1 /\ sameRes p q.
Proof. unfold newObj, put, getOffset. fields. repeat split. Qed.

(** What [newObj] does with a forced number. *)
Lemma newObj_forced (m : Z) (p : Fpdf) :
  m <= n p ->
  let q := newObj (Some m) p in
  buffer q = buffer p ++ bytes (objHeader m) ++ [nl_byte]
  /\ offsets q = <[m := Z.of_nat (length (buffer p))]> (offsets p)
  /\ n q = n p /\ sameRes p q.
Proof.
  intros Hm. unfold newObj, put, getOffset. fields.
  repeat split. lia.
Qed.

Create HintDb grows.

#[local] Hint Resolve grows_refl put_grows putStream_grows : grows.

(** Growth of the object being written, goal by goal. *)
Ltac grow :=
  repeat match goal with
    | Hg : grows ?p ?q |- grows ?p ?q => exact Hg
    | |- grows ?p ?p => apply grows_refl
    | |- grows ?p (if ?c then _ else _) => destruct c
    | |- grows ?p (match ?x with _ => _ end) => destruct x
    | |- grows ?p (?f ?q) =>
        apply (grows_trans p q); [|solve [auto with grows]]
    end.

(** The resources after field assignments and writes to the buffer. *)
Ltac same_res :=
  unfold sameRes, put, newObj, getOffset; fields; repeat split.

(** An object written with the next number of the counter: at [q] the
    framing line and a first text that begins as the kind says have been
    written, and more text follows up to [p2]. *)
Lemma object_next (p q p2 : Fpdf) (kd : Kind) :
  (exists r0, buffer q = buffer (newObj None p) ++ kindPrefix kd ++ r0) ->
  offsets q = offsets (newObj None p) -> n q = n p + 1 ->
  grows q p2 ->
  emitsPlan p [(n p + 1, kd)] p2 /\ n p2 = n p + 1 /\ sameRes q p2.
Proof.
  intros [r0 Hq] Hoq Hnq ([e2 He2] & Ho2 & Hn2 & Hs2).
  pose proof (newObj_next p) as Hnew. cbv zeta in Hnew.
  destruct Hnew as (Hb & Ho & _).
  split; [|split; [congruence | exact Hs2]].
  eapply emitsPlan_object; [exact Hb | exact Ho | | congruence].
  exists (r0 ++ e2). rewrite He2, Hq. now rewrite <- !app_assoc.
Qed.

(** The same with a forced number, which the counter has passed. *)
Lemma object_forced (m : Z) (p q p2 : Fpdf) (kd : Kind) :
  m <= n p ->
  (exists r0,
     buffer q = buffer (newObj (Some m) p) ++ kindPrefix kd ++ r0) ->
  offsets q = offsets (newObj (Some m) p) -> n q = n p ->
  grows q p2 ->
  emitsPlan p [(m, kd)] p2 /\ n p2 = n p /\ sameRes q p2.
Proof.
  intros Hm [r0 Hq] Hoq Hnq ([e2 He2] & Ho2 & Hn2 & Hs2).
  pose proof (newObj_forced m p Hm) as Hnew. cbv zeta in Hnew.
  destruct Hnew as (Hb & Ho & _).
  split; [|split; [congruence | exact Hs2]].
  eapply emitsPlan_object; [exact Hb | exact Ho | | congruence].
  exists (r0 ++ e2). rewrite He2, Hq. now rewrite <- !app_assoc.
Qed.

(** The first line put after the framing line. *)
Lemma first_line (s : string) (pre : list ascii) (p : Fpdf) :
  (exists r, bytes s = pre ++ r) ->
  exists r0, buffer (put s p) = buffer p ++ pre ++ r0.
Proof.
  intros [r Hr]. exists (r ++ [nl_byte]).
  rewrite put_buffer, Hr. now rewrite <- !app_assoc.
Qed.

Lemma first_line_full (s : string) (p : Fpdf) :
  exists r0, buffer (put s p) = buffer p ++ (bytes s ++ [nl_byte]) ++ r0.
Proof. exists []. now rewrite put_buffer, app_nil_r. Qed.

(** [m] objects of one kind, numbered from [d]. *)
Fixpoint countPlan (kd : Kind) (d : Z) (m : nat) : list (Z * Kind) :=
  match m with
  | O => []
  | S m' => (d, kd) :: countPlan kd (d + 1) m'
  end.

Lemma putLink_spec (pl : PageLink) (p : Fpdf) :
  emitsPlan p [(n p + 1, KAnnot)] (putLink pl p)
  /\ n (putLink pl p) = n p + 1 /\ sameRes p (putLink pl p).
Proof.
  unfold putLink. cbv zeta.
  match goal with
  | |- context [put "endobj" (put ?s ?q0)] =>
      destruct (object_next p (put s q0) (put "endobj" (put s q0)) KAnnot)
        as (E & N & S);
        [ apply first_line; destruct (pl_link pl); eexists; reflexivity
        | reflexivity | reflexivity | apply put_grows | ];
      assert (S0 : sameRes p (put s q0)) by same_res
  end.
  split; [exact E|]. split; [exact N|]. exact (sameRes_trans _ _ _ S0 S).
Qed.

Lemma putLinks_fold (l : list PageLink) (p : Fpdf) :
  let q := fold_left (fun p pl => putLink pl p) l p in
  emitsPlan p (countPlan KAnnot (n p + 1) (length l)) q
  /\ n q = n p + Z.of_nat (length l) /\ sameRes p q.
Proof.
  revert p. induction l as [|pl l IH]; intros p; cbn [fold_left length countPlan].
  - split; [apply emitsPlan_nil|]. split; [lia | apply sameRes_refl].
  - destruct (putLink_spec pl p) as (E1 & N1 & S1).
    pose proof (IH (putLink pl p)) as IH'. cbv zeta in IH'.
    destruct IH' as (E2 & N2 & S2).
    rewrite N1 in E2. split; [|split].
    + apply (emitsPlan_app _ _ _ [_] _ E1 E2).
    + rewrite N2, N1. lia.
    + exact (sameRes_trans _ _ _ S1 S2).
Qed.

Lemma putStreamObject_spec (kd : Kind) (data : list ascii) (p : Fpdf) :
  kindPrefix kd = bytes "<</" ->
  let q := putStreamObject data p in
  emitsPlan p [(n p + 1, kd)] q /\ n q = n p + 1 /\ sameRes p q.
Proof.
  intros Hk. unfold putStreamObject.
  destruct (compress p); cbv zeta beta iota;
    match goal with
    | |- context [put "endobj" (putStream ?d (put ?s ?q0))] =>
        destruct (object_next p (put s q0)
                    (put "endobj" (putStream d (put s q0))) kd)
          as (E & N & S);
          [ apply first_line; rewrite Hk; eexists; reflexivity
          | reflexivity | reflexivity | grow | ];
        assert (S0 : sameRes p (put s q0)) by same_res
    end;
    (split; [exact E|]; split; [exact N|];
     exact (sameRes_trans _ _ _ S0 S)).
Qed.


(** *** The objects of a page *)

Lemma putPageBox_grows (pg : Z) (p : Fpdf) : grows p (putPageBox pg p).
Proof. unfold putPageBox. cbv zeta. grow. Qed.

Lemma putPageAnnots_grows (pg : Z) (p : Fpdf) :
  grows p (putPageAnnots pg p).
Proof. unfold putPageAnnots. cbv zeta. grow. Qed.

Lemma putPageGroup_grows (p : Fpdf) : grows p (putPageGroup p).
Proof. unfold putPageGroup. grow. Qed.

Lemma putContentsRef_grows (p : Fpdf) : grows p (putContentsRef p).
Proof. unfold putContentsRef. grow. Qed.

#[local] Hint Resolve putPageBox_grows putPageAnnots_grows
  putPageGroup_grows putContentsRef_grows : grows.

(** The dictionary of a page, the first object of [putPage]. *)
Definition putPageDict (pg : Z) (p : Fpdf) : Fpdf :=
  put "endobj"
    (putContentsRef
       (putPageGroup
          (putPageAnnots pg
             (put "/Resources 2 0 R"
                (putPageBox pg
                   (put "/Parent 1 0 R"
                      (put "<</Type /Page" (newObj None p)))))))).

Lemma putPage_eq (pg : Z) (p : Fpdf) :
  putPage pg p = putLinks pg (putPageContent pg (putPageDict pg p)).
Proof. reflexivity. Qed.

Lemma putPageDict_spec (pg : Z) (p : Fpdf) :
  let q := putPageDict pg p in
  emitsPlan p [(n p + 1, KPage)] q /\ n q = n p + 1 /\ sameRes p q.
Proof.
  cbv zeta. unfold putPageDict.
  set (q1 := put "<</Type /Page" (newObj None p)).
  match goal with |- context [sameRes p ?q] => set (q2 := q) end.
  destruct (object_next p q1 q2 KPage) as (E & N & S);
    [ apply first_line_full | reflexivity | reflexivity
    | subst q2; grow | ].
  assert (S0 : sameRes p q1) by (subst q1; same_res).
  split; [exact E|]. split; [exact N|]. exact (sameRes_trans _ _ _ S0 S).
Qed.

(** The number of annotations of page [i]. *)
Definition linkCount (links : gmap Z (list PageLink)) (i : Z) : nat :=
  length (default [] (links !! i)).

(** The objects of the pages [pgs], numbered from [d]: for each page its
    dictionary, its content stream, its annotations. *)
Fixpoint pagesPlan (links : gmap Z (list PageLink)) (d : Z) (pgs : list Z)
  : list (Z * Kind) :=
  match pgs with
  | [] => []
  | i :: rest =>
      (d, KPage) :: (d + 1, KContent)
      :: countPlan KAnnot (d + 2) (linkCount links i)
      ++ pagesPlan links (d + 2 + Z.of_nat (linkCount links i)) rest
  end.

Fixpoint pagesCount (links : gmap Z (list PageLink)) (pgs : list Z) : Z :=
  match pgs with
  | [] => 0
  | i :: rest => 2 + Z.of_nat (linkCount links i) + pagesCount links rest
  end.

Lemma putPageContent_spec (pg : Z) (p : Fpdf) :
  let q := putPageContent pg p in
  emitsPlan p [(n p + 1, KContent)] q /\ n q = n p + 1 /\ sameRes p q.
Proof. exact (putStreamObject_spec KContent _ p eq_refl). Qed.

Lemma putLinks_spec (pg : Z) (p : Fpdf) :
  let q := putLinks pg p in
  emitsPlan p (countPlan KAnnot (n p + 1) (linkCount (pageLinks p) pg)) q
  /\ n q = n p + Z.of_nat (linkCount (pageLinks p) pg) /\ sameRes p q.
Proof. exact (putLinks_fold _ p). Qed.

Lemma putPage_spec (pg : Z) (p : Fpdf) :
  let q := putPage pg p in
  emitsPlan p
    ((n p + 1, KPage) :: (n p + 2, KContent)
     :: countPlan KAnnot (n p + 3) (linkCount (pageLinks p) pg)) q
  /\ n q = n p + 2 + Z.of_nat (linkCount (pageLinks p) pg)
  /\ sameRes p q.
Proof.
  cbv zeta. rewrite putPage_eq.
  pose proof (putPageDict_spec pg p) as H1. cbv zeta in H1.
  revert H1. generalize (putPageDict pg p). intros pd (E1 & N1 & S1).
  pose proof (putPageContent_spec pg pd) as H2. cbv zeta in H2.
  revert H2. generalize (putPageContent pg pd). intros py (E2 & N2 & S2).
  pose proof (putLinks_spec pg py) as H3. cbv zeta in H3.
  revert H3. generalize (putLinks pg py). intros pz (E3 & N3 & S3).
  pose proof (sameRes_trans _ _ _ S1 S2) as S12.
  assert (HLk : pageLinks py = pageLinks p)
    by (destruct S12 as (_ & _ & ? & _); assumption).
  rewrite HLk in E3, N3.
  rewrite N2, N1 in E3, N3.
  replace (n p + 1 + 1 + 1) with (n p + 3) in E3 by lia.
  rewrite N1 in E2. replace (n p + 1 + 1) with (n p + 2) in E2 by lia.
  split; [|split].
  - exact (emitsPlan_app _ _ _ [_] _ E1 (emitsPlan_app _ _ _ [_] _ E2 E3)).
  - rewrite N3. lia.
  - exact (sameRes_trans _ _ _ S12 S3).
Qed.

(** One turn of a loop, as an equation: the body stays folded. *)
Lemma fold_left_step {A B : Type} (f : A -> B -> A) (x : B) (l : list B)
    (a : A) :
  fold_left f (x :: l) a = fold_left f l (f a x).
Proof. reflexivity. Qed.

Lemma putPage_fold (pgs : list Z) (p : Fpdf) :
  let q := fold_left (fun p i => putPage i p) pgs p in
  emitsPlan p (pagesPlan (pageLinks p) (n p + 1) pgs) q
  /\ n q = n p + pagesCount (pageLinks p) pgs /\ sameRes p q.
Proof.
  cbv zeta. revert p. induction pgs as [|i pgs IH]; intros p.
  - cbn. split; [apply emitsPlan_nil|]. split; [lia | apply sameRes_refl].
  - rewrite fold_left_step. cbv beta. cbn [pagesPlan pagesCount].
    pose proof (putPage_spec i p) as H1. cbv zeta in H1.
    revert H1. generalize (putPage i p). intros p1 (E1 & N1 & S1).
    pose proof (IH p1) as IH'.
    revert IH'. generalize (fold_left (fun p i => putPage i p) pgs p1).
    intros p2 (E2 & N2 & S2).
    assert (HLk : pageLinks p1 = pageLinks p)
      by (destruct S1 as (_ & _ & ? & _); assumption).
    rewrite HLk, N1 in E2, N2.
    replace (n p + 2 + Z.of_nat (linkCount (pageLinks p) i) + 1)
      with (n p + 1 + 2 + Z.of_nat (linkCount (pageLinks p) i)) in E2 by lia.
    replace (n p + 3) with (n p + 1 + 2) in E1 by lia.
    replace (n p + 2) with (n p + 1 + 1) in E1 by lia.
    split; [|split].
    + exact (emitsPlan_app _ _ _
               ((n p + 1, KPage) :: (n p + 1 + 1, KContent) :: _) _ E1 E2).
    + rewrite N2. lia.
    + exact (sameRes_trans _ _ _ S1 S2).
Qed.

(** *** Pass 1 of [putPages] *)

(** Pass 1 writes nothing, and keeps the numbers of annotations per page. *)
Definition planned (p p' : Fpdf) : Prop :=
  buffer p' = buffer p /\ offsets p' = offsets p /\ n p' = n p
  /\ page p' = page p /\ fonts p' = fonts p /\ images p' = images p
  /\ forall j, linkCount (pageLinks p') j = linkCount (pageLinks p) j.

Lemma numberLinks_spec (m : Z) (l : list PageLink) :
  length (numberLinks m l).1 = length l
  /\ (numberLinks m l).2 = m + Z.of_nat (length l).
Proof.
  revert m. induction l as [|pl l IH]; intros m; cbn [numberLinks].
  - cbn. split; [reflexivity | lia].
  - destruct (numberLinks (m + 1) l) as [rest' m'] eqn:E.
    destruct (IH (m + 1)) as [IH1 IH2]. rewrite E in IH1, IH2.
    cbn in *. split; [now rewrite IH1 | lia].
Qed.

Lemma planPage_spec (m : Z) (p : Fpdf) (i : Z) :
  planned p (planPage (m, p) i).2
  /\ (planPage (m, p) i).1 = m + 2 + Z.of_nat (linkCount (pageLinks p) i)
  /\ pageObj i (planPage (m, p) i).2 = m + 1
  /\ forall j, j <> i ->
       pageObj j (planPage (m, p) i).2 = pageObj j p.
Proof.
  unfold planPage. cbv zeta. fields.
  destruct (pageLinks p !! i) as [l|] eqn:El.
  - destruct (numberLinks_spec (m + 1 + 1) l) as [L1 L2].
    destruct (numberLinks (m + 1 + 1) l) as [l' m'] eqn:E.
    cbn [fst snd] in *. unfold planned, pageObj, linkCount. fields.
    repeat split.
    + intros j. destruct (decide (j = i)) as [->|Hne].
      * rewrite lookup_insert_eq, El. cbn. exact L1.
      * now rewrite lookup_insert_ne by congruence.
    + rewrite L2. unfold linkCount. rewrite El. cbn. lia.
    + now rewrite lookup_insert_eq.
    + intros j Hne. now rewrite lookup_insert_ne by congruence.
  - cbn [fst snd]. unfold planned, pageObj, linkCount. fields.
    repeat split.
    + rewrite El. cbn. lia.
    + now rewrite lookup_insert_eq.
    + intros j Hne. now rewrite lookup_insert_ne by congruence.
Qed.

Lemma planned_trans (p1 p2 p3 : Fpdf) :
  planned p1 p2 -> planned p2 p3 -> planned p1 p3.
Proof.
  intros (A1 & A2 & A3 & A4 & A5 & A6 & A7) (B1 & B2 & B3 & B4 & B5 & B6 & B7).
  repeat split; try congruence; intros j; now rewrite B7, A7.
Qed.

Lemma planned_refl (p : Fpdf) : planned p p.
Proof. repeat split. Qed.

(** Pass 1 over the pages [pgs]: the counter [m] runs as pass 2 will. *)
Lemma planPage_fold (pgs : list Z) (m : Z) (p : Fpdf) :
  let r := fold_left planPage pgs (m, p) in
  planned p r.2 /\ r.1 = m + pagesCount (pageLinks p) pgs.
Proof.
  revert m p. induction pgs as [|i pgs IH]; intros m p;
    cbn [fold_left pagesCount].
  - split; [apply planned_refl | cbn; lia].
  - destruct (planPage_spec m p i) as (P1 & M1 & _).
    destruct (planPage (m, p) i) as [m1 p1] eqn:E. cbn [fst snd] in *.
    pose proof (IH m1 p1) as IH'. cbv zeta in IH'.
    destruct IH' as (P2 & M2).
    split; [exact (planned_trans _ _ _ P1 P2)|].
    rewrite M2, M1.
    assert (Hc : pagesCount (pageLinks p1) pgs = pagesCount (pageLinks p) pgs).
    { destruct P1 as (_ & _ & _ & _ & _ & _ & Hl).
      clear -Hl. induction pgs as [|j pgs IHpgs]; cbn; [reflexivity|].
      now rewrite Hl, IHpgs. }
    rewrite Hc. lia.
Qed.

Lemma pagesPlan_ext (l1 l2 : gmap Z (list PageLink)) (d : Z) (pgs : list Z) :
  (forall j, linkCount l1 j = linkCount l2 j) ->
  pagesPlan l1 d pgs = pagesPlan l2 d pgs
  /\ pagesCount l1 pgs = pagesCount l2 pgs.
Proof.
  intros Hl. revert d. induction pgs as [|i pgs IH]; intros d; cbn.
  - auto.
  - rewrite Hl. destruct (IH (d + 2 + Z.of_nat (linkCount l2 i))) as [-> ->].
    auto.
Qed.

Lemma emitsPlan_start (p p1 q : Fpdf) (plan : list (Z * Kind)) :
  buffer p1 = buffer p -> offsets p1 = offsets p ->
  emitsPlan p1 plan q -> emitsPlan p plan q.
Proof.
  intros Hb Ho (os & [E1 E2] & T & F). exists os.
  split; [|auto]. split; congruence.
Qed.

(** *** The pages and their root *)

Lemma planPages_spec (p : Fpdf) :
  let q := planPages p in
  planned p q.
Proof.
  cbv zeta. unfold planPages.
  pose proof (planPage_fold (seqZ 1 (page p)) (n p) p) as Hf.
  cbv zeta in Hf. exact (proj1 Hf).
Qed.

Lemma emitPages_spec (p : Fpdf) :
  let q := emitPages p in
  emitsPlan p (pagesPlan (pageLinks p) (n p + 1) (seqZ 1 (page p))) q
  /\ n q = n p + pagesCount (pageLinks p) (seqZ 1 (page p)) /\ sameRes p q.
Proof. exact (putPage_fold (seqZ 1 (page p)) p). Qed.

Lemma pagesCount_nonneg (l : gmap Z (list PageLink)) (pgs : list Z) :
  0 <= pagesCount l pgs.
Proof. induction pgs as [|i pgs IH]; cbn [pagesCount]; lia. Qed.

Lemma putKids_grows (p : Fpdf) : grows p (putKids p).
Proof. unfold putKids. grow. Qed.

Lemma putCount_grows (p : Fpdf) : grows p (putCount p).
Proof. unfold putCount. grow. Qed.

Lemma putRootBox_grows (p : Fpdf) : grows p (putRootBox p).
Proof.
  unfold putRootBox. destruct (defPageSize p) as [w0 h0].
  destruct (negb (streq (defOrientation p) "P")); grow.
Qed.

#[local] Hint Resolve putKids_grows putCount_grows putRootBox_grows : grows.

Lemma putPages_eq (p : Fpdf) :
  putPages p
  = put "endobj"
      (put ">>"
         (putRootBox
            (putCount
               (putKids
                  (put "<</Type /Pages"
                     (newObj (Some 1) (emitPages (planPages p)))))))).
Proof. reflexivity. Qed.

(** The pages root, written with the reserved number 1. *)
Lemma pagesRoot_spec (p : Fpdf) :
  1 <= n p ->
  let q :=
    put "endobj"
      (put ">>"
         (putRootBox
            (putCount (putKids (put "<</Type /Pages" (newObj (Some 1) p))))))
  in
  emitsPlan p [(1, KPagesRoot)] q /\ n q = n p /\ sameRes p q.
Proof.
  intros Hn. cbv zeta.
  set (q1 := put "<</Type /Pages" (newObj (Some 1) p)).
  match goal with |- context [sameRes p ?q] => set (q2 := q) end.
  destruct (object_forced 1 p q1 q2 KPagesRoot Hn) as (E & N & S);
    [ apply first_line_full | reflexivity
    | subst q1; unfold newObj, put, getOffset; fields; lia
    | subst q2; grow | ].
  assert (S0 : sameRes p q1) by (subst q1; same_res).
  split; [exact E|]. split; [exact N|]. exact (sameRes_trans _ _ _ S0 S).
Qed.

Lemma putPages_spec (p : Fpdf) :
  1 <= n p ->
  let q := putPages p in
  emitsPlan p
    (pagesPlan (pageLinks p) (n p + 1) (seqZ 1 (page p))
     ++ [(1, KPagesRoot)]) q
  /\ n q = n p + pagesCount (pageLinks p) (seqZ 1 (page p))
  /\ page q = page p /\ fonts q = fonts p /\ images q = images p.
Proof.
  intros Hn. cbv zeta. rewrite putPages_eq.
  pose proof (planPages_spec p) as H1. cbv zeta in H1.
  revert H1. generalize (planPages p).
  intros p1 (B1 & O1 & N1 & P1 & F1 & I1 & L1).
  pose proof (emitPages_spec p1) as H2. cbv zeta in H2.
  revert H2. generalize (emitPages p1). intros p2 (E2 & N2 & S2).
  destruct (pagesPlan_ext (pageLinks p1) (pageLinks p) (n p + 1)
              (seqZ 1 (page p)) L1) as [Hpl Hpc].
  rewrite P1, N1, Hpl in E2. rewrite P1, N1, Hpc in N2.
  pose proof (pagesCount_nonneg (pageLinks p) (seqZ 1 (page p))) as Hc.
  assert (Hn2 : 1 <= n p2) by lia.
  pose proof (pagesRoot_spec p2 Hn2) as H3. cbv zeta in H3.
  revert H3.
  generalize (put "endobj"
      (put ">>"
         (putRootBox
            (putCount (putKids (put "<</Type /Pages" (newObj (Some 1) p2))))))).
  intros p3 (E3 & N3 & S3).
  destruct (sameRes_trans _ _ _ S2 S3) as (A1 & _ & _ & A4 & A5).
  split; [|repeat split; congruence].
  apply (emitsPlan_app p p2 p3); [|exact E3].
  exact (emitsPlan_start p p1 p2 _ B1 O1 E2).
Qed.

(** *** The fonts, the images and the resource dictionary *)

(** A loop whose body only adds text to the object being written. *)
Lemma fold_grows {B : Type} (f : Fpdf -> B -> Fpdf) (l : list B) :
  (forall p x, grows p (f p x)) -> forall p, grows p (fold_left f l p).
Proof.
  intros Hf. induction l as [|x l IH]; intros p.
  - apply grows_refl.
  - rewrite fold_left_step. exact (grows_trans _ _ _ (Hf p x) (IH (f p x))).
Qed.

(** The objects of a font numbered from [d]: its Unicode map, when it has
    one, then its dictionary. *)
Definition fontPlan (d : Z) (f : pdfFont) : list (Z * Kind) :=
  if (0 <? size (font_uv f))%nat then [(d, KToUnicode); (d + 1, KFont)]
  else [(d, KFont)].

Definition fontCount (f : pdfFont) : Z :=
  if (0 <? size (font_uv f))%nat then 2 else 1.

Fixpoint fontsPlan (d : Z) (l : list (string * pdfFont))
  : list (Z * Kind) :=
  match l with
  | [] => []
  | (_, f) :: rest => fontPlan d f ++ fontsPlan (d + fontCount f) rest
  end.

Fixpoint fontsCount (l : list (string * pdfFont)) : Z :=
  match l with
  | [] => 0
  | (_, f) :: rest => fontCount f + fontsCount rest
  end.

Lemma fontsCount_nonneg (l : list (string * pdfFont)) : 0 <= fontsCount l.
Proof.
  induction l as [|[k f] l IH]; cbn [fontsCount]; [lia|].
  unfold fontCount. destruct (0 <? size (font_uv f))%nat; lia.
Qed.

Lemma putFontDict_grows (f : pdfFont) (tu : Z) (p : Fpdf) :
  grows (put "<</Type /Font" p) (putFontDict f tu p).
Proof. unfold putFontDict. cbv zeta. grow. Qed.

(** The dictionary of a font. *)
Lemma fontObject_spec (key : string) (f : pdfFont) (tu : Z) (p : Fpdf) :
  let q := putFontDict f tu (setFontNumber key f (newObj None p)) in
  emitsPlan p [(n p + 1, KFont)] q /\ n q = n p + 1
  /\ images q = images p.
Proof.
  cbv zeta.
  pose proof (putFontDict_grows f tu (setFontNumber key f (newObj None p)))
    as G.
  revert G.
  generalize (putFontDict f tu (setFontNumber key f (newObj None p))).
  intros q2 G.
  set (q1 := put "<</Type /Font" (setFontNumber key f (newObj None p))) in *.
  destruct (object_next p q1 q2 KFont) as (E & N & S);
    [ exists []; subst q1; unfold put, setFontNumber; fields;
      now rewrite app_nil_r
    | reflexivity
    | subst q1; unfold put, setFontNumber, newObj; fields; reflexivity
    | exact G | ].
  split; [exact E|]. split; [exact N|].
  destruct S as (_ & _ & _ & _ & S5). rewrite S5. reflexivity.
Qed.

Lemma putFont_eq_map (key : string) (f : pdfFont) (p : Fpdf) :
  (0 <? size (font_uv f))%nat = true ->
  putFont p (key, f)
  = let p1 := putStreamObject (bytes (toUnicodeCMap (font_uv f))) p in
    putFontDict f (n p1) (setFontNumber key f (newObj None p1)).
Proof. intros Hs. unfold putFont, putToUnicode. now rewrite Hs. Qed.

Lemma putFont_eq_plain (key : string) (f : pdfFont) (p : Fpdf) :
  (0 <? size (font_uv f))%nat = false ->
  putFont p (key, f) = putFontDict f 0 (setFontNumber key f (newObj None p)).
Proof. intros Hs. unfold putFont, putToUnicode. now rewrite Hs. Qed.

Lemma putFont_spec (p : Fpdf) (key : string) (f : pdfFont) :
  let q := putFont p (key, f) in
  emitsPlan p (fontPlan (n p + 1) f) q /\ n q = n p + fontCount f
  /\ images q = images p.
Proof.
  cbv zeta. unfold fontPlan, fontCount.
  destruct (0 <? size (font_uv f))%nat eqn:Hs.
  - rewrite (putFont_eq_map key f p Hs). cbv zeta.
    pose proof (putStreamObject_spec KToUnicode
                  (bytes (toUnicodeCMap (font_uv f))) p eq_refl) as H1.
    cbv zeta in H1. revert H1.
    generalize (putStreamObject (bytes (toUnicodeCMap (font_uv f))) p).
    intros p1 (E1 & N1 & S1).
    pose proof (fontObject_spec key f (n p1) p1) as H2. cbv zeta in H2.
    revert H2.
    generalize (putFontDict f (n p1) (setFontNumber key f (newObj None p1))).
    intros p2 (E2 & N2 & I2).
    rewrite N1 in E2. split; [|split].
    + exact (emitsPlan_app _ _ _ [_] [_] E1 E2).
    + lia.
    + destruct S1 as (_ & _ & _ & _ & S5). congruence.
  - rewrite (putFont_eq_plain key f p Hs).
    exact (fontObject_spec key f 0 p).
Qed.

Lemma putFonts_fold (l : list (string * pdfFont)) (p : Fpdf) :
  let q := fold_left putFont l p in
  emitsPlan p (fontsPlan (n p + 1) l) q /\ n q = n p + fontsCount l
  /\ images q = images p.
Proof.
  cbv zeta. revert p. induction l as [|[key f] l IH]; intros p.
  - cbn. split; [apply emitsPlan_nil|]. split; [lia | reflexivity].
  - rewrite fold_left_step. cbn [fontsPlan fontsCount].
    pose proof (putFont_spec p key f) as H1. cbv zeta in H1.
    revert H1. generalize (putFont p (key, f)). intros p1 (E1 & N1 & I1).
    pose proof (IH p1) as IH'. revert IH'.
    generalize (fold_left putFont l p1). intros p2 (E2 & N2 & I2).
    rewrite N1 in E2, N2.
    replace (n p + fontCount f + 1) with (n p + 1 + fontCount f) in E2
      by lia.
    split; [|split].
    + exact (emitsPlan_app _ _ _ _ _ E1 E2).
    + lia.
    + congruence.
Qed.

Lemma putImageDict_grows (info : pdfImage) (p : Fpdf) :
  grows (put "<</Type /XObject" p) (putImageDict info p).
Proof. unfold putImageDict. cbv zeta. grow. Qed.

Lemma putImage_spec (p : Fpdf) (key : string) (info : pdfImage) :
  let q := putImage p (key, info) in
  emitsPlan p [(n p + 1, KImage)] q /\ n q = n p + 1.
Proof.
  cbv zeta.
  change (putImage p (key, info))
    with (putImageDict info (setImageNumber key info (newObj None p))).
  pose proof (putImageDict_grows info
                (setImageNumber key info (newObj None p))) as G.
  revert G.
  generalize (putImageDict info (setImageNumber key info (newObj None p))).
  intros q2 G.
  set (q1 := put "<</Type /XObject"
               (setImageNumber key info (newObj None p))) in *.
  destruct (object_next p q1 q2 KImage) as (E & N & S);
    [ exists []; subst q1; unfold put, setImageNumber; fields;
      now rewrite app_nil_r
    | reflexivity
    | subst q1; unfold put, setImageNumber, newObj; fields; reflexivity
    | exact G | ].
  split; [exact E | exact N].
Qed.

Lemma putImages_fold (l : list (string * pdfImage)) (p : Fpdf) :
  let q := fold_left putImage l p in
  emitsPlan p (countPlan KImage (n p + 1) (length l)) q
  /\ n q = n p + Z.of_nat (length l).
Proof.
  cbv zeta. revert p. induction l as [|[key info] l IH]; intros p.
  - cbn. split; [apply emitsPlan_nil | lia].
  - rewrite fold_left_step. cbn [countPlan length].
    pose proof (putImage_spec p key info) as H1. cbv zeta in H1.
    revert H1. generalize (putImage p (key, info)). intros p1 (E1 & N1).
    pose proof (IH p1) as IH'. revert IH'.
    generalize (fold_left putImage l p1). intros p2 (E2 & N2).
    rewrite N1 in E2, N2. split; [|lia].
    exact (emitsPlan_app _ _ _ [_] _ E1 E2).
Qed.

Lemma putResourceDict_grows (p : Fpdf) :
  grows (put "/ProcSet [/PDF /Text /ImageB /ImageC /ImageI]" p)
    (putResourceDict p).
Proof.
  unfold putResourceDict. cbv zeta.
  set (p0 := put "/ProcSet [/PDF /Text /ImageB /ImageC /ImageI]" p).
  apply (grows_trans _ (putImageRefs
                          (put "/XObject <<"
                             (put ">>" (putFontRefs (put "/Font <<" p0)))))).
  2: apply put_grows.
  apply (grows_trans _ (put "/XObject <<"
                          (put ">>" (putFontRefs (put "/Font <<" p0))))).
  2: { unfold putImageRefs. apply fold_grows. intros q [k im].
       apply put_grows. }
  apply (grows_trans _ (putFontRefs (put "/Font <<" p0))).
  2: grow.
  apply (grows_trans _ (put "/Font <<" p0)); [apply put_grows|].
  unfold putFontRefs. apply fold_grows. intros q [k f]. apply put_grows.
Qed.

(** The resource dictionary, written with the reserved number 2. *)
Definition resourceObject (p : Fpdf) : Fpdf :=
  put "endobj" (put ">>" (putResourceDict (put "<<" (newObj (Some 2) p)))).

Lemma resourceObject_spec (p : Fpdf) :
  2 <= n p ->
  let q := resourceObject p in
  emitsPlan p [(2, KResources)] q /\ n q = n p.
Proof.
  intros Hn. cbv zeta. unfold resourceObject.
  pose proof (putResourceDict_grows (put "<<" (newObj (Some 2) p))) as G.
  revert G. generalize (putResourceDict (put "<<" (newObj (Some 2) p))).
  intros q2 G.
  set (q1 := put "/ProcSet [/PDF /Text /ImageB /ImageC /ImageI]"
               (put "<<" (newObj (Some 2) p))) in *.
  destruct (object_forced 2 p q1 (put "endobj" (put ">>" q2)) KResources Hn)
    as (E & N & S);
    [ exists (bytes " [/PDF /Text /ImageB /ImageC /ImageI]" ++ [nl_byte]);
      subst q1; rewrite !put_buffer, <- !app_assoc; reflexivity
    | reflexivity
    | subst q1; unfold newObj, put, getOffset; fields; lia
    | grow | ].
  split; [exact E | exact N].
Qed.

Lemma putResources_eq (p : Fpdf) :
  putResources p = resourceObject (putImages (putFonts p)).
Proof. reflexivity. Qed.

(** The objects of the resources numbered from [d]. *)
Definition resourcesPlan (d : Z) (p : Fpdf) : list (Z * Kind) :=
  fontsPlan d (rangeFonts (fonts p))
  ++ countPlan KImage (d + fontsCount (rangeFonts (fonts p)))
       (length (rangeImages (images p)))
  ++ [(2, KResources)].

Definition resourcesCount (p : Fpdf) : Z :=
  fontsCount (rangeFonts (fonts p))
  + Z.of_nat (length (rangeImages (images p))).

Lemma putResources_spec (p : Fpdf) :
  2 <= n p ->
  let q := putResources p in
  emitsPlan p (resourcesPlan (n p + 1) p) q
  /\ n q = n p + resourcesCount p.
Proof.
  intros Hn. cbv zeta. rewrite putResources_eq.
  unfold resourcesPlan, resourcesCount.
  pose proof (putFonts_fold (rangeFonts (fonts p)) p) as H1.
  cbv zeta in H1. fold (putFonts p) in H1.
  revert H1. generalize (putFonts p). intros p1 (E1 & N1 & I1).
  pose proof (putImages_fold (rangeImages (images p1)) p1) as H2.
  cbv zeta in H2. fold (putImages p1) in H2.
  revert H2. generalize (putImages p1). intros p2 (E2 & N2).
  pose proof (fontsCount_nonneg (rangeFonts (fonts p))) as Hc.
  assert (Hn2 : 2 <= n p2) by lia.
  pose proof (resourceObject_spec p2 Hn2) as H3. cbv zeta in H3.
  revert H3. generalize (resourceObject p2). intros p3 (E3 & N3).
  rewrite I1, N1 in E2. rewrite I1, N1 in N2.
  replace (n p + fontsCount (rangeFonts (fonts p)) + 1)
    with (n p + 1 + fontsCount (rangeFonts (fonts p))) in E2 by lia.
  split; [|lia].
  exact (emitsPlan_app _ _ _ _ _ E1 (emitsPlan_app _ _ _ _ _ E2 E3)).
Qed.

(** *** The information dictionary and the catalog *)

Lemma putInfo_grows (p : Fpdf) : grows p (putInfo p).
Proof.
  unfold putInfo. cbv zeta.
  apply (grows_trans _ (setCreationDate p)).
  - unfold setCreationDate. cbv zeta.
    split; [exists []; fields; now rewrite app_nil_r|].
    fields. repeat split.
  - unfold putInfoLines. apply fold_grows. intros q key. apply put_grows.
Qed.

Lemma putOpenAction_grows (m : Z) (p : Fpdf) : grows p (putOpenAction m p).
Proof. unfold putOpenAction. cbv zeta. grow. Qed.

Lemma putPageLayout_grows (p : Fpdf) : grows p (putPageLayout p).
Proof. unfold putPageLayout. grow. Qed.

#[local] Hint Resolve putInfo_grows putOpenAction_grows
  putPageLayout_grows : grows.

Definition infoObject (p : Fpdf) : Fpdf :=
  put "endobj" (put ">>" (putInfo (put "<<" (newObj None p)))).

Definition catalogObject (p : Fpdf) : Fpdf :=
  put "endobj" (put ">>" (putCatalog (put "<<" (newObj None p)))).

Lemma infoObject_spec (p : Fpdf) :
  let q := infoObject p in
  emitsPlan p [(n p + 1, KInfo)] q /\ n q = n p + 1.
Proof.
  cbv zeta. unfold infoObject.
  set (q1 := put "<<" (newObj None p)).
  destruct (object_next p q1 (put "endobj" (put ">>" (putInfo q1))) KInfo)
    as (E & N & S);
    [ apply first_line_full | reflexivity | reflexivity | grow | ].
  split; [exact E | exact N].
Qed.

Lemma putCatalog_eq (p : Fpdf) :
  putCatalog p
  = putPageLayout
      (putOpenAction (pageObj 1 p)
         (put "/Pages 1 0 R" (put "/Type /Catalog" p))).
Proof. reflexivity. Qed.

Lemma catalogObject_spec (p : Fpdf) :
  let q := catalogObject p in
  emitsPlan p [(n p + 1, KCatalog)] q /\ n q = n p + 1.
Proof.
  cbv zeta. unfold catalogObject. rewrite putCatalog_eq.
  set (q0 := put "<<" (newObj None p)).
  set (q1 := put "/Type /Catalog" q0).
  match goal with |- context [emitsPlan p _ ?q] => set (q2 := q) end.
  destruct (object_next p q1 q2 KCatalog) as (E & N & S);
    [ exists []; subst q1 q0; rewrite !put_buffer, <- !app_assoc;
      reflexivity
    | reflexivity | reflexivity | subst q2; grow | ].
  split; [exact E | exact N].
Qed.

Lemma putObjects_eq (p : Fpdf) :
  putObjects p = catalogObject (infoObject (putResources (putPages p))).
Proof. reflexivity. Qed.

(** *** The objects of a document *)

(** The objects of a document in the order in which [putObjects] writes
    them, the counter standing at [n p] on entry. *)
Definition docPlan (p : Fpdf) : list (Z * Kind) :=
  let d := n p + 1 in
  let c := pagesCount (pageLinks p) (seqZ 1 (page p)) in
  pagesPlan (pageLinks p) d (seqZ 1 (page p))
  ++ [(1, KPagesRoot)]
  ++ resourcesPlan (d + c) p
  ++ [(d + c + resourcesCount p, KInfo);
      (d + c + resourcesCount p + 1, KCatalog)].

Definition docCount (p : Fpdf) : Z :=
  pagesCount (pageLinks p) (seqZ 1 (page p)) + resourcesCount p + 2.

Lemma resourcesCount_nonneg (p : Fpdf) : 0 <= resourcesCount p.
Proof.
  unfold resourcesCount.
  pose proof (fontsCount_nonneg (rangeFonts (fonts p))). lia.
Qed.

Lemma putObjects_spec (p : Fpdf) :
  2 <= n p ->
  let q := putObjects p in
  emitsPlan p (docPlan p) q /\ n q = n p + docCount p.
Proof.
  intros Hn. cbv zeta. rewrite putObjects_eq. unfold docPlan, docCount.
  cbv zeta.
  assert (Hn1 : 1 <= n p) by lia.
  pose proof (putPages_spec p Hn1) as H1. cbv zeta in H1.
  revert H1. generalize (putPages p).
  intros p1 (E1 & N1 & P1 & F1 & I1).
  pose proof (pagesCount_nonneg (pageLinks p) (seqZ 1 (page p))) as Hc.
  assert (Hn2 : 2 <= n p1) by lia.
  pose proof (putResources_spec p1 Hn2) as H2. cbv zeta in H2.
  revert H2. generalize (putResources p1). intros p2 (E2 & N2).
  pose proof (infoObject_spec p2) as H3. cbv zeta in H3.
  revert H3. generalize (infoObject p2). intros p3 (E3 & N3).
  pose proof (catalogObject_spec p3) as H4. cbv zeta in H4.
  revert H4. generalize (catalogObject p3). intros p4 (E4 & N4).
  assert (HR : resourcesPlan (n p1 + 1) p1
               = resourcesPlan
                   (n p + 1 + pagesCount (pageLinks p) (seqZ 1 (page p))) p).
  { unfold resourcesPlan. rewrite F1, I1, N1. f_equal; [f_equal; lia|].
    f_equal. f_equal. lia. }
  assert (HC : resourcesCount p1 = resourcesCount p)
    by (unfold resourcesCount; now rewrite F1, I1).
  rewrite HR in E2. rewrite HC in N2.
  rewrite N2, N1 in E3. rewrite N3, N2, N1 in E4.
  replace (n p + pagesCount (pageLinks p) (seqZ 1 (page p))
           + resourcesCount p + 1)
    with (n p + 1 + pagesCount (pageLinks p) (seqZ 1 (page p))
          + resourcesCount p) in E3, E4 by lia.
  split; [|lia].
  rewrite app_assoc.
  apply (emitsPlan_app p p1 p4); [exact E1|].
  apply (emitsPlan_app p1 p2 p4); [exact E2|].
  exact (emitsPlan_app p2 p3 p4 [_] [_] E3 E4).
Qed.

(** *** The numbers of the plan *)

(** The pages root and the resource dictionary carry the reserved numbers
    1 and 2; every other object takes the next number of the counter. *)
Definition reserved (kd : Kind) : bool :=
  match kd with
  | KPagesRoot | KResources => true
  | _ => false
  end.

(** The numbers issued by the counter, in the order of the plan. *)
Fixpoint issued (plan : list (Z * Kind)) : list Z :=
  match plan with
  | [] => []
  | (m, kd) :: rest => if reserved kd then issued rest else m :: issued rest
  end.

Lemma issued_app (l1 l2 : list (Z * Kind)) :
  issued (l1 ++ l2) = issued l1 ++ issued l2.
Proof.
  induction l1 as [|[m kd] l1 IH]; [reflexivity|].
  cbn [app issued]. rewrite IH. now destruct (reserved kd).
Qed.

Lemma seqZ_step (d m : Z) : 0 <= m -> seqZ d (m + 1) = d :: seqZ (d + 1) m.
Proof.
  intros Hm. rewrite seqZ_cons by lia. f_equal. f_equal; lia.
Qed.

Lemma seqZ_one (d : Z) : seqZ d 1 = [d].
Proof.
  change 1 with (0 + 1). now rewrite (seqZ_step d 0), seqZ_nil by lia.
Qed.

Lemma seqZ_two (d : Z) : seqZ d 2 = [d; d + 1].
Proof.
  change 2 with (1 + 1). now rewrite (seqZ_step d 1), seqZ_one by lia.
Qed.

Lemma countPlan_numbers (kd : Kind) (d : Z) (m : nat) :
  map fst (countPlan kd d m) = seqZ d (Z.of_nat m).
Proof.
  revert d. induction m as [|m IH]; intros d; [reflexivity|].
  cbn [countPlan map fst]. rewrite IH, Nat2Z.inj_succ, <- Z.add_1_r.
  now rewrite seqZ_step by lia.
Qed.

Lemma countPlan_issued (kd : Kind) (d : Z) (m : nat) :
  reserved kd = false -> issued (countPlan kd d m) = seqZ d (Z.of_nat m).
Proof.
  intros Hk. rewrite <- countPlan_numbers with (kd := kd).
  revert d. induction m as [|m IH]; intros d; [reflexivity|].
  cbn [countPlan issued map fst]. now rewrite Hk, IH.
Qed.

Lemma pagesPlan_numbers (l : gmap Z (list PageLink)) (d : Z)
    (pgs : list Z) :
  map fst (pagesPlan l d pgs) = seqZ d (pagesCount l pgs)
  /\ issued (pagesPlan l d pgs) = seqZ d (pagesCount l pgs).
Proof.
  revert d. induction pgs as [|i pgs IH]; intros d; [split; reflexivity|].
  cbn [pagesPlan pagesCount].
  change ((d, KPage) :: (d + 1, KContent)
          :: countPlan KAnnot (d + 2) (linkCount l i)
             ++ pagesPlan l (d + 2 + Z.of_nat (linkCount l i)) pgs)
    with ([(d, KPage); (d + 1, KContent)]
          ++ countPlan KAnnot (d + 2) (linkCount l i)
          ++ pagesPlan l (d + 2 + Z.of_nat (linkCount l i)) pgs).
  destruct (IH (d + 2 + Z.of_nat (linkCount l i))) as [IH1 IH2].
  rewrite !issued_app, !map_app, IH1, IH2, countPlan_numbers,
    countPlan_issued by reflexivity.
  pose proof (pagesCount_nonneg l pgs) as Hc.
  replace (2 + Z.of_nat (linkCount l i) + pagesCount l pgs)
    with (2 + (Z.of_nat (linkCount l i) + pagesCount l pgs)) by lia.
  rewrite (seqZ_app d 2) by lia.
  rewrite (seqZ_app (d + 2)) by lia. rewrite seqZ_two. split; reflexivity.
Qed.

Lemma fontsPlan_numbers (d : Z) (l : list (string * pdfFont)) :
  map fst (fontsPlan d l) = seqZ d (fontsCount l)
  /\ issued (fontsPlan d l) = seqZ d (fontsCount l).
Proof.
  revert d. induction l as [|[k f] l IH]; intros d; [split; reflexivity|].
  cbn [fontsPlan fontsCount].
  destruct (IH (d + fontCount f)) as [IH1 IH2].
  rewrite issued_app, map_app, IH1, IH2.
  pose proof (fontsCount_nonneg l) as Hc.
  unfold fontPlan, fontCount.
  destruct (0 <? size (font_uv f))%nat.
  - rewrite (seqZ_app d 2), seqZ_two by lia. split; reflexivity.
  - rewrite (seqZ_app d 1), seqZ_one by lia. split; reflexivity.
Qed.

(** The counter issues consecutive numbers in the order of the
    traversal. *)
Lemma docPlan_issued (p : Fpdf) :
  issued (docPlan p) = seqZ (n p + 1) (docCount p).
Proof.
  unfold docPlan, docCount, resourcesPlan. cbv zeta.
  rewrite !issued_app, (proj2 (pagesPlan_numbers _ _ _)),
    (proj2 (fontsPlan_numbers _ _)), countPlan_issued by reflexivity.
  pose proof (pagesCount_nonneg (pageLinks p) (seqZ 1 (page p))) as Hc.
  pose proof (fontsCount_nonneg (rangeFonts (fonts p))) as Hf.
  unfold resourcesCount.
  set (a := pagesCount (pageLinks p) (seqZ 1 (page p))) in *.
  set (b := fontsCount (rangeFonts (fonts p))) in *.
  set (c := Z.of_nat (length (rangeImages (images p)))).
  assert (Hc' : 0 <= c) by (subst c; lia).
  replace (a + (b + c) + 2) with (a + (b + (c + 2))) by lia.
  rewrite (seqZ_app (n p + 1) a) by lia.
  rewrite (seqZ_app (n p + 1 + a) b) by lia.
  rewrite (seqZ_app (n p + 1 + a + b) c) by lia.
  rewrite seqZ_two. cbn [issued reserved app].
  replace (n p + 1 + a + (b + c) + 1) with (n p + 1 + a + b + c + 1) by lia.
  replace (n p + 1 + a + (b + c)) with (n p + 1 + a + b + c) by lia.
  now rewrite <- !app_assoc.
Qed.

(** The numbers of the plan: the issued ones and the two reserved ones. *)
Lemma docPlan_numbers (p : Fpdf) :
  map fst (docPlan p) ≡ₚ 1 :: 2 :: issued (docPlan p).
Proof.
  unfold docPlan, resourcesPlan. cbv zeta.
  rewrite !issued_app, !map_app.
  rewrite (proj2 (pagesPlan_numbers _ _ _)), (proj1 (pagesPlan_numbers _ _ _)),
    (proj2 (fontsPlan_numbers _ _)), (proj1 (fontsPlan_numbers _ _)),
    countPlan_numbers, countPlan_issued by reflexivity.
  cbn [map fst issued reserved app].
  set (l1 := seqZ _ _). set (l2 := seqZ _ _). set (l3 := seqZ _ _).
  clearbody l1 l2 l3.
  rewrite <- (Permutation_middle l1).
  apply perm_skip.
  rewrite <- !app_assoc. cbn [app].
  rewrite (app_assoc l2), (app_assoc l1).
  rewrite <- (Permutation_middle (l1 ++ l2 ++ l3)).
  apply perm_skip. now rewrite <- !app_assoc.
Qed.

(** *** The offsets *)

Lemma layOffsets_skip (base : nat) (os : list Obj) (offs : gmap Z Z)
    (N : Z) :
  N ∉ map obj_num os -> layOffsets base os offs !! N = offs !! N.
Proof.
  revert base offs. induction os as [|o os IH]; intros base offs HN;
    [reflexivity|].
  cbn [layOffsets]. cbn [map] in HN.
  apply not_elem_of_cons in HN as [Hne HN].
  rewrite IH by exact HN. now rewrite lookup_insert_ne by congruence.
Qed.

(** The offset kept for a number is the position of a framing line with
    this number. *)
Lemma layOffsets_lookup (base : nat) (os : list Obj) (offs : gmap Z Z)
    (N : Z) :
  Forall framed os -> N ∈ map obj_num os ->
  exists pre post,
    objBytes os = pre ++ bytes (objHeader N) ++ [nl_byte] ++ post
    /\ layOffsets base os offs !! N = Some (Z.of_nat (base + length pre)).
Proof.
  revert base offs. induction os as [|o os IH]; intros base offs HF HN.
  - cbn in HN. now apply elem_of_nil in HN.
  - apply Forall_cons in HF as [Ho HF]. cbn [layOffsets].
    unfold objBytes. cbn [map concat]. fold (objBytes os).
    destruct (decide (N ∈ map obj_num os)) as [Hin|Hout].
    + destruct (IH (base + length (obj_bytes o))%nat
                  (<[obj_num o := Z.of_nat base]> offs) HF Hin)
        as (pre & post & Hb & Hl).
      exists (obj_bytes o ++ pre), post. split.
      * now rewrite Hb, <- app_assoc.
      * rewrite Hl, length_app. do 2 f_equal. lia.
    + cbn [map] in HN. apply elem_of_cons in HN as [->|HN]; [|contradiction].
      destruct Ho as [rest Hrest].
      exists [], (kindPrefix (obj_kind o) ++ rest ++ objBytes os). split.
      * cbn [app]. rewrite Hrest. now rewrite <- !app_assoc.
      * rewrite layOffsets_skip by exact Hout.
        rewrite lookup_insert_eq. cbn [length]. do 2 f_equal. lia.
Qed.

(** *** The cross-reference table and the trailer *)

(** The bytes of lines of text, each one ended as [put] ends it. *)
Definition linesBytes (l : list string) : list ascii :=
  flat_map (fun s => bytes s ++ [nl_byte]) l.

(** The lines that follow the objects, for a table at offset [offset]. *)
Definition xrefLines (p : Fpdf) (offset : Z) : list string :=
  [ "xref"; "0 " +:+ itoa (n p + 1); "0000000000 65535 f " ]
  ++ map (xrefLine p) (seqZ 1 (n p))
  ++ [ "trailer"; "<<"; "/Size " +:+ itoa (n p + 1);
       "/Root " +:+ itoa (n p) +:+ " 0 R";
       "/Info " +:+ itoa (n p - 1) +:+ " 0 R"; ">>"; "startxref";
       itoa offset; "%%EOF" ].

Lemma linesBytes_app (l1 l2 : list string) :
  linesBytes (l1 ++ l2) = linesBytes l1 ++ linesBytes l2.
Proof. unfold linesBytes. now rewrite flat_map_app. Qed.

Lemma linesBytes_cons (s : string) (l : list string) :
  linesBytes (s :: l) = bytes s ++ [nl_byte] ++ linesBytes l.
Proof. unfold linesBytes. cbn [flat_map]. now rewrite <- app_assoc. Qed.

Lemma put_n (s : string) (p : Fpdf) : n (put s p) = n p.
Proof. reflexivity. Qed.

Lemma put_line (s : string) (p : Fpdf) :
  buffer (put s p) = buffer p ++ linesBytes [s].
Proof. rewrite put_buffer. cbn. now rewrite app_nil_r. Qed.

Lemma putXrefHead_spec (p : Fpdf) :
  let q := putXrefHead p in
  buffer q
  = buffer p
    ++ linesBytes [ "xref"; "0 " +:+ itoa (n p + 1); "0000000000 65535 f " ]
  /\ grows p q.
Proof.
  cbv zeta. unfold putXrefHead. cbv zeta. split; [|grow].
  rewrite !put_buffer, !put_n, !linesBytes_cons, <- !app_assoc. reflexivity.
Qed.

Lemma putXrefLines_fold (l : list Z) (p0 p : Fpdf) :
  offsets p = offsets p0 ->
  let q := fold_left (fun p i => put (xrefLine p i) p) l p in
  buffer q = buffer p ++ linesBytes (map (xrefLine p0) l) /\ grows p q.
Proof.
  cbv zeta. revert p. induction l as [|i l IH]; intros p Ho.
  - cbn. rewrite app_nil_r. split; [reflexivity | apply grows_refl].
  - rewrite fold_left_step. cbv beta.
    assert (Hx : xrefLine p i = xrefLine p0 i)
      by (unfold xrefLine; now rewrite Ho).
    rewrite Hx.
    pose proof (put_grows (xrefLine p0 i) p) as G.
    pose proof (put_line (xrefLine p0 i) p) as B.
    revert G B. generalize (put (xrefLine p0 i) p). intros p1 G B.
    assert (Ho1 : offsets p1 = offsets p0)
      by (destruct G as (_ & G2 & _); congruence).
    destruct (IH p1 Ho1) as [B2 G2].
    split; [|exact (grows_trans _ _ _ G G2)].
    rewrite B2, B. cbn [map]. change (xrefLine p0 i :: map (xrefLine p0) l)
      with ([xrefLine p0 i] ++ map (xrefLine p0) l).
    now rewrite linesBytes_app, app_assoc.
Qed.

Lemma putTrailer_spec (p : Fpdf) :
  let q := putTrailer p in
  buffer q
  = buffer p
    ++ linesBytes [ "/Size " +:+ itoa (n p + 1);
                    "/Root " +:+ itoa (n p) +:+ " 0 R";
                    "/Info " +:+ itoa (n p - 1) +:+ " 0 R" ]
  /\ grows p q.
Proof.
  cbv zeta. unfold putTrailer. cbv zeta. split; [|grow].
  rewrite !put_buffer, !put_n, !linesBytes_cons, <- !app_assoc. reflexivity.
Qed.

Lemma putXref_eq (p : Fpdf) :
  putXref p
  = set_state 3
      (put "%%EOF"
         (put (itoa (getOffset p))
            (put "startxref"
               (put ">>"
                  (putTrailer
                     (put "<<"
                        (put "trailer"
                           (putXrefLines (putXrefHead p))))))))).
Proof. reflexivity. Qed.

(** What follows the objects: the table, the trailer, the offset of the
    table and the end mark. *)
Lemma putXref_spec (p : Fpdf) :
  let q := putXref p in
  buffer q = buffer p ++ linesBytes (xrefLines p (getOffset p))
  /\ offsets q = offsets p /\ n q = n p /\ state q = 3.
Proof.
  cbv zeta. rewrite putXref_eq.
  pose proof (putXrefHead_spec p) as H1. cbv zeta in H1.
  revert H1. generalize (putXrefHead p). intros p1 (B1 & G1).
  assert (O1 : offsets p1 = offsets p) by (destruct G1 as (_ & ? & _); auto).
  assert (N1 : n p1 = n p) by (destruct G1 as (_ & _ & ? & _); auto).
  pose proof (putXrefLines_fold (seqZ 1 (n p1)) p p1 O1) as H2.
  cbv zeta in H2. fold (putXrefLines p1) in H2.
  revert H2. generalize (putXrefLines p1). intros p2 (B2 & G2).
  pose proof (grows_trans _ _ _ G1 G2) as G12.
  pose proof (put_line "trailer" p2) as B3.
  pose proof (put_grows "trailer" p2) as G3.
  revert B3 G3. generalize (put "trailer" p2). intros p3 B3 G3.
  pose proof (put_line "<<" p3) as B4.
  pose proof (put_grows "<<" p3) as G4.
  revert B4 G4. generalize (put "<<" p3). intros p4 B4 G4.
  pose proof (grows_trans _ _ _ G12 (grows_trans _ _ _ G3 G4)) as G14.
  pose proof (putTrailer_spec p4) as H5. cbv zeta in H5.
  revert H5. generalize (putTrailer p4). intros p5 (B5 & G5).
  assert (N4 : n p4 = n p) by (destruct G14 as (_ & _ & ? & _); auto).
  rewrite N4 in B5.
  pose proof (grows_trans _ _ _ G14 G5) as G15.
  assert (G : grows p (put "%%EOF"
                         (put (itoa (getOffset p))
                            (put "startxref" (put ">>" p5))))) by grow.
  destruct G as (_ & GO & GN & _).
  split; [|split; [exact GO | split; [exact GN | reflexivity]]].
  change (buffer (set_state 3 ?x)) with (buffer x).
  rewrite !put_buffer, B5, B4, B3, B2, B1, N1.
  unfold xrefLines.
  rewrite !linesBytes_app, !linesBytes_cons, <- !app_assoc. reflexivity.
Qed.


(** *** The finished document *)

Lemma endDoc_eq (p : Fpdf) :
  endDoc p = putXref (putObjects (putHeader (set_creationDate timeNow p))).
Proof. reflexivity. Qed.

(** The header line leaves the counter and the plan as they are. *)
Lemma putHeader_spec (p : Fpdf) :
  let q := putHeader (set_creationDate timeNow p) in
  buffer q = buffer p ++ bytes ("%PDF-" +:+ pdfVersion p) ++ [nl_byte]
  /\ offsets q = offsets p /\ n q = n p /\ docPlan q = docPlan p
  /\ docCount q = docCount p.
Proof. cbv zeta. repeat split. Qed.

(** The objects of the finished document, with what comes before them and
    what follows. *)
Lemma endDoc_spec (p : Fpdf) :
  2 <= n p ->
  let q := endDoc p in
  exists os,
    buffer q
    = buffer p ++ bytes ("%PDF-" +:+ pdfVersion p) ++ [nl_byte]
      ++ objBytes os
      ++ linesBytes
           (xrefLines q
              (Z.of_nat
                 (length (buffer p ++ bytes ("%PDF-" +:+ pdfVersion p)
                          ++ [nl_byte] ++ objBytes os))))
    /\ offsets q
       = layOffsets
           (length (buffer p ++ bytes ("%PDF-" +:+ pdfVersion p)
                    ++ [nl_byte]))
           os (offsets p)
    /\ map obj_tag os = docPlan p /\ Forall framed os
    /\ n q = n p + docCount p /\ state q = 3.
Proof.
  intros Hn. cbv zeta. rewrite endDoc_eq.
  pose proof (putHeader_spec p) as H0. cbv zeta in H0.
  revert H0. generalize (putHeader (set_creationDate timeNow p)).
  intros p0 (B0 & O0 & N0 & D0 & C0).
  assert (Hn0 : 2 <= n p0) by lia.
  pose proof (putObjects_spec p0 Hn0) as H1. cbv zeta in H1.
  revert H1. generalize (putObjects p0).
  intros p1 ((os & [B1 O1] & T1 & F1) & N1).
  pose proof (putXref_spec p1) as H2. cbv zeta in H2.
  revert H2. generalize (putXref p1). intros q (B2 & O2 & N2 & S2).
  exists os.
  assert (HX : forall off, xrefLines q off = xrefLines p1 off).
  { intros off. unfold xrefLines. rewrite N2. do 2 f_equal.
    apply map_ext. intros i. unfold xrefLine. now rewrite O2. }
  rewrite HX. unfold getOffset in B2.
  rewrite B2, B1, B0, O2, O1, O0, B0, N2, N1, N0, T1, D0, C0.
  rewrite <- !app_assoc. repeat split; assumption.
Qed.

(** X1.  The objects of a finished document stand in the order of the
    traversal: for each page its dictionary, its content stream and its
    annotations, then the pages root, the fonts (each after its Unicode map,
    when it has one), the images, the resource dictionary, the information
    dictionary and the catalog.  The pages root and the resource dictionary
    carry the numbers 1 and 2; the other objects carry the numbers that
    follow the counter on entry, one after the other. *)
Theorem endDoc_object_order (p : Fpdf) :
  2 <= n p ->
  let q := endDoc p in
  exists os tail,
    buffer q
    = buffer p ++ bytes ("%PDF-" +:+ pdfVersion p) ++ [nl_byte]
      ++ objBytes os ++ tail
    /\ Forall framed os
    /\ map obj_tag os = docPlan p
    /\ issued (docPlan p) = seqZ (n p + 1) (n q - n p).
Proof.
  intros Hn. cbv zeta.
  destruct (endDoc_spec p Hn) as (os & B & _ & T & F & N & _).
  exists os. eexists. split; [exact B|]. split; [exact F|].
  split; [exact T|]. rewrite docPlan_issued. f_equal. lia.
Qed.

Lemma docCount_nonneg (p : Fpdf) : 0 <= docCount p.
Proof.
  unfold docCount.
  pose proof (pagesCount_nonneg (pageLinks p) (seqZ 1 (page p))).
  pose proof (resourcesCount_nonneg p). lia.
Qed.

Lemma docPlan_all (p : Fpdf) :
  n p = 2 -> map fst (docPlan p) ≡ₚ seqZ 1 (n p + docCount p).
Proof.
  intros Hn. rewrite docPlan_numbers, docPlan_issued, Hn.
  pose proof (docCount_nonneg p) as Hc.
  rewrite (seqZ_app 1 2), seqZ_two by lia. reflexivity.
Qed.

(** X2.  In a document finished from a counter at 2, as [Reset] leaves it,
    every number from 1 to the last one is the number of one object, and of one
    only. *)
Theorem endDoc_numbers_once (p : Fpdf) :
  n p = 2 ->
  let q := endDoc p in
  exists os tail,
    buffer q
    = buffer p ++ bytes ("%PDF-" +:+ pdfVersion p) ++ [nl_byte]
      ++ objBytes os ++ tail
    /\ Forall framed os
    /\ map obj_num os ≡ₚ seqZ 1 (n q).
Proof.
  intros Hn. cbv zeta.
  assert (Hn2 : 2 <= n p) by lia.
  destruct (endDoc_spec p Hn2) as (os & B & _ & T & F & N & _).
  exists os. eexists. split; [exact B|]. split; [exact F|].
  rewrite N, <- (docPlan_all p Hn), <- T, map_map. reflexivity.
Qed.

(** X3.  In a document finished from a counter at 2, the offset kept for
    every number N from 1 to the last one, which is the one that line N of the
    cross-reference table prints, is the position in the file of a line
    "N 0 obj". *)
Theorem endDoc_offsets (p : Fpdf) (N : Z) :
  n p = 2 ->
  let q := endDoc p in
  1 <= N <= n q ->
  exists pre post,
    buffer q = pre ++ bytes (objHeader N) ++ [nl_byte] ++ post
    /\ offsets q !! N = Some (Z.of_nat (length pre))
    /\ xrefLine q N = sprintf_0d 10 (Z.of_nat (length pre)) +:+ " 00000 n ".
Proof.
  intros Hn. cbv zeta.
  assert (Hn2 : 2 <= n p) by lia.
  destruct (endDoc_spec p Hn2) as (os & B & O & T & F & Nq & _).
  revert B O Nq. generalize (endDoc p). intros q B O Nq HN.
  assert (Hin : N ∈ map obj_num os).
  { assert (HP : map obj_num os ≡ₚ seqZ 1 (n p + docCount p))
      by (rewrite <- (docPlan_all p Hn), <- T, map_map; reflexivity).
    rewrite HP. apply elem_of_seqZ. lia. }
  destruct (layOffsets_lookup
              (length (buffer p ++ bytes ("%PDF-" +:+ pdfVersion p)
                       ++ [nl_byte]))
              os (offsets p) N F Hin) as (pre & post & Hb & Hl).
  rewrite <- O in Hl.
  exists ((buffer p ++ bytes ("%PDF-" +:+ pdfVersion p) ++ [nl_byte]) ++ pre).
  eexists. split; [|split].
  - rewrite B, Hb, <- !app_assoc. reflexivity.
  - now rewrite Hl, (length_app _ pre).
  - unfold xrefLine. rewrite Hl. cbn [default].
    now rewrite (length_app _ pre).
Qed.

(** X4.  A finished document ends with the cross-reference table, which
    has one line for each number from 1 to the last one, the trailer, the offset
    at which the table begins, and the end mark; it is closed. *)
Theorem endDoc_trailer (p : Fpdf) :
  let q := endDoc p in
  exists body,
    buffer q = body ++ linesBytes (xrefLines q (Z.of_nat (length body)))
    /\ state q = 3.
Proof.
  cbv zeta. rewrite endDoc_eq.
  generalize (putObjects (putHeader (set_creationDate timeNow p))).
  intros p1.
  pose proof (putXref_spec p1) as H2. cbv zeta in H2.
  revert H2. generalize (putXref p1). intros q (B2 & O2 & N2 & S2).
  exists (buffer p1). split; [|exact S2].
  rewrite B2. unfold getOffset, xrefLines. rewrite N2. do 4 f_equal.
  apply map_ext. intros i. unfold xrefLine. now rewrite O2.
Qed.

(** *** The numbers planned for the pages *)

(** The numbers of the page dictionaries of a plan. *)
Fixpoint dictNumbers (plan : list (Z * Kind)) : list Z :=
  match plan with
  | [] => []
  | (m, KPage) :: rest => m :: dictNumbers rest
  | _ :: rest => dictNumbers rest
  end.

Lemma dictNumbers_app (l1 l2 : list (Z * Kind)) :
  dictNumbers (l1 ++ l2) = dictNumbers l1 ++ dictNumbers l2.
Proof.
  induction l1 as [|[m kd] l1 IH]; [reflexivity|].
  cbn [app dictNumbers]. rewrite IH. now destruct kd.
Qed.

Lemma dictNumbers_annots (d : Z) (m : nat) :
  dictNumbers (countPlan KAnnot d m) = [].
Proof. revert d. induction m as [|m IH]; intros d; cbn; auto. Qed.

Lemma dictNumbers_pages (l : gmap Z (list PageLink)) (d : Z) (i : Z)
    (pgs : list Z) :
  dictNumbers (pagesPlan l d (i :: pgs))
  = d :: dictNumbers (pagesPlan l (d + 2 + Z.of_nat (linkCount l i)) pgs).
Proof.
  cbn [pagesPlan dictNumbers]. now rewrite dictNumbers_app, dictNumbers_annots.
Qed.

(** Pass 1 over pages that are all different: the number kept for each page
    is the one that its dictionary will carry. *)
Lemma planPage_fold_numbers (pgs : list Z) (m : Z) (p : Fpdf) :
  NoDup pgs ->
  let r := fold_left planPage pgs (m, p) in
  map (fun i => pageObj i r.2) pgs
  = dictNumbers (pagesPlan (pageLinks p) (m + 1) pgs)
  /\ forall j, j ∉ pgs -> pageObj j r.2 = pageObj j p.
Proof.
  cbv zeta. revert m p. induction pgs as [|i pgs IH]; intros m p Hnd.
  - cbn. auto.
  - apply NoDup_cons in Hnd as [Hi Hnd].
    rewrite fold_left_step, dictNumbers_pages.
    destruct (planPage_spec m p i) as (P1 & M1 & Oi & Oj).
    destruct (planPage (m, p) i) as [m1 p1]. cbn [fst snd] in *. subst m1.
    destruct (IH (m + 2 + Z.of_nat (linkCount (pageLinks p) i)) p1 Hnd)
      as [IH1 IH2].
    assert (HL : forall j, linkCount (pageLinks p1) j
                           = linkCount (pageLinks p) j)
      by (destruct P1 as (_ & _ & _ & _ & _ & _ & ?); assumption).
    destruct (pagesPlan_ext (pageLinks p1) (pageLinks p)
                (m + 2 + Z.of_nat (linkCount (pageLinks p) i) + 1) pgs HL)
      as [Hpl _].
    rewrite Hpl in IH1.
    replace (m + 2 + Z.of_nat (linkCount (pageLinks p) i) + 1)
      with (m + 1 + 2 + Z.of_nat (linkCount (pageLinks p) i)) in IH1 by lia.
    split.
    + cbn [map]. rewrite IH1, (IH2 i Hi), Oi. reflexivity.
    + intros j Hj. apply not_elem_of_cons in Hj as [Hne Hj].
      rewrite (IH2 j Hj). now apply Oj.
Qed.

(** X5.  The numbers that the pages root lists as its kids, read when
    [putKids] runs, are the numbers of the page dictionaries written before it, in
    the order of the pages. *)
Theorem putPages_kids (p : Fpdf) :
  let q := put "<</Type /Pages" (newObj (Some 1) (emitPages (planPages p))) in
  exists plan,
    emitsPlan p plan (emitPages (planPages p))
    /\ putPages p
       = put "endobj" (put ">>" (putRootBox (putCount (putKids q))))
    /\ map (fun i => pageObj i q) (seqZ 1 (page q)) = dictNumbers plan.
Proof.
  cbv zeta.
  exists (pagesPlan (pageLinks p) (n p + 1) (seqZ 1 (page p))).
  split; [|split; [apply putPages_eq|]].
  - pose proof (planPages_spec p) as H1. cbv zeta in H1.
    revert H1. generalize (planPages p).
    intros p1 (B1 & O1 & N1 & P1 & F1 & I1 & L1).
    pose proof (emitPages_spec p1) as H2. cbv zeta in H2.
    revert H2. generalize (emitPages p1). intros p2 (E2 & N2 & S2).
    destruct (pagesPlan_ext (pageLinks p1) (pageLinks p) (n p + 1)
                (seqZ 1 (page p)) L1) as [Hpl Hpc].
    rewrite P1, N1, Hpl in E2.
    exact (emitsPlan_start p p1 p2 _ B1 O1 E2).
  - change (page (put "<</Type /Pages"
                    (newObj (Some 1) (emitPages (planPages p)))))
      with (page (emitPages (planPages p))).
    assert (HK : forall i q,
               pageObj i (put "<</Type /Pages" (newObj (Some 1) q))
               = pageObj i q) by reflexivity.
    erewrite map_ext by (intros i; apply HK).
    destruct (planPage_fold_numbers (seqZ 1 (page p)) (n p) p
                (NoDup_seqZ _ _)) as [K1 _].
    cbv zeta in K1. fold (planPages p) in K1.
    pose proof (planPages_spec p) as H1. cbv zeta in H1.
    revert K1 H1. generalize (planPages p).
    intros p1 K1 (_ & _ & _ & P1 & _).
    pose proof (emitPages_spec p1) as H2. cbv zeta in H2.
    revert H2. generalize (emitPages p1).
    intros p2 (_ & _ & (S1 & S2 & _)).
    rewrite S1, P1, <- K1. apply map_ext. intros i.
    unfold pageObj. now rewrite S2.
Qed.

End Serializer.

(** A document made through the interface, on the runnable host: one page,
    the font Courier, which has a Unicode map, and a cell with a link. *)
Definition linkDoc : Res Fpdf :=
  p ← @AddPage plainHost "" "" 0 (@NewFpdf plainHost "P" "mm" "A4");
  p ← @SetFont plainHost "courier" "" 12 p;
  @Cell plainHost 40 10 "Hi" (BInt 0) 0 "" false (LStr "http://x") p.

(** The same with its page ended, as [Close] hands it to [endDoc]. *)
Definition linkPdf : Fpdf :=
  match linkDoc with
  | Ok p => endPage p
  | Panic _ => zeroFpdf
  end.

Lemma endDoc_object_order_witness :
  exists os tail,
    buffer (@endDoc plainHost linkPdf)
    = buffer linkPdf ++ bytes ("%PDF-" +:+ pdfVersion linkPdf) ++ [nl_byte]
      ++ objBytes os ++ tail
    /\ Forall framed os
    /\ map obj_tag os
       = [ (3, KPage); (4, KContent); (5, KAnnot); (1, KPagesRoot);
           (6, KToUnicode); (7, KFont); (2, KResources); (8, KInfo);
           (9, KCatalog) ].
Proof.
  destruct (@endDoc_object_order plainHost linkPdf) as (os & tail & B & F & T & _).
  - vm_compute. discriminate.
  - exists os, tail. split; [exact B|]. split; [exact F|].
    rewrite T. vm_compute. reflexivity.
Defined.

Lemma endDoc_numbers_once_witness :
  exists os tail,
    buffer (@endDoc plainHost linkPdf)
    = buffer linkPdf ++ bytes ("%PDF-" +:+ pdfVersion linkPdf) ++ [nl_byte]
      ++ objBytes os ++ tail
    /\ Forall framed os
    /\ map obj_num os ≡ₚ [1; 2; 3; 4; 5; 6; 7; 8; 9].
Proof.
  destruct (@endDoc_numbers_once plainHost linkPdf) as (os & tail & B & F & P).
  - vm_compute. reflexivity.
  - exists os, tail. split; [exact B|]. split; [exact F|].
    assert (Hs : seqZ 1 (n (@endDoc plainHost linkPdf))
                 = [1; 2; 3; 4; 5; 6; 7; 8; 9]) by (vm_compute; reflexivity).
    rewrite <- Hs. exact P.
Defined.

Lemma endDoc_offsets_witness :
  exists pre post,
    buffer (@endDoc plainHost linkPdf)
    = pre ++ bytes (objHeader 1) ++ [nl_byte] ++ post
    /\ length pre = 361%nat
    /\ offsets (@endDoc plainHost linkPdf) !! 1 = Some 361.
Proof.
  destruct (@endDoc_offsets plainHost linkPdf 1) as (pre & post & B & O & _).
  - vm_compute. reflexivity.
  - vm_compute. split; discriminate.
  - assert (Ho : offsets (@endDoc plainHost linkPdf) !! 1 = Some 361)
      by (vm_compute; reflexivity).
    exists pre, post. split; [exact B|]. split; [|exact Ho].
    rewrite Ho in O. injection O as O. lia.
Defined.

(** ** Closing a document *)

Section CloseProperties.
Context `{Host}.

(** X6.  A document that [Close] returns is closed: its state is 3, closing
    it again changes nothing, and after it [AddPage] and every operator
    sent to a page panic with "the document is closed". *)
Theorem Close_closed (p q : Fpdf) :
  Close p = Ok q ->
  state q = 3
  /\ Close q = Ok q
  /\ (forall o s r,
        AddPage o s r q = Panic "fpdf error: the document is closed")
  /\ (forall s, out s q = Panic "fpdf error: the document is closed").
Proof.
  intros Hc.
  assert (Hs : state q = 3).
  { unfold Close in Hc. destruct (state p =? 3) eqn:E3.
    - injection Hc as <-. now apply Z.eqb_eq.
    - destruct (if page p =? 0 then AddPage "" "" 0 p else Ok p)
        as [p1|m1]; [|discriminate].
      cbn [mbind Res_bind] in Hc.
      destruct (Footer (set_inFooter true p1)) as [p2|m2]; [|discriminate].
      cbn [mbind Res_bind] in Hc. cbv zeta in Hc. injection Hc as <-.
      destruct (endDoc_trailer (endPage (set_inFooter false p2)))
        as (body & _ & Hst).
      exact Hst. }
  split; [exact Hs|]. split; [|split].
  - unfold Close. now rewrite Hs.
  - intros o s r. unfold AddPage. now rewrite Hs.
  - intros s. unfold out. now rewrite Hs.
Qed.

End CloseProperties.

Lemma Close_closed_witness :
  exists q,
    @Close plainHost pageDoc = Ok q
    /\ state q = 3
    /\ @Close plainHost q = Ok q.
Proof.
  destruct (@Close plainHost pageDoc) as [q|m] eqn:E.
  - exists q. destruct (@Close_closed plainHost pageDoc q E) as (Hs & Hc & _).
    auto.
  - exfalso. vm_compute in E. discriminate.
Defined.

(** ** The fonts of a document *)

Section FontProperties.
Context `{Host}.

(** The indices of the fonts, from which the resource names /F1, /F2, ...
    are made: each lies between 1 and the number of fonts, and no two fonts
    share one. *)
Definition fontsNumbered (p : Fpdf) : Prop :=
  (forall key f,
     fonts p !! key = Some f ->
     1 <= font_i f <= Z.of_nat (size (fonts p)))
  /\ (forall k1 k2 f1 f2,
        fonts p !! k1 = Some f1 -> fonts p !! k2 = Some f2 ->
        font_i f1 = font_i f2 -> k1 = k2).

Lemma font_with_i_index (f : pdfFont) (i : Z) :
  font_i (font_with_i f i) = i.
Proof. destruct f. reflexivity. Qed.

(** The key under which [AddFont] files a font. *)
Definition fontKey (family style : string) : string :=
  let style := strings_ToUpper style in
  strings_ToLower (strings_TrimSpace family)
  +:+ (if streq style "IB" then "BI" else style).

Lemma AddFont_cases (family style file dir : string) (p q : Fpdf) :
  AddFont family style file dir p = Ok q ->
  (q = p /\ exists f, fonts p !! fontKey family style = Some f)
  \/ (fonts p !! fontKey family style = None
      /\ exists info,
           q = set_fonts
                 (<[fontKey family style
                    := font_with_i info (Z.of_nat (size (fonts p)) + 1)]>
                    (fonts p)) p).
Proof.
  unfold AddFont, fontKey. cbv zeta.
  destruct (fonts p !! _) as [f|] eqn:Ef.
  - intros [= <-]. left. eauto.
  - destruct (_ || _); [discriminate|].
    destruct (loadFontAsset _ p) as [info|]; [|discriminate].
    intros [= <-]. right. eauto.
Qed.

(** X7.  [AddFont] keeps the indices of the fonts in order: a font that is
    added takes the index that follows the number of fonts, so that the
    indices stay between 1 and the number of fonts and stay different from
    one another; and adding the same font once more changes nothing. *)
Theorem AddFont_numbered (family style file dir : string) (p q : Fpdf) :
  fontsNumbered p ->
  AddFont family style file dir p = Ok q ->
  fontsNumbered q /\ AddFont family style file dir q = Ok q.
Proof.
  intros [Hr Hd] Ha.
  destruct (AddFont_cases _ _ _ _ _ _ Ha) as [[-> [f Hf]] | [Hn [info ->]]].
  - split; [split; assumption | exact Ha].
  - set (key := fontKey family style) in *.
    set (i := Z.of_nat (size (fonts p)) + 1).
    assert (Hsz : size (<[key := font_with_i info i]> (fonts p))
                  = S (size (fonts p)))
      by (apply map_size_insert_None; exact Hn).
    split; [split|].
    + intros k f. fields. rewrite Hsz.
      destruct (decide (k = key)) as [->|Hne].
      * rewrite lookup_insert_eq. intros [= <-].
        rewrite font_with_i_index. subst i. lia.
      * rewrite lookup_insert_ne by congruence. intros Hf.
        specialize (Hr _ _ Hf). lia.
    + intros k1 k2 f1 f2. fields.
      destruct (decide (k1 = key)) as [->|Hne1];
        destruct (decide (k2 = key)) as [->|Hne2]; auto.
      * rewrite lookup_insert_eq, lookup_insert_ne by congruence.
        intros [= <-] Hf2. rewrite font_with_i_index.
        specialize (Hr _ _ Hf2). subst i. lia.
      * rewrite lookup_insert_ne, lookup_insert_eq by congruence.
        intros Hf1 [= <-]. rewrite font_with_i_index.
        specialize (Hr _ _ Hf1). subst i. lia.
      * rewrite !lookup_insert_ne by congruence. apply Hd.
    + unfold AddFont. cbv zeta. fold (fontKey family style). fold key.
      fields. now rewrite lookup_insert_eq.
Qed.

End FontProperties.

Lemma AddFont_numbered_witness :
  exists q,
    @AddFont plainHost "Courier" "" "" "" pageDoc = Ok q
    /\ @fontsNumbered q
    /\ @AddFont plainHost "Courier" "" "" "" q = Ok q.
Proof.
  destruct (@AddFont plainHost "Courier" "" "" "" pageDoc) as [q|m] eqn:E.
  - exists q. split; [reflexivity|].
    apply (@AddFont_numbered plainHost "Courier" "" "" "" pageDoc q);
      [|exact E].
    assert (Hfe : fonts pageDoc = ∅) by (vm_compute; reflexivity).
    split; rewrite Hfe.
    + intros key f Hf. now rewrite lookup_empty in Hf.
    + intros k1 k2 f1 f2 Hf. now rewrite lookup_empty in Hf.
  - exfalso. vm_compute in E. discriminate.
Defined.

(** ** Text strings *)

(** What [escape] makes of one byte. *)
Definition escapeByte (c : ascii) : list ascii :=
  if bool_decide (c = "\"%char) then ["\"%char; "\"%char]
  else if bool_decide (c = "("%char) then ["\"%char; "("%char]
  else if bool_decide (c = ")"%char) then ["\"%char; ")"%char]
  else if bool_decide (c = "013"%char) then ["\"%char; "r"%char]
  else [c].

Lemma flat_map_flat_map {A B C : Type} (f : A -> list B) (g : B -> list C)
    (l : list A) :
  flat_map g (flat_map f l) = flat_map (fun a => flat_map g (f a)) l.
Proof.
  induction l as [|a l IH]; [reflexivity|].
  cbn [flat_map]. now rewrite flat_map_app, IH.
Qed.

Lemma bytes_replaceByte (old : ascii) (new s : string) :
  bytes (replaceByte old new s)
  = flat_map (fun d => if bool_decide (d = old) then bytes new else [d])
      (bytes s).
Proof. unfold replaceByte. apply bytes_str. Qed.

Lemma escape_bytes (s : string) :
  bytes (escape s) = flat_map escapeByte (bytes s).
Proof.
  unfold escape. cbv zeta.
  rewrite !bytes_replaceByte, !flat_map_flat_map.
  apply flat_map_ext. intros c.
  destruct c as [[] [] [] [] [] [] [] []]; vm_compute; reflexivity.
Qed.

(** The reading of an escaped text: a backslash and the byte after it stand
    for one byte. *)
Fixpoint unescape (l : list ascii) : list ascii :=
  match l with
  | [] => []
  | c :: t =>
      if bool_decide (c = "\"%char) then
        match t with
        | [] => [c]
        | d :: t' =>
            (if bool_decide (d = "r"%char) then "013"%char else d)
            :: unescape t'
        end
      else c :: unescape t
  end.

Lemma unescape_escape (l : list ascii) :
  unescape (flat_map escapeByte l) = l.
Proof.
  induction l as [|c l IH]; [reflexivity|].
  cbn [flat_map].
  destruct c as [[] [] [] [] [] [] [] []];
    (vm_compute escapeByte; cbn [app unescape bool_decide];
     repeat (match goal with
             | |- context [bool_decide ?P] =>
                 let b := eval vm_compute in (bool_decide P) in
                 change (bool_decide P) with b
             end; cbv iota);
     now rewrite IH).
Qed.

(** X8.  [escape], four replacements one after the other, acts on each byte
    by itself: a backslash, a parenthesis or a carriage return becomes a
    backslash followed by the byte (by r for the carriage return), any
    other byte stays; the replacements do not act on the backslashes that
    earlier ones have put.  So [escape] goes through concatenation, and
    two texts with the same escaped form are the same text. *)
Theorem escape_bytewise (s t : string) :
  bytes (escape s) = flat_map escapeByte (bytes s)
  /\ escape (s +:+ t) = escape s +:+ escape t
  /\ (escape s = escape t -> s = t).
Proof.
  split; [apply escape_bytes|]. split.
  - rewrite <- (str_bytes (escape (s +:+ t))), escape_bytes, bytes_app,
      flat_map_app, <- !escape_bytes.
    rewrite <- (str_bytes (escape s +:+ escape t)), bytes_app. reflexivity.
  - intros He.
    assert (Hb : flat_map escapeByte (bytes s) = flat_map escapeByte (bytes t))
      by (rewrite <- !escape_bytes; now rewrite He).
    apply (f_equal unescape) in Hb. rewrite !unescape_escape in Hb.
    rewrite <- (str_bytes s), <- (str_bytes t). now rewrite Hb.
Qed.

(** [latin1ToUTF8]: the bytes from 128 on become two bytes. *)
Definition byteCode (c : ascii) : Z := Z.of_N (N_of_ascii c).

Definition latin1Byte (c : ascii) : list ascii :=
  if 128 <=? byteCode c
  then [ byteOf (Z.lor 192 (Z.shiftr (byteCode c) 6));
         byteOf (Z.lor 128 (Z.land (byteCode c) 63)) ]
  else [c].

Definition latin1ToUTF8 (s : string) : string :=
  str (flat_map latin1Byte (bytes s)).

Definition metaText (v : string) (isUTF8 : bool) : string :=
  if isUTF8 then v else latin1ToUTF8 v.

Definition SetTitle (title : string) (p : Fpdf) : Fpdf :=
  set_metadata (<["Title" := metaText title false]> (metadata p)) p.

(** X9.  [latin1ToUTF8] leaves a text of ASCII bytes as it is; it turns
    every byte c from 128 on into the two bytes of the UTF-8 form of the
    character with code c: a lead byte 194 or 195 and a continuation byte
    between 128 and 191 whose low bits make up c again; and the length of
    the result is the length of the text plus the number of such bytes. *)
Theorem latin1ToUTF8_spec (s : string) :
  (isASCII s = true -> latin1ToUTF8 s = s)
  /\ (forall c, 128 <= byteCode c ->
        exists b1 b2,
          latin1ToUTF8 (String c "") = String b1 (String b2 "")
          /\ 194 <= byteCode b1 <= 195 /\ 128 <= byteCode b2 <= 191
          /\ (byteCode b1 mod 32) * 64 + byteCode b2 mod 64 = byteCode c)
  /\ len (latin1ToUTF8 s)
     = (len s + length (filter (fun c => (128 <= byteCode c)%Z) (bytes s)))%nat.
Proof.
  split; [|split].
  - unfold isASCII, latin1ToUTF8. intros Ha.
    rewrite <- (str_bytes s) at 2. f_equal.
    induction (bytes s) as [|c l IH]; [reflexivity|].
    cbn [forallb] in Ha. apply andb_true_iff in Ha as [Hc Hl].
    cbn [flat_map]. rewrite (IH Hl). unfold latin1Byte, byteCode.
    apply N.leb_le in Hc.
    destruct (128 <=? Z.of_N (N_of_ascii c)) eqn:E; [|reflexivity].
    apply Z.leb_le in E. lia.
  - intros c Hc.
    destruct c as [[] [] [] [] [] [] [] []];
      try (exfalso; vm_compute in Hc; now apply Hc);
      (eexists; eexists; split; [vm_compute; reflexivity|];
       vm_compute; repeat split; discriminate).
  - unfold len, latin1ToUTF8. rewrite bytes_str.
    induction (bytes s) as [|c l IH]; [reflexivity|].
    cbn [flat_map]. rewrite length_app, IH.
    destruct (decide (128 <= byteCode c)) as [Hc|Hc].
    + rewrite filter_cons_True by exact Hc. unfold latin1Byte.
      apply Z.leb_le in Hc. rewrite Hc. cbn [length]. lia.
    + rewrite filter_cons_False by exact Hc. unfold latin1Byte.
      apply Z.leb_nle in Hc. rewrite Hc. cbn [length]. lia.
Qed.

Lemma escape_bytewise_witness :
  bytes (escape "a(b") = flat_map escapeByte (bytes "a(b")
  /\ escape ("a(" +:+ "b") = escape "a(" +:+ escape "b"
  /\ (escape "a(" = escape "a(" -> "a(" = "a(").
Proof.
  split; [apply (escape_bytewise "a(b" "")|].
  destruct (escape_bytewise "a(" "b") as (_ & H2 & _).
  split; [exact H2|]. apply (escape_bytewise "a(" "a(").
Defined.

Lemma latin1ToUTF8_spec_witness :
  latin1ToUTF8 "abc" = "abc"
  /\ exists b1 b2,
       latin1ToUTF8 (String "233"%char "") = String b1 (String b2 "")
       /\ 194 <= byteCode b1 <= 195 /\ 128 <= byteCode b2 <= 191
       /\ (byteCode b1 mod 32) * 64 + byteCode b2 mod 64
          = byteCode "233"%char.
Proof.
  split.
  - apply (latin1ToUTF8_spec "abc"). reflexivity.
  - apply (latin1ToUTF8_spec ""). vm_compute. discriminate.
Defined.

(** ** The graphics state over a page break *)

Section PageProperties.
Context `{Host}.

(** The line width, the colours and the colour flag, and with them the
    file under construction: the counter of objects, their offsets and the
    bytes written. *)
Definition sameCore (p q : Fpdf) : Prop :=
  lineWidth q = lineWidth p /\ drawColor q = drawColor p
  /\ fillColor q = fillColor p /\ textColor q = textColor p
  /\ colorFlag q = colorFlag p
  /\ n q = n p /\ offsets q = offsets p /\ buffer q = buffer p.

Lemma sameCore_refl (p : Fpdf) : sameCore p p.
Proof. repeat split. Qed.

Lemma sameCore_trans (p1 p2 p3 : Fpdf) :
  sameCore p1 p2 -> sameCore p2 p3 -> sameCore p1 p3.
Proof.
  intros (A1 & A2 & A3 & A4 & A5 & A6 & A7 & A8)
    (B1 & B2 & B3 & B4 & B5 & B6 & B7 & B8).
  repeat split; congruence.
Qed.

Lemma out_core (s : string) (p q : Fpdf) : out s p = Ok q -> sameCore p q.
Proof.
  intros Ho. destruct (out_Ok _ _ _ Ho) as [-> | ->];
    [unfold appendOp, sameCore; fields; repeat split | apply sameCore_refl].
Qed.

Lemma AddFont_core (family style file dir : string) (p q : Fpdf) :
  AddFont family style file dir p = Ok q -> sameCore p q.
Proof.
  intros Ha.
  destruct (AddFont_cases _ _ _ _ _ _ Ha) as [[-> _] | [_ [info ->]]];
    [apply sameCore_refl | unfold sameCore; fields; repeat split].
Qed.

Lemma SetFont_core (family style : string) (size : Q) (p q : Fpdf) :
  SetFont family style size p = Ok q -> sameCore p q.
Proof.
  unfold SetFont. cbv zeta.
  set (fam := if streq family "" then fontFamily p else _).
  set (sz := fun p0 : Fpdf => if Qeq_bool size 0 then fontSizePt p0 else size).
  assert (Hu : forall b, sameCore p (set_underline b p))
    by (intros b; unfold sameCore; fields; repeat split).
  destruct (containsByte (strings_ToUpper style) "U"); cbv beta iota.
  all: match goal with
       | |- context [set_underline ?b ?pp] =>
           specialize (Hu b); revert Hu; generalize (set_underline b pp);
           intros p0 Hu
       end.
  all: match goal with
       | |- (if ?c then _ else _) = _ -> _ => destruct c
       end; [intros [= <-]; exact Hu|].
  all: match goal with
       | |- context [fonts ?pp !! ?key] =>
           destruct (fonts pp !! key) as [f0|] eqn:Ef
       end.
  all: cbn [mbind Res_bind].
  all: try match goal with
         | |- context [bool_decide ?P] => destruct (bool_decide P)
         end; try (unfold panicError; discriminate).
  all: try match goal with
         | |- context [fonts ?pp !! ?key] =>
             destruct (fonts pp !! key) as [f1|] eqn:Ef1
         end; cbn [mbind Res_bind].
  all: try match goal with
         | |- context [AddFont ?a ?b ?c ?d ?pp] =>
             destruct (AddFont a b c d pp) as [pa|] eqn:Ea;
               [apply AddFont_core in Ea; cbn [mbind Res_bind]
               | discriminate]
         end.
  all: cbv beta iota zeta.
  all: match goal with
       | |- (if ?c then _ else _) = _ -> _ => destruct c
       end.
  all: try match goal with
         | |- context [match ?cf with Some _ => _ | None => _ end] =>
             destruct cf; [|discriminate]
         end.
  all: intros Ho; try apply out_core in Ho; try injection Ho as <-.
  all: try (eapply sameCore_trans; [exact Hu|]).
  all: try (eapply sameCore_trans; [exact Ea|]).
  all: try (eapply sameCore_trans; [|exact Ho]).
  all: unfold sameCore; fields; repeat split.
Qed.

Lemma guarded_out_core (c : bool) (s : string) (p0 p q : Fpdf) :
  sameCore p0 p -> (if c then out s p else Ok p) = Ok q -> sameCore p0 q.
Proof.
  intros Hg. destruct c.
  - intros Ho. exact (sameCore_trans _ _ _ Hg (out_core _ _ _ Ho)).
  - now intros [= <-].
Qed.

Lemma guarded_SetFont_core (c : bool) (family style : string) (size : Q)
    (p q : Fpdf) :
  (if c then SetFont family style size p else Ok p) = Ok q -> sameCore p q.
Proof.
  destruct c; [apply SetFont_core | intros [= <-]; apply sameCore_refl].
Qed.

(** X10.  Whatever the header and the footer do, [AddPage] hands back the
    graphics state it was called with: the colours and the colour flag are
    the ones on entry, and the line width is the one on entry as a
    number. *)
Theorem AddPage_restores (orientation size : string) (rotation : Z)
    (p q : Fpdf) :
  AddPage orientation size rotation p = Ok q ->
  (lineWidth q == lineWidth p)%Q /\ drawColor q = drawColor p
  /\ fillColor q = fillColor p /\ textColor q = textColor p
  /\ colorFlag q = colorFlag p.
Proof.
  unfold AddPage. destruct (state p =? 3); [discriminate|]. cbv zeta.
  set (lw := lineWidth p). set (dc := drawColor p). set (fc := fillColor p).
  set (tc := textColor p). set (cf := colorFlag p).
  set (family := fontFamily p).
  set (style := if underline p then _ else _).
  set (fontsize := fontSizePt p).
  clearbody lw dc fc tc cf family style fontsize.
  intros H0.
  apply bind_Ok in H0 as (p1 & _ & H0). cbv beta in H0.
  apply bind_Ok in H0 as (p2 & _ & H0). cbv beta in H0.
  apply bind_Ok in H0 as (p3 & _ & H0). cbv beta in H0.
  apply bind_Ok in H0 as (p4 & _ & H0). cbv beta in H0.
  apply bind_Ok in H0 as (p5 & _ & H0). cbv beta in H0.
  apply bind_Ok in H0 as (p6 & _ & H0). cbv beta in H0.
  apply bind_Ok in H0 as (p7 & _ & H0). cbv beta in H0.
  clear p1 p2 p3 p4 p5 p6.
  apply bind_Ok in H0 as (p8 & E8 & H0). cbv beta in H0.
  apply bind_Ok in H0 as (p9 & E9 & H0). cbv beta in H0.
  apply bind_Ok in H0 as (p10 & E10 & H0). cbv beta in H0.
  apply bind_Ok in H0 as (p11 & E11 & H0). cbv beta in H0.
  injection H0 as <-. fields.
  assert (H8 : (lineWidth p8 == lw)%Q).
  { destruct (Qneqb (lineWidth (set_inHeader false p7)) lw) eqn:Eq.
    - apply out_core in E8. destruct E8 as (E8 & _). rewrite E8. fields.
      reflexivity.
    - injection E8 as <-. unfold Qneqb in Eq.
      apply negb_false_iff, Qeq_bool_iff in Eq. exact Eq. }
  apply guarded_SetFont_core in E9.
  assert (H10 : lineWidth p10 = lineWidth p9 /\ drawColor p10 = dc).
  { destruct (negb (streq (drawColor p9) dc)) eqn:Ed.
    - apply out_core in E10. destruct E10 as (A1 & A2 & _).
      rewrite A1, A2. fields. auto.
    - injection E10 as <-. apply negb_false_iff, streq_true in Ed. auto. }
  assert (H11 : lineWidth p11 = lineWidth p10 /\ drawColor p11 = drawColor p10
                /\ fillColor p11 = fc).
  { destruct (negb (streq (fillColor p10) fc)) eqn:Ed.
    - apply out_core in E11. destruct E11 as (A1 & A2 & A3 & _).
      rewrite A1, A2, A3. fields. auto.
    - injection E11 as <-. apply negb_false_iff, streq_true in Ed. auto. }
  destruct E9 as (G9 & _). destruct H10 as [L10 D10].
  destruct H11 as (L11 & D11 & F11).
  split; [rewrite L11, L10, G9; exact H8|].
  repeat split; congruence.
Qed.

End PageProperties.

Lemma AddPage_restores_witness :
  let p := set_lineWidth 2 (set_drawColor "1.000 0.000 0.000 RG" pageDoc) in
  exists q,
    @AddPage plainHost "" "" 0 p = Ok q
    /\ (lineWidth q == 2)%Q /\ drawColor q = "1.000 0.000 0.000 RG".
Proof.
  intros p.
  destruct (@AddPage plainHost "" "" 0 p) as [q|m] eqn:E.
  - exists q. split; [reflexivity|].
    destruct (@AddPage_restores plainHost "" "" 0 p q E) as (Hl & Hd & _).
    split; [exact Hl | exact Hd].
  - exfalso. vm_compute in E. discriminate.
Defined.

(** ** The file under construction *)

Section FileProperties.
Context `{Host}.

(** The counter of objects, their offsets and the bytes written. *)
Definition sameFile (p q : Fpdf) : Prop :=
  n q = n p /\ offsets q = offsets p /\ buffer q = buffer p.

(** The header and the footer of the host leave the file alone. *)
Definition hooksKeepFile : Prop :=
  (forall f p q, headerFunc = Some f -> f p = Ok q -> sameFile p q)
  /\ (forall f p q, footerFunc = Some f -> f p = Ok q -> sameFile p q).

Lemma sameFile_refl (p : Fpdf) : sameFile p p.
Proof. repeat split. Qed.

Lemma sameFile_trans (p1 p2 p3 : Fpdf) :
  sameFile p1 p2 -> sameFile p2 p3 -> sameFile p1 p3.
Proof.
  intros (A1 & A2 & A3) (B1 & B2 & B3). repeat split; congruence.
Qed.

Lemma core_file (p q : Fpdf) : sameCore p q -> sameFile p q.
Proof. intros (_ & _ & _ & _ & _ & A & B & C). repeat split; assumption. Qed.

Lemma out_file (s : string) (p q : Fpdf) : out s p = Ok q -> sameFile p q.
Proof. intros Ho. apply core_file. exact (out_core _ _ _ Ho). Qed.

Lemma sameFile_let (p e : Fpdf) (b : Fpdf -> Fpdf) :
  sameFile p e -> (forall y, sameFile p y -> sameFile p (b y)) ->
  sameFile p (let x := e in b x).
Proof. intros He Hb. now apply Hb. Qed.

Lemma sameFile_let_any {A : Type} (p : Fpdf) (e : A) (b : A -> Fpdf) :
  (forall y, sameFile p (b y)) -> sameFile p (let x := e in b x).
Proof. intros Hb. apply Hb. Qed.

(** The file across bindings, tests and assignments to other fields. *)
Ltac file_goal :=
  repeat match goal with
    | Hy : sameFile ?p ?y |- sameFile ?p ?y => exact Hy
    | |- sameFile ?p ?p => apply sameFile_refl
    | |- sameFile ?p (let x := ?e in @?b x) =>
        first
          [ apply (sameFile_let p e b);
            [|let y := fresh "y" in
              let Hy := fresh "Hy" in intros y Hy; cbv beta]
          | apply (sameFile_let_any p e b);
            let y := fresh "y" in intros y; cbv beta ]
    | |- sameFile ?p (if ?c then _ else _) => destruct c
    | |- sameFile ?p (?f ?a ?q) =>
        apply (sameFile_trans p q);
        [|solve [unfold sameFile, updInfo; fields; repeat split]]
    end.

Lemma beginPage_file (orientation size : string) (rotation : Z) (p : Fpdf) :
  sameFile p (beginPage orientation size rotation p).
Proof. cbv beta delta [beginPage]. file_goal. Qed.

Lemma Header_file (p q : Fpdf) :
  hooksKeepFile -> Header p = Ok q -> sameFile p q.
Proof.
  intros [Hh _]. unfold Header.
  destruct headerFunc as [f|] eqn:Ef.
  - intros Hq. exact (Hh f p q eq_refl Hq).
  - intros [= <-]. apply sameFile_refl.
Qed.

Lemma Footer_file (p q : Fpdf) :
  hooksKeepFile -> Footer p = Ok q -> sameFile p q.
Proof.
  intros [_ Hf]. unfold Footer.
  destruct footerFunc as [f|] eqn:Ef.
  - intros Hq. exact (Hf f p q eq_refl Hq).
  - intros [= <-]. apply sameFile_refl.
Qed.

(** A chain of steps that keep the file keeps it; the assignments to the
    fields of the cursor and of the graphics state in between are read
    through. *)
Ltac file_chain :=
  repeat match goal with
         | E : (if ?c then _ else _) = Ok _ |- _ => destruct c
         | E : Ok _ = Ok _ |- _ => injection E as <-
         | E : out _ _ = Ok _ |- _ => apply out_file in E
         | E : SetFont _ _ _ _ = Ok _ |- _ =>
             apply SetFont_core, core_file in E
         end;
  unfold sameFile, endPage in *; fields;
  repeat match goal with
         | E : _ /\ _ |- _ => destruct E
         end;
  repeat match goal with
         | E : n _ = _ |- _ => progress fields_in E
         | E : offsets _ = _ |- _ => progress fields_in E
         | E : buffer _ = _ |- _ => progress fields_in E
         end;
  repeat split; congruence.

Lemma AddPage_file (orientation size : string) (rotation : Z) (p q : Fpdf) :
  hooksKeepFile -> AddPage orientation size rotation p = Ok q ->
  sameFile p q.
Proof.
  intros Hk. unfold AddPage. destruct (state p =? 3); [discriminate|].
  cbv zeta.
  set (lw := lineWidth p). set (dc := drawColor p). set (fc := fillColor p).
  set (tc := textColor p). set (cf := colorFlag p).
  set (family := fontFamily p).
  set (style := if underline p then _ else _).
  set (fontsize := fontSizePt p).
  clearbody lw dc fc tc cf family style fontsize.
  intros H0.
  apply bind_Ok in H0 as (p1 & E1 & H0). cbv beta in H0.
  apply bind_Ok in H0 as (p2 & E2 & H0). cbv beta in H0.
  apply bind_Ok in H0 as (p3 & E3 & H0). cbv beta in H0.
  apply bind_Ok in H0 as (p4 & E4 & H0). cbv beta in H0.
  apply bind_Ok in H0 as (p5 & E5 & H0). cbv beta in H0.
  apply bind_Ok in H0 as (p6 & E6 & H0). cbv beta in H0.
  apply bind_Ok in H0 as (p7 & E7 & H0). cbv beta in H0.
  apply bind_Ok in H0 as (p8 & E8 & H0). cbv beta in H0.
  apply bind_Ok in H0 as (p9 & E9 & H0). cbv beta in H0.
  apply bind_Ok in H0 as (p10 & E10 & H0). cbv beta in H0.
  apply bind_Ok in H0 as (p11 & E11 & H0). cbv beta in H0.
  injection H0 as <-.
  assert (F1 : sameFile p p1).
  { destruct (0 <? page p); [|injection E1 as <-; apply sameFile_refl].
    apply bind_Ok in E1 as (pf & Ef & E1). injection E1 as <-.
    apply (Footer_file _ _ Hk) in Ef. file_chain. }
  assert (F2 : sameFile p1 p2).
  { apply out_file in E2.
    exact (sameFile_trans _ _ _ (beginPage_file _ _ _ p1) E2). }
  apply (Header_file _ _ Hk) in E7.
  clear Hk. file_chain.
Qed.

Lemma clearWs_file (p q : Fpdf) : clearWs p = Ok q -> sameFile p q.
Proof.
  unfold clearWs. destruct (Qgtb (ws p) 0); [|intros [= <-]; apply sameFile_refl].
  intros E. file_chain.
Qed.

Lemma Cell_file (wd ht : Q) (txt : string) (border : Border) (ln : Z)
    (align : string) (fill : bool) (link : LinkVal) (p q : Fpdf) :
  hooksKeepFile ->
  Cell wd ht txt border ln align fill link p = Ok q -> sameFile p q.
Proof.
  intros Hk. unfold Cell. cbv zeta. intros H0.
  apply bind_Ok in H0 as (p1 & E1 & H0).
  assert (F1 : sameFile p p1).
  { unfold Cell_pageBreak in E1.
    destruct (needsPageBreak ht p); [|injection E1 as <-; apply sameFile_refl].
    cbv zeta in E1.
    apply bind_Ok in E1 as (pa & Ea & E1). cbv beta in E1.
    apply bind_Ok in E1 as (pb & Eb & E1). cbv beta in E1.
    apply clearWs_file in Ea. apply (AddPage_file _ _ _ _ _ Hk) in Eb.
    unfold restoreAfterBreak in E1. cbv zeta in E1.
    destruct (Qgtb (ws p) 0); [|injection E1 as <-]; file_chain. }
  clear E1. unfold Cell_draw in H0. cbv zeta in H0.
  apply bind_Ok in H0 as ([s2 p2] & E2 & H0). cbv beta iota in H0.
  apply bind_Ok in H0 as (p3 & E3 & H0). injection H0 as <-.
  assert (F2 : sameFile p1 p2).
  { destruct (negb (streq txt "")); [|injection E2 as _ <-; apply sameFile_refl].
    unfold cellText in E2. destruct (currentFont p1); [|discriminate].
    cbv zeta in E2. injection E2 as _ <-.
    destruct (linkIsSet link); [unfold Link|]; file_chain. }
  clear E2 Hk. unfold Cell_advance. cbv zeta.
  destruct (0 <? ln); [destruct (ln =? 1)|]; file_chain.
Qed.

Lemma justify_file (wd : Q) (line : string) (p q : Fpdf) :
  justify wd line p = Ok q -> sameFile p q.
Proof.
  unfold justify. cbv zeta. intros E. file_chain.
Qed.

Lemma MultiCell_iter_file (wd ht : Q) (s : list ascii) (b2 align : string)
    (fill : bool) (wmax : Q) (st st' : mcState) (p q : Fpdf) :
  hooksKeepFile ->
  MultiCell_iter wd ht s b2 align fill wmax st p = Ok (st', q) ->
  sameFile p q.
Proof.
  intros Hk. unfold MultiCell_iter. cbv zeta.
  destruct (bool_decide (nth (mc_i st) s "000"%char = nl_byte)).
  - intros H0.
    apply bind_Ok in H0 as (p1 & E1 & H0). cbv beta in H0.
    apply bind_Ok in H0 as (p2 & E2 & H0). injection H0 as _ <-.
    apply clearWs_file in E1. apply (Cell_file _ _ _ _ _ _ _ _ _ _ Hk) in E2.
    exact (sameFile_trans _ _ _ E1 E2).
  - destruct (Qgtb _ wmax); [|intros [= _ <-]; apply sameFile_refl].
    destruct (if bool_decide (nth (mc_i st) s "000"%char = sp_byte)
              then Some (mc_i st) else mc_sep st) as [sp|];
      intros H0;
      apply bind_Ok in H0 as (p1 & E1 & H0); cbv beta in H0;
      apply bind_Ok in H0 as (p2 & E2 & H0); injection H0 as _ <-;
      apply (Cell_file _ _ _ _ _ _ _ _ _ _ Hk) in E2.
    + assert (F1 : sameFile p p1)
        by (destruct (streq align "J");
            [exact (justify_file _ _ _ _ E1)
            | injection E1 as <-; apply sameFile_refl]).
      exact (sameFile_trans _ _ _ F1 E2).
    + apply clearWs_file in E1. exact (sameFile_trans _ _ _ E1 E2).
Qed.

Lemma MultiCell_loop_file (fuel : nat) (wd ht : Q) (s : list ascii)
    (nb : nat) (b2 align : string) (fill : bool) (wmax : Q)
    (st st' : mcState) (p q : Fpdf) :
  hooksKeepFile ->
  MultiCell_loop fuel wd ht s nb b2 align fill wmax st p = Some (Ok (st', q)) ->
  sameFile p q.
Proof.
  intros Hk. revert st p. induction fuel as [|fuel IH]; intros st p;
    cbn [MultiCell_loop]; destruct (nb <=? mc_i st)%nat;
    try (intros [= _ <-]; apply sameFile_refl); try discriminate.
  destruct (MultiCell_iter wd ht s b2 align fill wmax st p)
    as [[st1 p1]|m] eqn:E1; [|discriminate].
  intros E2. apply (MultiCell_iter_file _ _ _ _ _ _ _ _ _ _ _ Hk) in E1.
  exact (sameFile_trans _ _ _ E1 (IH _ _ E2)).
Qed.

Lemma MultiCell_file (wd ht : Q) (txt : string) (border : Border)
    (align : string) (fill : bool) (p q : Fpdf) :
  hooksKeepFile ->
  MultiCell wd ht txt border align fill p = Ok q -> sameFile p q.
Proof.
  intros Hk. unfold MultiCell. destruct (currentFont p); [|discriminate].
  cbv zeta. destruct (borderLetters border) as [b b2].
  match goal with
  | |- context [MultiCell_loop ?f ?a ?b ?c ?d ?e ?g ?h ?i ?j ?k] =>
      destruct (MultiCell_loop f a b c d e g h i j k) as [[[st1 p1]|m]|] eqn:E1;
        try discriminate
  end.
  apply (MultiCell_loop_file _ _ _ _ _ _ _ _ _ _ _ _ _ Hk) in E1.
  cbn [mbind Res_bind]. unfold MultiCell_last. intros H0.
  apply bind_Ok in H0 as (p2 & E2 & H0). cbv beta zeta in H0.
  apply bind_Ok in H0 as (p3 & E3 & H0). injection H0 as <-.
  apply clearWs_file in E2. apply (Cell_file _ _ _ _ _ _ _ _ _ _ Hk) in E3.
  clear Hk. file_chain.
Qed.

Lemma wrNextLine_file (i : nat) (st : wrState) (p : Fpdf) :
  sameFile p (wrNextLine i st p).2.
Proof.
  unfold wrNextLine. destruct (wr_nl st =? 1); cbn [snd]; file_chain.
Qed.

Lemma Write_iter_file (ht : Q) (s : list ascii) (link : LinkVal)
    (st st' : wrState) (p q : Fpdf) :
  hooksKeepFile ->
  Write_iter ht s link st p = Ok (st', q) -> sameFile p q.
Proof.
  intros Hk. unfold Write_iter. cbv zeta.
  assert (HC : forall wd txt i,
             (p ← Cell wd ht txt (BInt 0) 2 "" false link p;
              Ok (wrNextLine i st p)) = Ok (st', q) -> sameFile p q).
  { intros wd txt i H0. apply bind_Ok in H0 as (p1 & E1 & H0).
    apply (Cell_file _ _ _ _ _ _ _ _ _ _ Hk) in E1.
    pose proof (wrNextLine_file i st p1) as F2.
    destruct (wrNextLine i st p1) as [st2 p2]. injection H0 as _ <-.
    exact (sameFile_trans _ _ _ E1 F2). }
  destruct (bool_decide (nth (wr_i st) s "000"%char = nl_byte)); [apply HC|].
  destruct (Qgtb _ (wr_wmax st)); [|intros [= _ <-]; apply sameFile_refl].
  destruct (if bool_decide (nth (wr_i st) s "000"%char = sp_byte)
            then Some (wr_i st) else wr_sep st) as [sp|]; [apply HC|].
  destruct (Qgtb (x p) (lMargin p)); [|apply HC].
  intros [= _ <-]. clear. file_chain.
Qed.

Lemma Write_loop_file (fuel : nat) (ht : Q) (s : list ascii) (nb : nat)
    (link : LinkVal) (st st' : wrState) (p q : Fpdf) :
  hooksKeepFile ->
  Write_loop fuel ht s nb link st p = Some (Ok (st', q)) -> sameFile p q.
Proof.
  intros Hk. revert st p. induction fuel as [|fuel IH]; intros st p;
    cbn [Write_loop]; destruct (nb <=? wr_i st)%nat;
    try (intros [= _ <-]; apply sameFile_refl); try discriminate.
  destruct (Write_iter ht s link st p) as [[st1 p1]|m] eqn:E1;
    [|discriminate].
  intros E2. apply (Write_iter_file _ _ _ _ _ _ _ Hk) in E1.
  exact (sameFile_trans _ _ _ E1 (IH _ _ E2)).
Qed.

Lemma Write_file (ht : Q) (txt : string) (link : LinkVal) (p q : Fpdf) :
  hooksKeepFile -> Write ht txt link p = Ok q -> sameFile p q.
Proof.
  intros Hk. unfold Write. destruct (currentFont p); [|discriminate].
  cbv zeta.
  match goal with
  | |- context [Write_loop ?f ?a ?b ?c ?d ?e ?g] =>
      destruct (Write_loop f a b c d e g) as [[[st1 p1]|m]|] eqn:E1;
        try discriminate
  end.
  apply (Write_loop_file _ _ _ _ _ _ _ _ _ Hk) in E1.
  cbn [mbind Res_bind]. unfold Write_last.
  destruct (negb (wr_i st1 =? wr_j st1)%nat).
  - intros E2. apply (Cell_file _ _ _ _ _ _ _ _ _ _ Hk) in E2.
    exact (sameFile_trans _ _ _ E1 E2).
  - now intros [= <-].
Qed.

(** X11.  When the header and the footer of the host leave them alone, the
    counter of objects, the offsets and the bytes of the file are not
    touched by the operations that fill the pages: [AddPage], [SetFont],
    [Cell], [MultiCell] and [Write] hand them back as they got them.  Only
    [endDoc] writes the file. *)
Theorem content_keeps_file :
  hooksKeepFile ->
  (forall o s r p q, AddPage o s r p = Ok q -> sameFile p q)
  /\ (forall f s z p q, SetFont f s z p = Ok q -> sameFile p q)
  /\ (forall wd ht txt b ln a fill lk p q,
        Cell wd ht txt b ln a fill lk p = Ok q -> sameFile p q)
  /\ (forall wd ht txt b a fill p q,
        MultiCell wd ht txt b a fill p = Ok q -> sameFile p q)
  /\ (forall ht txt lk p q, Write ht txt lk p = Ok q -> sameFile p q).
Proof.
  intros Hk. split; [|split; [|split; [|split]]].
  - intros o s r p q. now apply AddPage_file.
  - intros f s z p q Hs. apply core_file. exact (SetFont_core _ _ _ _ _ Hs).
  - intros wd ht txt b ln a fill lk p q. now apply Cell_file.
  - intros wd ht txt b a fill p q. now apply MultiCell_file.
  - intros ht txt lk p q. now apply Write_file.
Qed.

End FileProperties.

Lemma content_keeps_file_witness :
  exists q,
    @Cell plainHost 40 10 "" (BInt 1) 0 "" false LNil pageDoc = Ok q
    /\ n q = 2 /\ offsets q = ∅ /\ buffer q = [].
Proof.
  assert (Hk : @hooksKeepFile plainHost) by (split; intros f p q [=]).
  destruct (@content_keeps_file plainHost Hk) as (_ & _ & Hc & _).
  destruct (@Cell plainHost 40 10 "" (BInt 1) 0 "" false LNil pageDoc)
    as [q|m] eqn:E; [|exfalso; vm_compute in E; discriminate].
  exists q. split; [reflexivity|].
  destruct (Hc _ _ _ _ _ _ _ _ _ _ E) as (C1 & C2 & C3).
  rewrite C1, C2, C3. vm_compute. auto.
Defined.

(** ** From the interface to the file *)

Section CloseFile.
Context `{Host}.

(** X12.  A document that has kept the counter of [Reset], closed by
    [Close] on a host whose header and footer leave the file alone: for
    every number N from 1 to the last one, the offset kept for N is the
    position in the file of a line "N 0 obj", and the file ends with the
    cross-reference table that prints these offsets. *)
Theorem Close_offsets (p q : Fpdf) (N : Z) :
  hooksKeepFile -> n p = 2 -> state p <> 3 -> Close p = Ok q ->
  1 <= N <= n q ->
  (exists pre post,
     buffer q = pre ++ bytes (objHeader N) ++ [nl_byte] ++ post
     /\ offsets q !! N = Some (Z.of_nat (length pre))
     /\ xrefLine q N
        = sprintf_0d 10 (Z.of_nat (length pre)) +:+ " 00000 n ")
  /\ exists body,
       buffer q = body ++ linesBytes (xrefLines q (Z.of_nat (length body))).
Proof.
  intros Hk Hn Hs Hc. unfold Close in Hc.
  destruct (state p =? 3) eqn:E3; [apply Z.eqb_eq in E3; contradiction|].
  apply bind_Ok in Hc as (p1 & E1 & Hc). cbv beta in Hc.
  apply bind_Ok in Hc as (p2 & E2 & Hc). cbv beta zeta in Hc.
  injection Hc as <-.
  assert (F1 : sameFile p p1).
  { destruct (page p =? 0); [|injection E1 as <-; apply sameFile_refl].
    exact (AddPage_file _ _ _ _ _ Hk E1). }
  apply (Footer_file _ _ Hk) in E2.
  assert (Hn2 : n (endPage (set_inFooter false p2)) = 2).
  { destruct F1 as (F1 & _). destruct E2 as (E2 & _).
    unfold endPage. fields. fields_in E2. congruence. }
  revert Hn2. generalize (endPage (set_inFooter false p2)). intros p3 Hn3 HN.
  split.
  - exact (endDoc_offsets p3 N Hn3 HN).
  - destruct (endDoc_trailer p3) as (body & Hb & _). eauto.
Qed.

End CloseFile.

Lemma Close_offsets_witness :
  exists q pre post,
    @Close plainHost pageDoc = Ok q
    /\ buffer q = pre ++ bytes (objHeader 1) ++ [nl_byte] ++ post
    /\ offsets q !! 1 = Some (Z.of_nat (length pre)).
Proof.
  assert (Hk : @hooksKeepFile plainHost) by (split; intros f p q [=]).
  destruct (@Close plainHost pageDoc) as [q|m] eqn:E;
    [|exfalso; vm_compute in E; discriminate].
  assert (Hq : 1 <= 1 <= n q).
  { assert (Hv : (@Close plainHost pageDoc ≫= fun r => Ok (n r)) = Ok 6)
      by (vm_compute; reflexivity).
    rewrite E in Hv. cbn [mbind Res_bind] in Hv. injection Hv as Hv. lia. }
  destruct (@Close_offsets plainHost pageDoc q 1 Hk) as ((pre & post & B & O & _) & _);
    [vm_compute; reflexivity | vm_compute; discriminate | exact E | exact Hq |].
  exists q, pre, post. auto.
Defined.

(** ** Line breaks *)


Section LineProperties.
Context `{Host}.



End LineProperties.

(** ** The numbers planned for the annotations *)

Section AnnotProperties.
Context `{Host}.

(** The links of a page as [Link] makes them: nothing follows the five
    values of a link. *)
Definition freshLinks (l : list PageLink) : Prop :=
  Forall (fun pl => pl_tail pl = []) l.

Lemma numberLinks_numbers (m : Z) (l : list PageLink) :
  freshLinks l ->
  map pl_n (numberLinks m l).1 = seqZ (m + 1) (Z.of_nat (length l)).
Proof.
  revert m. induction l as [|pl l IH]; intros m Hf; [reflexivity|].
  apply Forall_cons in Hf as [Hpl Hf]. cbn [numberLinks].
  specialize (IH (m + 1) Hf).
  destruct (numberLinks (m + 1) l) as [rest' m'] eqn:E. cbn [fst] in *.
  cbn [map length]. rewrite IH, Nat2Z.inj_succ, <- Z.add_1_r.
  rewrite seqZ_step by lia. unfold pl_n at 1. cbn [pl_tail]. rewrite Hpl.
  reflexivity.
Qed.

(** Pass 1 at page [i]: the numbers of its annotations follow the numbers
    of its dictionary and of its content stream; the links of the other
    pages stay. *)
Lemma planPage_links (m : Z) (p : Fpdf) (i : Z) :
  freshLinks (default [] (pageLinks p !! i)) ->
  map pl_n (default [] (pageLinks (planPage (m, p) i).2 !! i))
  = seqZ (m + 3) (Z.of_nat (linkCount (pageLinks p) i))
  /\ forall j, j <> i ->
       pageLinks (planPage (m, p) i).2 !! j = pageLinks p !! j.
Proof.
  intros Hf. unfold planPage, linkCount. cbv zeta. fields.
  destruct (pageLinks p !! i) as [l|] eqn:El; cbn [default id] in *.
  - pose proof (numberLinks_numbers (m + 1 + 1) l Hf) as Hn.
    destruct (numberLinks (m + 1 + 1) l) as [l' m'] eqn:E.
    cbn [fst snd] in *. fields. split.
    + rewrite lookup_insert_eq. cbn [default id]. rewrite Hn. f_equal. lia.
    + intros j Hj. now rewrite lookup_insert_ne by congruence.
  - cbn [snd]. fields. rewrite El. cbn. split; [reflexivity | auto].
Qed.

Lemma planPage_fold_links (pgs : list Z) (m : Z) (p : Fpdf) :
  NoDup pgs ->
  (forall i, i ∈ pgs -> freshLinks (default [] (pageLinks p !! i))) ->
  let r := fold_left planPage pgs (m, p) in
  (forall i, i ∈ pgs ->
     map pl_n (default [] (pageLinks r.2 !! i))
     = seqZ (pageObj i r.2 + 2) (Z.of_nat (linkCount (pageLinks p) i)))
  /\ forall j, j ∉ pgs -> pageLinks r.2 !! j = pageLinks p !! j.
Proof.
  cbv zeta. revert m p. induction pgs as [|i pgs IH]; intros m p Hnd Hf.
  - cbn. split; [intros i Hi; now apply elem_of_nil in Hi | auto].
  - apply NoDup_cons in Hnd as [Hi Hnd]. rewrite fold_left_step.
    destruct (planPage_links m p i (Hf i (list_elem_of_here _ _)))
      as [L1 L2].
    destruct (planPage_spec m p i) as (P1 & M1 & Oi & Oj).
    destruct (planPage_fold_numbers pgs (planPage (m, p) i).1
                (planPage (m, p) i).2 Hnd) as [_ K2].
    cbv zeta in K2.
    destruct (planPage (m, p) i) as [m1 p1]. cbn [fst snd] in *.
    assert (Hf1 : forall j, j ∈ pgs ->
                    freshLinks (default [] (pageLinks p1 !! j))).
    { intros j Hj. rewrite L2 by (intros ->; contradiction).
      apply Hf. now apply list_elem_of_further. }
    destruct (IH m1 p1 Hnd Hf1) as [IH1 IH2].
    assert (HL : forall j, linkCount (pageLinks p1) j
                           = linkCount (pageLinks p) j)
      by (destruct P1 as (_ & _ & _ & _ & _ & _ & ?); assumption).
    split.
    + intros j Hj. apply elem_of_cons in Hj as [->|Hj].
      * rewrite (IH2 i Hi), (K2 i Hi), Oi, L1. f_equal. lia.
      * rewrite (IH1 j Hj), HL. reflexivity.
    + intros j Hj. apply not_elem_of_cons in Hj as [Hne Hj].
      rewrite (IH2 j Hj). now apply L2.
Qed.

(** X14.  After pass 1 of [putPages] over links as [Link] makes them, the
    numbers that a page lists as its annotations are the numbers that
    follow its dictionary and its content stream one after the other: the
    numbers under which pass 2 writes its annotations. *)
Theorem putPages_annots (p : Fpdf) (i : Z) :
  (forall j, freshLinks (default [] (pageLinks p !! j))) ->
  1 <= i <= page p ->
  let q := planPages p in
  map pl_n (default [] (pageLinks q !! i))
  = seqZ (pageObj i q + 2) (Z.of_nat (linkCount (pageLinks p) i))
  /\ linkCount (pageLinks q) i = linkCount (pageLinks p) i.
Proof.
  intros Hf Hi. cbv zeta. unfold planPages.
  destruct (planPage_fold_links (seqZ 1 (page p)) (n p) p (NoDup_seqZ _ _))
    as [K1 _]; [intros j _; apply Hf|].
  cbv zeta in K1. split.
  - apply K1. apply elem_of_seqZ. lia.
  - destruct (planPage_fold (seqZ 1 (page p)) (n p) p) as [P _].
    destruct P as (_ & _ & _ & _ & _ & _ & HL). apply HL.
Qed.

End AnnotProperties.

(** The links of the first page of the sample document. *)
Definition linkPdfLinks : list PageLink := Eval vm_compute in
  default [] (pageLinks linkPdf !! 1).

Lemma putPages_annots_witness :
  map pl_n (default [] (pageLinks (planPages linkPdf) !! 1)) = [5].
Proof.
  destruct (putPages_annots linkPdf 1) as [Ha _].
  - intros j. unfold freshLinks.
    assert (Hl : pageLinks linkPdf = {[ 1 := linkPdfLinks ]})
      by (vm_compute; reflexivity).
    rewrite Hl. destruct (decide (j = 1)) as [->|Hne].
    + rewrite lookup_singleton_eq. cbn. repeat constructor.
    + rewrite lookup_singleton_ne by congruence. constructor.
  - vm_compute. split; discriminate.
  - rewrite Ha. vm_compute. reflexivity.
Defined.

(** ** What Reset leaves in place *)

Section ResetProperties.
Context `{Host}.

(** The fields of the font in use that [Reset] does not assign, and those
    of the font table that it clears. *)
Definition fontView (p : Fpdf) : option pdfFont * Q * gmap string pdfFont
                                 * string * string :=
  (currentFont p, fontSize p, fonts p, fontFamily p, fontStyle p).

Lemma Reset_fields_font (p : Fpdf) :
  fontView (Reset_fields p) = (currentFont p, fontSize p, ∅, "", "").
Proof. unfold fontView, Reset_fields. fields. reflexivity. Qed.

Lemma Reset_unit_font (unit : string) (p : Fpdf) :
  fontView (Reset_unit unit p) = fontView p.
Proof.
  unfold fontView, Reset_unit, setError.
  destruct (unitScale _); fields; reflexivity.
Qed.

Lemma Reset_page_font (orientation size : string) (p : Fpdf) :
  fontView (Reset_page orientation size p) = fontView p.
Proof.
  unfold fontView, Reset_page. fields. destruct (_ || _); fields; reflexivity.
Qed.

Lemma Reset_defaults_font (p : Fpdf) :
  fontView (Reset_defaults p) = fontView p.
Proof.
  unfold fontView, Reset_defaults, SetMargins, SetAutoPageBreak,
    SetDisplayMode, SetCompression.
  fields. reflexivity.
Qed.

(** X15.  [Reset] empties the table of fonts and the family and style of the
    selection, but it does not assign the font in use nor its size in user
    units: a document that had a font selected keeps it through [Reset], so
    that texts are still measured, and accepted by [Cell], with a font that
    the table no longer holds.  On the empty document of [NewFpdf] no font
    is in use. *)
Theorem Reset_keeps_font (orientation unit size : string) (p : Fpdf) :
  let q := Reset orientation unit size p in
  fonts q = ∅ /\ fontFamily q = "" /\ fontStyle q = ""
  /\ currentFont q = currentFont p /\ fontSize q = fontSize p
  /\ (forall t, GetStringWidth t q = GetStringWidth t p)
  /\ currentFont (NewFpdf orientation unit size) = None.
Proof.
  assert (HV : forall p0,
             fontView (Reset orientation unit size p0)
             = (currentFont p0, fontSize p0, ∅, "", "")).
  { intros p0. unfold Reset. cbv zeta.
    now rewrite Reset_defaults_font, Reset_page_font, Reset_unit_font,
      Reset_fields_font. }
  cbv zeta. pose proof (HV p) as Hp. pose proof (HV zeroFpdf) as H0.
  unfold NewFpdf. revert Hp H0.
  generalize (Reset orientation unit size p).
  generalize (Reset orientation unit size zeroFpdf).
  intros q0 q Hp H0. unfold fontView in *.
  injection Hp as Hc Hs Hf Hfam Hsty. injection H0 as Hc0 _ _ _ _.
  repeat split; try assumption.
  intros t. unfold GetStringWidth. now rewrite Hc, Hs.
Qed.

End ResetProperties.

(** ** A new page *)

Section NewPage.
Context `{Host}.

(** The fields that the geometry of a new page leaves alone. *)
Definition penView (p : Fpdf) :=
  (page p, state p, x p, y p, pages p, k p, lineWidth p, drawColor p,
   fillColor p, textColor p, colorFlag p, lMargin p, tMargin p).

Definition samePen (p q : Fpdf) : Prop := penView q = penView p.

Lemma samePen_trans (p1 p2 p3 : Fpdf) :
  samePen p1 p2 -> samePen p2 p3 -> samePen p1 p3.
Proof. unfold samePen. congruence. Qed.

Lemma samePen_let (p e : Fpdf) (b : Fpdf -> Fpdf) :
  samePen p e -> (forall y, samePen p y -> samePen p (b y)) ->
  samePen p (let x := e in b x).
Proof. intros He Hb. now apply Hb. Qed.

Lemma samePen_let_any {A : Type} (p : Fpdf) (e : A) (b : A -> Fpdf) :
  (forall y, samePen p (b y)) -> samePen p (let x := e in b x).
Proof. intros Hb. apply Hb. Qed.

Ltac pen_goal :=
  repeat match goal with
    | Hy : samePen ?p ?y |- samePen ?p ?y => exact Hy
    | |- samePen ?p ?p => reflexivity
    | |- samePen ?p (let x := ?e in @?b x) =>
        first
          [ apply (samePen_let p e b);
            [|let y := fresh "y" in
              let Hy := fresh "Hy" in intros y Hy; cbv beta]
          | apply (samePen_let_any p e b);
            let y := fresh "y" in intros y; cbv beta ]
    | |- samePen ?p (if ?c then _ else _) => destruct c
    | |- samePen ?p (?f ?a ?q) =>
        apply (samePen_trans p q);
        [|solve [unfold samePen, penView, updInfo; fields; reflexivity]]
    end.

Lemma let_front (P : Fpdf -> Prop) (e : Fpdf) (b : Fpdf -> Fpdf) :
  (forall y, y = e -> P (b y)) -> P (let x := e in b x).
Proof. intros Hb. now apply Hb. Qed.

(** The page that [beginPage] opens. *)
Definition opened (p q : Fpdf) : Prop :=
  page q = page p + 1 /\ state q = 2 /\ x q = lMargin p /\ y q = tMargin p
  /\ pages q = <[page p + 1 := []]> (pages p)
  /\ k q = k p /\ lMargin q = lMargin p /\ tMargin q = tMargin p
  /\ lineWidth q = lineWidth p /\ drawColor q = drawColor p
  /\ fillColor q = fillColor p.

Lemma beginPage_opened (orientation size : string) (rotation : Z)
    (p : Fpdf) :
  opened p (beginPage orientation size rotation p).
Proof.
  cbv beta delta [beginPage].
  do 7 (match goal with
        | |- opened ?p0 (let x := ?e in @?b x) =>
            apply (let_front (opened p0) e b);
            let y := fresh "y" in
            let Ey := fresh "Ey" in intros y Ey; cbv beta
        end).
  match goal with
  | Ey : ?y = set_fontFamily _ _ |- opened _ ?t =>
      assert (Ho : opened p y)
        by (subst; unfold opened; fields; repeat split);
      assert (Hr : samePen y t) by (clear; pen_goal);
      revert Hr; generalize t
  end.
  intros q Hq. unfold samePen, penView in Hq.
  destruct Ho as (A1 & A2 & A3 & A4 & A5 & A6 & A7 & A8 & A9 & A10 & A11).
  injection Hq as B1 B2 B3 B4 B5 B6 B7 B8 B9 B10 B11 B12 B13.
  unfold opened. repeat split; congruence.
Qed.

(** What the footer of the page before leaves. *)
Definition samePen' (p q : Fpdf) : Prop :=
  page q = page p /\ pages q = pages p /\ k q = k p
  /\ lMargin q = lMargin p /\ tMargin q = tMargin p
  /\ lineWidth q = lineWidth p /\ drawColor q = drawColor p
  /\ fillColor q = fillColor p.

(** The page being filled after [AddPage] has opened it: [L] is what has
    been sent to it so far. *)
Definition filling (p : Fpdf) (L : list string) (q : Fpdf) : Prop :=
  page q = page p + 1 /\ state q = 2 /\ x q = lMargin p /\ y q = tMargin p
  /\ k q = k p /\ lineWidth q = lineWidth p /\ drawColor q = drawColor p
  /\ fillColor q = fillColor p
  /\ pages q !! (page p + 1) = Some L
  /\ forall j, j <> page p + 1 -> pages q !! j = pages p !! j.

(** A computation that ends normally, in a state that satisfies [Q]. *)
Definition yields (Q : Fpdf -> Prop) (r : Res Fpdf) : Prop :=
  exists q, r = Ok q /\ Q q.

Lemma yields_let {A : Type} (Q : Fpdf -> Prop) (e : A) (b : A -> Res Fpdf) :
  (forall z, z = e -> yields Q (b z)) -> yields Q (let x := e in b x).
Proof. intros Hb. now apply Hb. Qed.

Lemma yields_bind (Q : Fpdf -> Prop) (e : Res Fpdf) (f : Fpdf -> Res Fpdf)
    (a : Fpdf) :
  e = Ok a -> yields Q (f a) -> yields Q (e ≫= f).
Proof. intros -> Hf. exact Hf. Qed.

Lemma filling_out (p : Fpdf) (L : list string) (c : bool) (s : string)
    (q : Fpdf) :
  filling p L q ->
  exists q',
    (if c then out s q else Ok q) = Ok q'
    /\ filling p (L ++ (if c then [s] else [])) q'.
Proof.
  intros HF. destruct c.
  - exists (appendOp s q). destruct HF as (F1 & F2 & F3 & F4 & F5 & F6 & F7
                                           & F8 & F9 & F10).
    split; [now apply out_open|].
    unfold filling, appendOp. fields. rewrite F1.
    repeat split; try assumption.
    + rewrite lookup_insert_eq, F9. reflexivity.
    + intros j Hj. rewrite lookup_insert_ne by congruence. now apply F10.
  - exists q. split; [reflexivity|]. now rewrite app_nil_r.
Qed.

Lemma filling_fields (p : Fpdf) (L : list string) (q : Fpdf) :
  filling p L q ->
  k q = k p /\ lineWidth q = lineWidth p /\ drawColor q = drawColor p
  /\ fillColor q = fillColor p.
Proof. intros (_ & _ & _ & _ & A & B & C & D & _). auto. Qed.

Lemma Qneqb_refl (a : Q) : Qneqb a a = false.
Proof.
  unfold Qneqb. apply negb_false_iff, Qeq_bool_iff. reflexivity.
Qed.

(** A binding of a value is read through; a binding of a state that an
    assignment makes keeps the page being filled. *)
Ltac fill_let HF :=
  match goal with
  | |- yields ?Q (let x := ?e in @?b x) =>
      apply (yields_let Q e b);
      let z := fresh "z" in
      let Ez := fresh "Ez" in
      intros z Ez; cbv beta;
      first
        [ let HF' := fresh "HF" in
          match type of HF with
          | filling ?p0 ?L0 _ =>
              assert (HF' : filling p0 L0 z)
                by (subst z;
                    destruct HF as (? & ? & ? & ? & ? & ? & ? & ? & ? & ?);
                    unfold filling; fields;
                    repeat split; first [assumption | reflexivity])
          end;
          clear Ez HF; rename HF' into HF
        | subst z ]
  end.

(** A write to the page, under a test or not. *)
Ltac fill_out HF :=
  try rewrite (proj1 (filling_fields _ _ _ HF));
  match goal with
  | |- yields ?Q ((if ?c then out ?s ?y else Ok ?y) ≫= ?f) =>
      let y' := fresh "y" in
      let Eo := fresh "Eo" in
      let HF' := fresh "HF" in
      destruct (filling_out _ _ c s y HF) as (y' & Eo & HF');
      apply (yields_bind Q _ f y' Eo); cbv beta;
      clear Eo HF; rename HF' into HF
  | |- yields ?Q (out ?s ?y ≫= ?f) =>
      let y' := fresh "y" in
      let Eo := fresh "Eo" in
      let HF' := fresh "HF" in
      destruct (filling_out _ _ true s y HF) as (y' & Eo & HF');
      apply (yields_bind Q _ f y' Eo); cbv beta;
      clear Eo HF; rename HF' into HF
  end.

(** X16.  On a host without header and footer, a document that is not
    closed and has no font selected gets from [AddPage] a new page: the
    call ends normally, the page number is one more, the document is in
    the page state, the cursor is at the left and top margins, and what
    has been sent to the new page is the line cap, the line width in force
    and, when they are not black, the colours of drawing and of filling;
    the other pages are as they were. *)
Theorem AddPage_opens (orientation size : string) (rotation : Z)
    (p : Fpdf) :
  headerFunc = None -> footerFunc = None ->
  state p <> 3 -> fontFamily p = "" ->
  exists q,
    AddPage orientation size rotation p = Ok q
    /\ page q = page p + 1 /\ state q = 2
    /\ x q = lMargin p /\ y q = tMargin p
    /\ pages q !! (page p + 1)
       = Some (["2 J"; F2 (lineWidth p * k p)%Q +:+ " w"]
               ++ (if negb (streq (drawColor p) "0 G")
                   then [drawColor p] else [])
               ++ (if negb (streq (fillColor p) "0 g")
                   then [fillColor p] else []))
    /\ forall j, j <> page p + 1 -> pages q !! j = pages p !! j.
Proof.
  intros Hh Hf Hs Hfam.
  set (L := ["2 J"; F2 (lineWidth p * k p)%Q +:+ " w"]
            ++ (if negb (streq (drawColor p) "0 G")
                then [drawColor p] else [])
            ++ (if negb (streq (fillColor p) "0 g")
                then [fillColor p] else [])).
  enough (HY : yields (filling p L) (AddPage orientation size rotation p)).
  { destruct HY as (q & Hq & F1 & F2 & F3 & F4 & _ & _ & _ & _ & F9 & F10).
    exists q. repeat split; assumption. }
  cbv beta delta [AddPage].
  destruct (state p =? 3) eqn:E3; [apply Z.eqb_eq in E3; contradiction|].
  do 8 (match goal with
        | |- yields ?Q (let x := ?e in @?b x) =>
            apply (yields_let Q e b);
            let z := fresh "v" in intros z ?; cbv beta
        end).
  subst. rewrite Hfam.
  (* the footer of the page before *)
  set (p1 := if 0 <? page p
             then endPage (set_inFooter false (set_inFooter true p)) else p).
  assert (E1 : (if 0 <? page p
                then p0 ← Footer (set_inFooter true p);
                     Ok (endPage (set_inFooter false p0))
                else Ok p) = Ok p1).
  { subst p1. unfold Footer. rewrite Hf. now destruct (0 <? page p). }
  assert (HP : samePen' p p1).
  { subst p1. unfold samePen'. destruct (0 <? page p); unfold endPage; fields;
      repeat split. }
  apply (yields_bind _ _ _ p1 E1). cbv beta. clear E1. clearbody p1.
  (* the new page *)
  match goal with
  | |- yields ?Q (let x := ?e in @?b x) =>
      apply (yields_let Q e b); intros y0 Ey; cbv beta
  end.
  assert (HF : filling p [] y0).
  { pose proof (beginPage_opened orientation size rotation p1) as Ho.
    rewrite <- Ey in Ho.
    destruct Ho as (A1 & A2 & A3 & A4 & A5 & A6 & A7 & A8 & A9 & A10 & A11).
    destruct HP as (B1 & B2 & B3 & B4 & B5 & B6 & B7 & B8).
    unfold filling. rewrite A1, A2, A3, A4, A5, A6, A9, A10, A11.
    rewrite B1, B2, B3, B4, B5, B6, B7, B8.
    repeat split.
    - now rewrite lookup_insert_eq.
    - intros j Hj. now rewrite lookup_insert_ne by congruence. }
  clear Ey HP p1.
  fill_out HF. fill_let HF. fill_out HF.
  (* no font to set *)
  apply (yields_bind _ _ _ _ eq_refl). cbv beta.
  fill_let HF. fill_out HF. fill_let HF. fill_out HF.
  fill_let HF. fill_let HF.
  (* the header *)
  cbv beta delta [Header]. rewrite Hh.
  apply (yields_bind _ _ _ _ eq_refl). cbv beta.
  fill_let HF.
  (* nothing to put back *)
  destruct (filling_fields _ _ _ HF) as (_ & Hlw & Hdc & Hfc).
  rewrite Hlw, Qneqb_refl.
  apply (yields_bind _ _ _ _ eq_refl). cbv beta.
  apply (yields_bind _ _ _ _ eq_refl). cbv beta.
  rewrite Hdc, streq_refl.
  apply (yields_bind _ _ _ _ eq_refl). cbv beta.
  rewrite Hfc, streq_refl.
  apply (yields_bind _ _ _ _ eq_refl). cbv beta.
  clear Hlw Hdc Hfc.
  fill_let HF.
  match goal with
  | |- yields _ (Ok ?q) =>
      exists q; split; [reflexivity|];
      destruct HF as (? & ? & ? & ? & ? & ? & ? & ? & HL & ?);
      unfold filling; fields; repeat split; assumption
  end.
Qed.

End NewPage.

Lemma AddPage_opens_witness :
  exists q,
    @AddPage plainHost "" "" 0 (@NewFpdf plainHost "P" "mm" "A4") = Ok q
    /\ page q = 1 /\ state q = 2
    /\ pages q !! 1 = Some ["2 J"; "0.57 w"].
Proof.
  destruct (@AddPage_opens plainHost "" "" 0 (@NewFpdf plainHost "P" "mm" "A4"))
    as (q & Hq & Hp & Hs & _ & _ & Hl & _);
    [reflexivity | reflexivity | vm_compute; discriminate | reflexivity |].
  exists q. split; [exact Hq|]. split; [exact Hp|]. split; [exact Hs|].
  assert (Hpg : page (@NewFpdf plainHost "P" "mm" "A4") + 1 = 1)
    by reflexivity.
  rewrite Hpg in Hl. rewrite Hl. vm_compute. reflexivity.
Defined.

(** ** The information dictionary *)

Section InfoProperties.
Context `{Host}.

(** The line of the information dictionary for a key. *)
Definition infoLine (p : Fpdf) (key : string) : string :=
  "/" +:+ key +:+ " " +:+ textString (default "" (metadata p !! key)).

Lemma leb_Total : Total (fun a b : string => Is_true (String.leb a b)).
Proof.
  intros a b. destruct (String.leb_total a b) as [E|E]; rewrite E; cbn; auto.
Qed.

Lemma putInfoLines_fold (l : list string) (p0 p : Fpdf) :
  metadata p = metadata p0 ->
  let q :=
    fold_left (fun p key =>
      put ("/" +:+ key +:+ " "
           +:+ textString (default "" (metadata p !! key))) p) l p in
  buffer q = buffer p ++ linesBytes (map (infoLine p0) l)
  /\ metadata q = metadata p0.
Proof.
  cbv zeta. revert p. induction l as [|key l IH]; intros p Hm.
  - cbn. now rewrite app_nil_r.
  - rewrite fold_left_step. cbv beta. rewrite Hm. fold (infoLine p0 key).
    pose proof (put_buffer (infoLine p0 key) p) as B.
    assert (M : metadata (put (infoLine p0 key) p) = metadata p0)
      by (rewrite <- Hm; reflexivity).
    revert B M. generalize (put (infoLine p0 key) p). intros p1 B M.
    destruct (IH p1 M) as [B2 M2]. split; [|exact M2].
    rewrite B2, B. cbn [map]. rewrite linesBytes_cons, <- !app_assoc.
    reflexivity.
Qed.

(** X17.  [putInfo] records the creation date among the metadata and
    writes one line for each key of the metadata, the keys in increasing
    order of their bytes and each one once, whatever the order in which
    the map hands them out. *)
Theorem putInfo_sorted (p : Fpdf) :
  let q := putInfo p in
  exists keys,
    buffer q = buffer p ++ linesBytes (map (infoLine q) keys)
    /\ Sorted (fun a b : string => String.leb a b) keys
    /\ NoDup keys
    /\ (forall key, key ∈ keys <-> is_Some (metadata q !! key))
    /\ "CreationDate" ∈ keys.
Proof.
  cbv zeta. unfold putInfo. cbv zeta.
  assert (H1 : buffer (setCreationDate p) = buffer p
               /\ is_Some (metadata (setCreationDate p) !! "CreationDate")).
  { unfold setCreationDate. cbv zeta. fields. split; [reflexivity|].
    rewrite lookup_insert_eq. eauto. }
  revert H1. generalize (setCreationDate p). intros p1 [B1 C1].
  unfold putInfoLines.
  set (keys := merge_sort (fun a b : string => String.leb a b)
                 (map fst (map_to_list (metadata p1)))).
  destruct (putInfoLines_fold keys p1 p1 eq_refl) as [B2 M2].
  cbv zeta in B2, M2. revert B2 M2.
  match goal with
  | |- context [fold_left ?f keys p1] => generalize (fold_left f keys p1)
  end.
  intros q B2 M2.
  assert (HP : keys ≡ₚ map fst (map_to_list (metadata p1)))
    by apply merge_sort_Permutation.
  assert (HK : forall key, key ∈ keys <-> is_Some (metadata p1 !! key)).
  { intros key. rewrite HP, list_elem_of_fmap. split.
    - intros ([k0 v] & -> & Hkv). apply elem_of_map_to_list in Hkv.
      cbn. eauto.
    - intros [v Hv]. exists (key, v). split; [reflexivity|].
      now apply elem_of_map_to_list. }
  exists keys. split; [|split; [|split; [|split]]].
  - rewrite B2, B1. do 2 f_equal. apply map_ext. intros key.
    unfold infoLine. now rewrite M2.
  - apply Sorted_merge_sort. apply leb_Total.
  - rewrite HP. apply NoDup_fst_map_to_list.
  - intros key. rewrite M2. apply HK.
  - apply HK. exact C1.
Qed.

End InfoProperties.
